(** * VMD_CommonSupplier: the merge-and-reconciliation core of
      [commonsupplier.py] and [main.py], embedded in Rocq.

    The repository has two entry points that run the same pipeline over a
    workbook read with [pd.read_excel(..., header=1, dtype=str)]:

    - [commonsupplier.py] (explicit-pairs mode): the caller supplies the
      (parent, child) pairs;
    - [main.py] (positional mode): identifiers are classified by the
      character at index 3 and a single reference parent is used.

    The helper functions and the per-sheet loops are the same text in both
    files except at the places marked below; the definitions take an
    [entry_point] where the two files differ.  The workbook assembly
    (Step 9 onwards: writing, highlighting, hiding, styling) is not part of
    this development. *)

From Stdlib Require Import Ascii String.
From stdpp Require Import base decidable option list strings gmap sets.

Local Open Scope string_scope.
Local Open Scope list_scope.

(* ================================================================== *)
(** * Python strings *)
(* ================================================================== *)

(** A character is a code point below 256 (Latin-1), carried by [ascii];
    ASCII literals of the source are the same literals here.  All string
    comparisons of the pipeline are against ASCII literals. *)
Module PyStr.

(** [str.isspace] on one code point: TAB..CR, FS..US, space, NEL, NBSP. *)
Definition isspace (c : ascii) : bool :=
  let n := nat_of_ascii c in
  (((9 <=? n) && (n <=? 13)) || ((28 <=? n) && (n <=? 32))
   || (n =? 133) || (n =? 160))%nat.

(** [str.lower] on one code point (A-Z and the Latin-1 capital letters). *)
Definition lower_char (c : ascii) : ascii :=
  let n := nat_of_ascii c in
  if (((65 <=? n) && (n <=? 90)) || ((192 <=? n) && (n <=? 214))
      || ((216 <=? n) && (n <=? 222)))%nat
  then ascii_of_nat (n + 32) else c.

(** [str.upper] on one code point.  Python sends U+00B5, U+00DF and U+00FF
    outside Latin-1 (or to "SS"); they are left in place here, which gives
    the same answer to the only use, the comparison with ["LF"]. *)
Definition upper_char (c : ascii) : ascii :=
  let n := nat_of_ascii c in
  if (((97 <=? n) && (n <=? 122)) || ((224 <=? n) && (n <=? 246))
      || ((248 <=? n) && (n <=? 254)))%nat
  then ascii_of_nat (n - 32) else c.

Fixpoint map_chars (f : ascii → ascii) (s : string) : string :=
  match s with
  | EmptyString => EmptyString
  | String c s' => String (f c) (map_chars f s')
  end.

Definition lower : string → string := map_chars lower_char.
Definition upper : string → string := map_chars upper_char.

Fixpoint lstrip (s : string) : string :=
  match s with
  | EmptyString => EmptyString
  | String c s' => if isspace c then lstrip s' else s
  end.

Fixpoint rstrip (s : string) : string :=
  match s with
  | EmptyString => EmptyString
  | String c s' =>
      match rstrip s' with
      | EmptyString => if isspace c then EmptyString else String c EmptyString
      | r => String c r
      end
  end.

(** [s.strip()] *)
Definition strip (s : string) : string := rstrip (lstrip s).

(** [s.replace(" ", "")] *)
Fixpoint remove_spaces (s : string) : string :=
  match s with
  | EmptyString => EmptyString
  | String c s' =>
      if Ascii.eqb c " " then remove_spaces s' else String c (remove_spaces s')
  end.

(** [s.replace(NBSP, " ")], NBSP being U+00A0 *)
Definition nbsp : ascii := ascii_of_nat 160.
Definition replace_nbsp : string → string :=
  map_chars (λ c, if Ascii.eqb c nbsp then " "%char else c).

(** [s[i]], [None] when out of range. *)
Definition char_at (s : string) (i : nat) : option ascii := String.get i s.

End PyStr.

(* ================================================================== *)
(** * Python dictionaries *)
(* ================================================================== *)

(** A [dict] with string keys: CPython keeps insertion order and an
    assignment to an existing key keeps the key's position. *)
Module PyDict.

Abbreviation dict V := (list (string * V)).

Fixpoint get {V} (d : dict V) (k : string) : option V :=
  match d with
  | [] => None
  | (k', v) :: d' => if decide (k' = k) then Some v else get d' k
  end.

(** [d[k] = v] *)
Fixpoint set {V} (d : dict V) (k : string) (v : V) : dict V :=
  match d with
  | [] => [(k, v)]
  | (k', v') :: d' =>
      if decide (k' = k) then (k, v) :: d' else (k', v') :: set d' k v
  end.

Definition keys {V} (d : dict V) : list string := d.*1.

(** [k in d] *)
Definition mem {V} (d : dict V) (k : string) : bool :=
  match get d k with Some _ => true | None => false end.

End PyDict.
Import PyDict.

(* ================================================================== *)
(** * Data frames *)
(* ================================================================== *)

(** With [dtype=str] a cell is a Python string or, for an empty cell, the
    float NaN. *)
Inductive cell : Type :=
  | NaN
  | Str (s : string).

#[global] Instance cell_eq_dec : EqDecision cell.
Proof. solve_decision. Defined.

(** [str(v)] *)
Definition str (v : cell) : string :=
  match v with NaN => "nan" | Str s => s end.

(** [pd.isna(v)] *)
Definition isna (v : cell) : bool :=
  match v with NaN => true | Str _ => false end.

(** A frame as pandas holds it: the labels in order, each with its column
    of values over the RangeIndex [0 .. nrows-1] that [read_excel] gives.
    A label-based access resolves to the first column carrying the label;
    [read_excel] makes labels distinct, and frames whose labels collide
    after [clean_headers] are outside this model. *)
Record DataFrame : Type := mkDF {
  nrows : nat;
  cols : list (string * (nat → cell))
}.

(** [df.columns] *)
Definition columns (df : DataFrame) : list string := (cols df).*1.

Fixpoint col_lookup (cs : list (string * (nat → cell))) (col : string)
  : option (nat → cell) :=
  match cs with
  | [] => None
  | (c, f) :: cs' => if decide (c = col) then Some f else col_lookup cs' col
  end.

(** [df.at[idx, col]], a read.  pandas raises [KeyError] on an unknown
    label; every read of the pipeline uses a label taken from [df.columns],
    and NaN stands for the value that is never delivered. *)
Definition df_at (df : DataFrame) (idx : nat) (col : string) : cell :=
  match col_lookup (cols df) col with
  | Some f => f idx
  | None => NaN
  end.

Fixpoint col_update (cs : list (string * (nat → cell))) (col : string)
  (idx : nat) (v : cell) : list (string * (nat → cell)) :=
  match cs with
  | [] => []
  | (c, f) :: cs' =>
      if decide (c = col)
      then (c, λ i, if decide (i = idx) then v else f i) :: cs'
      else (c, f) :: col_update cs' col idx v
  end.

(** [df.at[idx, col] = v], on an existing label. *)
Definition df_set (df : DataFrame) (idx : nat) (col : string) (v : cell)
  : DataFrame :=
  mkDF (nrows df) (col_update (cols df) col idx v).

(** [df[col] = ""] for a new label: a column of empty strings. *)
Definition add_column (df : DataFrame) (col : string) : DataFrame :=
  mkDF (nrows df) (cols df ++ [(col, λ _, Str "")]).

(** A frame from a header and rows of cells (missing cells are NaN), and the
    way back; used to write inputs and read results. *)
Definition frame (header : list string) (rows : list (list cell)) : DataFrame :=
  mkDF (length rows)
       (imap (λ j c, (c, λ i, default NaN (rows !! i ≫= (.!! j)))) header).

Definition to_rows (df : DataFrame) : list (list cell) :=
  (λ i, (λ cf : string * (nat → cell), cf.2 i) <$> cols df) <$> seq 0 (nrows df).

(** The mutation ledger: the set [modified_cells] of
    (sheet name, row index, column label). *)
Abbreviation Ledger := (gset (string * nat * string)).

(* ================================================================== *)
(** * Helper functions (both files, lines 9-41 of main.py) *)
(* ================================================================== *)

Variant entry_point : Type :=
  | CommonSupplier   (* commonsupplier.py *)
  | Main.            (* main.py *)

Inductive Exn : Type :=
  | ValueError_missing_sheet (s : string)   (* "Missing required sheet: {s}" *)
  | KeyError_column (target_name : string)  (* "Column '{t}' not found in sheet." *)
  | KeyError_sheet (name : string).         (* [sheets[name]] on a missing key *)

#[global] Instance Exn_eq_dec : EqDecision Exn.
Proof. solve_decision. Defined.

(** [clean_headers]: strip each label, then turn NBSP into a space. *)
Definition clean_headers (df : DataFrame) : DataFrame :=
  mkDF (nrows df)
       ((λ cf : string * (nat → cell),
           (PyStr.replace_nbsp (PyStr.strip cf.1), cf.2)) <$> cols df).

Definition fold_name (s : string) : string :=
  PyStr.remove_spaces (PyStr.lower s).

(** [find_column]: the first label equal to the target up to case and
    spaces, or [KeyError]. *)
Fixpoint find_label (cs : list string) (target_name : string) : option string :=
  match cs with
  | [] => None
  | col :: cs' =>
      if decide (fold_name col = fold_name target_name) then Some col
      else find_label cs' target_name
  end.

Definition find_column (df : DataFrame) (target_name : string) : Exn + string :=
  match find_label (columns df) target_name with
  | Some col => inr col
  | None => inl (KeyError_column target_name)
  end.

(** [update_cell].  The two files differ in the last branch:
    commonsupplier.py (lines 31-34) leaves the ledger alone when an absent
    cell receives the empty string, main.py (line 29) always records. *)
Definition update_cell (ep : entry_point) (df : DataFrame) (idx : nat)
  (col : string) (new_val : string) (modified_cells : Ledger)
  (sheet_name : string) : DataFrame * Ledger :=
  if decide (col ∈ columns df) then
    let old_val := df_at df idx col in
    if decide (PyStr.strip (str old_val) ≠ PyStr.strip new_val) then
      let df' := df_set df idx col (Str new_val) in
      match ep with
      | CommonSupplier =>
          if isna old_val && bool_decide (new_val = "")
          then (df', modified_cells)
          else (df', {[ (sheet_name, idx, col) ]} ∪ modified_cells)
      | Main => (df', {[ (sheet_name, idx, col) ]} ∪ modified_cells)
      end
    else (df, modified_cells)
  else (df, modified_cells).

(** [ensure_column] *)
Definition ensure_column (df : DataFrame) (target_col : string) : DataFrame :=
  if decide (target_col ∈ columns df) then df else add_column df target_col.


(* ================================================================== *)
(** * The identifier registry *)
(* ================================================================== *)

Variant id_type : Type := parent_id | child_id.
Variant role_type : Type := PO | NPO.

#[global] Instance id_type_eq_dec : EqDecision id_type.
Proof. solve_decision. Defined.
#[global] Instance role_type_eq_dec : EqDecision role_type.
Proof. solve_decision. Defined.

(** One value of [src_info]: [{"type": ...}], to which the role annotator
    adds ["role"]. *)
Record Info : Type := mkInfo {
  type : id_type;
  role : option role_type
}.

#[global] Instance Info_eq_dec : EqDecision Info.
Proof. solve_decision. Defined.

(** commonsupplier.py lines 75-83: [id_map] (child -> parent) and
    [src_info] from the pairs, in list order. *)
Definition add_pair (acc : dict string * dict Info) (pair : string * string)
  : dict string * dict Info :=
  let parent := PyStr.strip pair.1 in
  let child := PyStr.strip pair.2 in
  let id_map := set acc.1 child parent in
  let src_info := set acc.2 parent (mkInfo parent_id None) in
  let src_info := set src_info child (mkInfo child_id None) in
  (id_map, src_info).

Definition build_mapping (pairs : list (string * string))
  : dict string * dict Info :=
  fold_left add_pair pairs ([], []).

(** main.py lines 71-74: every identifier of the base table, classified by
    the character at index 3. *)
Definition positional_type (sid : string) : id_type :=
  if (4 <=? String.length sid)%nat
     && bool_decide (PyStr.char_at sid 3 = Some "3"%char)
  then parent_id else child_id.

(** [df[col].dropna().astype(str)], in row order. *)
Definition dropna_astype_str (df : DataFrame) (col : string) : list string :=
  omap (λ idx, match df_at df idx col with NaN => None | Str s => Some s end)
       (seq 0 (nrows df)).

Definition identify_types (but000 : DataFrame) (source_col : string) : dict Info :=
  fold_left
    (λ src_info sid,
       let sid := PyStr.strip sid in
       set src_info sid (mkInfo (positional_type sid) None))
    (dropna_astype_str but000 source_col) [].

(** [but100[role_src_col].value_counts().to_dict()]; only [.get] reads it,
    so the order of its keys is not observed. *)
Definition value_counts (df : DataFrame) (col : string) : dict nat :=
  fold_left
    (λ d v, set d v (S (default 0 (get d v))))
    (dropna_astype_str df col) [].

(** Both files: [info["role"] = "PO" if src_count.get(sid, 0) > 1 else "NPO"]. *)
Definition assign_roles (src_count : dict nat) (src_info : dict Info) : dict Info :=
  (λ e : string * Info,
     (e.1, mkInfo (type e.2)
                  (Some (if (1 <? default 0 (get src_count e.1))%nat
                         then PO else NPO))))
  <$> src_info.

(** main.py lines 87-88. *)
Definition parent_ids (src_info : dict Info) : list string :=
  (filter (λ e : string * Info, type e.2 = parent_id) src_info).*1.

Definition reference_parent (src_info : dict Info) : string :=
  default "0000000000" (head (parent_ids src_info)).

(** What the row loops read: the entry point, the registry, and the parent
    of a row ([id_map] per row in commonsupplier.py, the single
    [parent_id] in main.py). *)
Record Ctx : Type := mkCtx {
  ep : entry_point;
  src_info : dict Info;
  id_map : dict string;
  parent_id_ref : string
}.

(** [sid in src_info and src_info[sid]["type"] == "child_id"] *)
Definition is_child (ctx : Ctx) (sid : string) : bool :=
  match get (src_info ctx) sid with
  | Some info => bool_decide (type info = child_id)
  | None => false
  end.

(** commonsupplier.py: [id_map.get(sid, "0000000000")]; main.py: the
    reference [parent_id]. *)
Definition resolve_parent (ctx : Ctx) (sid : string) : string :=
  match ep ctx with
  | CommonSupplier => default "0000000000" (get (id_map ctx) sid)
  | Main => parent_id_ref ctx
  end.

(* ================================================================== *)
(** * Row loops *)
(* ================================================================== *)

(** [for idx, row in df.iterrows()]: [row] holds the values the frame had
    when the loop started.  An iteration writes only to the row at hand,
    and it never reads from [row] a cell that it has written, so whether
    pandas hands out a copy or a view of the row is not observed. *)
Definition Series : Type := string → cell.

Definition iterrows (df : DataFrame) : list (nat * Series) :=
  (λ idx, (idx, df_at df idx)) <$> seq 0 (nrows df).

Definition for_rows (df : DataFrame)
  (body : nat → Series → DataFrame * Ledger → DataFrame * Ledger)
  (modified_cells : Ledger) : DataFrame * Ledger :=
  fold_left (λ st ir, body ir.1 ir.2 st) (iterrows df) (df, modified_cells).

(** [update_cell] on the frame and ledger threaded through a loop. *)
Definition upd (ep : entry_point) (sheet_name : string) (idx : nat)
  (col : string) (new_val : string) (st : DataFrame * Ledger)
  : DataFrame * Ledger :=
  update_cell ep st.1 idx col new_val st.2 sheet_name.

(** [for col in cs: update_cell(df, idx, col, v, ...)] *)
Definition upd_each (ep : entry_point) (sheet_name : string) (idx : nat)
  (cs : list string) (new_val : string) (st : DataFrame * Ledger)
  : DataFrame * Ledger :=
  fold_left (λ st col, upd ep sheet_name idx col new_val st) cs st.

(** [for col in cs: if col in df.columns: update_cell(...)] *)
Definition upd_each_present (ep : entry_point) (sheet_name : string)
  (idx : nat) (cs : list string) (new_val : string)
  (st : DataFrame * Ledger) : DataFrame * Ledger :=
  fold_left
    (λ st col,
       if decide (col ∈ columns st.1) then upd ep sheet_name idx col new_val st
       else st)
    cs st.

Definition BUT000 : string := "BUT000 - General".
Definition BUT100 : string := "BUT100 - Role".
Definition ADRC : string := "ADRC - Address".
Definition LFA1 : string := "LFA1 - Supplier General".
Definition LFB1 : string := "LFB1 - Company Code (Supplier)".
Definition LFM1 : string := "LFM1 - Purchasing Org Data".
Definition WYT3 : string := "WYT3 - Partner Function (Suppli".

Definition required_sheets : list string := [BUT000; BUT100; ADRC; LFA1; LFB1].
Definition optional_sheets : list string := [LFM1; WYT3].

Definition common_supplier (parent_id : string) : string :=
  "COMMON SUPPLIER " ++ parent_id.

(** ** BUT000 - General (commonsupplier.py 106-128, main.py 94-112) *)

Definition cols_clear : list string :=
  ["NAME_ORG2"; "NAME_ORG3"; "NAME_ORG4";
   "MC_NAME2"; "MC_NAME3"; "MC_NAME4";
   "ZGSTS_SLP_REP_FLG"; "ZGSTS_CMT_REP_FLG"; "ZGSTS_ATL_REP_FLG"].
Definition cols_fill_x : list string := ["ZGSTS_AVN_REP_FLG"; "XDELE"].
Definition cols_name : list string := ["MC_NAME1"; "NAME_ORG1"].

Definition but000_row (ctx : Ctx) (source_col : string) (idx : nat)
  (row : Series) (st : DataFrame * Ledger) : DataFrame * Ledger :=
  let sid := PyStr.strip (str (row source_col)) in
  if is_child ctx sid then
    let parent_id := resolve_parent ctx sid in
    let st := upd_each_present (ep ctx) BUT000 idx cols_clear "" st in
    let st := upd_each_present (ep ctx) BUT000 idx cols_fill_x "X" st in
    upd_each (ep ctx) BUT000 idx cols_name (common_supplier parent_id) st
  else
    match ep ctx with
    | CommonSupplier =>            (* the else branch, lines 126-128 *)
        let st := upd CommonSupplier BUT000 idx "ZGSTS_CMT_REP_FLG" "X" st in
        upd CommonSupplier BUT000 idx "ZGSTS_ATL_REP_FLG" "X" st
    | Main => st                   (* main.py has no else branch *)
    end.

Definition but000_loop (ctx : Ctx) (source_col : string) (but000 : DataFrame)
  (modified_cells : Ledger) : DataFrame * Ledger :=
  for_rows but000 (but000_row ctx source_col) modified_cells.

(** ** ADRC - Address (commonsupplier.py 136-144, main.py 120-127) *)

Definition adrc_row (ctx : Ctx) (adrc_src_col adrc_name_col : string)
  (idx : nat) (row : Series) (st : DataFrame * Ledger) : DataFrame * Ledger :=
  let sid := PyStr.strip (str (row adrc_src_col)) in
  if is_child ctx sid then
    let parent_id := resolve_parent ctx sid in
    upd (ep ctx) ADRC idx adrc_name_col (common_supplier parent_id) st
  else st.

(** ** LFA1 - Supplier General (commonsupplier.py 152-167, main.py 135-149) *)

Definition cols_to_clear : list string := ["NAME2"; "NAME3"; "NAME4"].
Definition cols_to_replace : list string := ["NAME1"].
Definition lfa1_cols_fill_x : list string := ["LOEVM"; "SPERR"; "SPERM"].

Definition lfa1_row (ctx : Ctx) (lfa1_src_col : string) (idx : nat)
  (row : Series) (st : DataFrame * Ledger) : DataFrame * Ledger :=
  let sid := PyStr.strip (str (row lfa1_src_col)) in
  if is_child ctx sid then
    let parent_id := resolve_parent ctx sid in
    let st := upd_each (ep ctx) LFA1 idx cols_to_clear "" st in
    let st := upd_each (ep ctx) LFA1 idx cols_to_replace
                       (common_supplier parent_id) st in
    upd_each (ep ctx) LFA1 idx lfa1_cols_fill_x "X" st
  else st.

(** ** The association sheets LFB1, LFM1, WYT3 *)

(** [df.groupby(src_col)[code_col].apply(lambda x:
      set(x.dropna().astype(str).str.strip())).to_dict()]:
    the groups are keyed by the raw (not stripped) non-NaN identifier
    cells; only [.get] reads the result. *)
Definition group_sets (df : DataFrame) (src_col code_col : string)
  : dict (gset string) :=
  fold_left
    (λ d idx,
       match df_at df idx src_col with
       | NaN => d
       | Str k =>
           let codes : gset string :=
             match df_at df idx code_col with
             | NaN => ∅
             | Str s => {[ PyStr.strip s ]}
             end in
           set d k (default ∅ (get d k) ∪ codes)
       end)
    (seq 0 (nrows df)) [].

(** The reconciliation of one row (commonsupplier.py 182-190, 212-220,
    249-257; main.py 166-173, 198-203, 233-239, where [parent_id] and the
    parent's set are the same for every row). *)
Definition reconcile_row (ctx : Ctx) (sheet_name src_col code_col action_col : string)
  (code_map : dict (gset string)) (idx : nat) (row : Series)
  (st : DataFrame * Ledger) : DataFrame * Ledger :=
  let sid := PyStr.strip (str (row src_col)) in
  if is_child ctx sid then
    let parent_id := resolve_parent ctx sid in
    let parent_codes : gset string := default ∅ (get code_map parent_id) in
    let code_val := PyStr.strip (str (row code_col)) in
    if bool_decide (code_val ≠ "") && bool_decide (code_val ∉ parent_codes) then
      let st := upd (ep ctx) sheet_name idx action_col "I" st in
      upd (ep ctx) sheet_name idx src_col parent_id st
    else st
  else st.

(** [next((c for c in df.columns if c.strip().lower() == "parvw"), None)] *)
Fixpoint find_parvw (cs : list string) : option string :=
  match cs with
  | [] => None
  | c :: cs' =>
      if decide (PyStr.lower (PyStr.strip c) = "parvw") then Some c
      else find_parvw cs'
  end.

(** One row of WYT3: the reconciliation, then the PARVW rule
    (commonsupplier.py 259-260, main.py 241-242). *)
Definition wyt3_row (ctx : Ctx) (src_col ekorg_col action_col : string)
  (ekorg_map : dict (gset string)) (parvw_col : option string)
  (defpa_col : string) (idx : nat) (row : Series)
  (st : DataFrame * Ledger) : DataFrame * Ledger :=
  let st := reconcile_row ctx WYT3 src_col ekorg_col action_col ekorg_map idx row st in
  match parvw_col with
  | Some parvw_col =>
      if bool_decide (parvw_col ≠ "")
         && bool_decide (PyStr.upper (PyStr.strip (str (row parvw_col))) = "LF")
      then upd (ep ctx) WYT3 idx defpa_col "X" st
      else st
  | None => st
  end.

(* ================================================================== *)
(** * One sheet at a time *)
(* ================================================================== *)

(** Each function takes the frame stored under the sheet's name and the
    ledger, and gives back the frame as the code leaves it (frames are
    mutated in place, so a frame is left with clean headers even when a
    column lookup raises afterwards), the ledger, and what was raised or
    returned. *)

(** BUT100 - Role (commonsupplier.py 90-92, main.py 77-79). *)
Definition but100_role (df : DataFrame) (modified_cells : Ledger)
  : DataFrame * Ledger * (Exn + dict nat) :=
  let but100 := clean_headers df in
  match find_column but100 "Source_ID" with
  | inl e => (but100, modified_cells, inl e)
  | inr role_src_col =>
      (but100, modified_cells, inr (value_counts but100 role_src_col))
  end.

(** BUT000 - General in commonsupplier.py (lines 103-128). *)
Definition but000_general (ctx : Ctx) (df : DataFrame) (modified_cells : Ledger)
  : DataFrame * Ledger * (Exn + unit) :=
  let but000 := clean_headers df in
  match find_column but000 "Source_ID" with
  | inl e => (but000, modified_cells, inl e)
  | inr source_col =>
      let r := but000_loop ctx source_col but000 modified_cells in
      (r.1, r.2, inr tt)
  end.

(** BUT000 - General in main.py: first the classification (lines 68-74),
    later the loop over the same frame with the same [source_col]
    (lines 102-112). *)
Definition but000_identify (df : DataFrame) (modified_cells : Ledger)
  : DataFrame * Ledger * (Exn + (string * dict Info)) :=
  let but000 := clean_headers df in
  match find_column but000 "Source_ID" with
  | inl e => (but000, modified_cells, inl e)
  | inr source_col =>
      (but000, modified_cells, inr (source_col, identify_types but000 source_col))
  end.

Definition but000_update (ctx : Ctx) (source_col : string) (but000 : DataFrame)
  (modified_cells : Ledger) : DataFrame * Ledger * (Exn + unit) :=
  let r := but000_loop ctx source_col but000 modified_cells in
  (r.1, r.2, inr tt).

(** ADRC - Address. *)
Definition adrc_address (ctx : Ctx) (df : DataFrame) (modified_cells : Ledger)
  : DataFrame * Ledger * (Exn + unit) :=
  let adrc := clean_headers df in
  match find_column adrc "Source_ID" with
  | inl e => (adrc, modified_cells, inl e)
  | inr adrc_src_col =>
      match find_column adrc "Name1" with
      | inl e => (adrc, modified_cells, inl e)
      | inr adrc_name_col =>
          let r := for_rows adrc (adrc_row ctx adrc_src_col adrc_name_col)
                            modified_cells in
          (r.1, r.2, inr tt)
      end
  end.

(** LFA1 - Supplier General. *)
Definition lfa1_supplier_general (ctx : Ctx) (df : DataFrame)
  (modified_cells : Ledger) : DataFrame * Ledger * (Exn + unit) :=
  let lfa1 := clean_headers df in
  match find_column lfa1 "Source_ID" with
  | inl e => (lfa1, modified_cells, inl e)
  | inr lfa1_src_col =>
      let r := for_rows lfa1 (lfa1_row ctx lfa1_src_col) modified_cells in
      (r.1, r.2, inr tt)
  end.

(** The loop of LFB1 and LFM1, from [ensure_column] on. *)
Definition reconcile_loop (ctx : Ctx) (sheet_name src_col code_col : string)
  (df : DataFrame) (modified_cells : Ledger) : DataFrame * Ledger :=
  let action_col := "_ACTION_CODE" in
  let df := ensure_column df action_col in
  let code_map := group_sets df src_col code_col in
  for_rows df (reconcile_row ctx sheet_name src_col code_col action_col code_map)
           modified_cells.

(** LFB1 - Company Code (commonsupplier.py 175-190, main.py 157-173). *)
Definition lfb1_company_code (ctx : Ctx) (df : DataFrame)
  (modified_cells : Ledger) : DataFrame * Ledger * (Exn + unit) :=
  let lfb1 := clean_headers df in
  match find_column lfb1 "Source_ID" with
  | inl e => (lfb1, modified_cells, inl e)
  | inr lfb1_src_col =>
      match find_column lfb1 "BUKRS" with
      | inl e => (lfb1, modified_cells, inl e)
      | inr bukrs_col =>
          let r := reconcile_loop ctx LFB1 lfb1_src_col bukrs_col lfb1
                                  modified_cells in
          (r.1, r.2, inr tt)
      end
  end.

(** The [try ... except KeyError] of the optional sheets: both columns, or
    the exception that is printed as a warning. *)
Definition try_find_columns (df : DataFrame) : Exn + (string * string) :=
  match find_column df "Source_ID" with
  | inl e => inl e
  | inr src_col =>
      match find_column df "EKORG" with
      | inl e => inl e
      | inr ekorg_col => inr (src_col, ekorg_col)
      end
  end.

(** [if src_col and ekorg_col] *)
Definition both_truthy (src_col ekorg_col : string) : bool :=
  bool_decide (src_col ≠ "") && bool_decide (ekorg_col ≠ "").

(** LFM1 - Purchasing Org Data, when the sheet is there
    (commonsupplier.py 200-222, main.py 184-205).  The third component is
    the list of warnings printed. *)
Definition lfm1_purchasing_org (ctx : Ctx) (df : DataFrame)
  (modified_cells : Ledger) : DataFrame * Ledger * list Exn :=
  let df := clean_headers df in
  match try_find_columns df with
  | inl e => (df, modified_cells, [e])
  | inr (src_col, ekorg_col) =>
      if both_truthy src_col ekorg_col then
        let r := reconcile_loop ctx LFM1 src_col ekorg_col df modified_cells in
        (r.1, r.2, [])
      else (df, modified_cells, [])
  end.

(** The loop of WYT3, from [ensure_column] on
    (commonsupplier.py 243-260, main.py 226-242). *)
Definition wyt3_loop (ctx : Ctx) (src_col ekorg_col : string)
  (df : DataFrame) (modified_cells : Ledger) : DataFrame * Ledger :=
  let action_col := "_ACTION_CODE" in
  let df := ensure_column df action_col in
  let ekorg_map := group_sets df src_col ekorg_col in
  let parvw_col := find_parvw (columns df) in
  let defpa_col := "DEFPA" in
  let df := ensure_column df defpa_col in
  for_rows df
    (wyt3_row ctx src_col ekorg_col action_col ekorg_map parvw_col defpa_col)
    modified_cells.

(** WYT3 - Partner Function, when the sheet is there. *)
Definition wyt3_partner_function (ctx : Ctx) (df : DataFrame)
  (modified_cells : Ledger) : DataFrame * Ledger * list Exn :=
  let df := clean_headers df in
  match try_find_columns df with
  | inl e => (df, modified_cells, [e])
  | inr (src_col, ekorg_col) =>
      if both_truthy src_col ekorg_col then
        let r := wyt3_loop ctx src_col ekorg_col df modified_cells in
        (r.1, r.2, [])
      else (df, modified_cells, [])
  end.

(* ================================================================== *)
(** * The run *)
(* ================================================================== *)

(** What one call of [process_excel] holds: the sheets read from the
    workbook (a dict of frames, mutated in place), the ledger
    [modified_cells], and the warnings printed by the [except KeyError]
    branches (other output lines are not kept). *)
Record Run : Type := mkRun {
  sheets : dict DataFrame;
  modified_cells : Ledger;
  warnings : list Exn
}.

(** A computation over the run that returns or raises; the run that comes
    back is the state at the return or at the raise. *)
Definition M (A : Type) : Type := Run → Run * (Exn + A).

Definition ret {A} (a : A) : M A := λ R, (R, inr a).
Definition raise {A} (e : Exn) : M A := λ R, (R, inl e).
Definition bind {A B} (m : M A) (k : A → M B) : M B :=
  λ R, match m R with
       | (R', inl e) => (R', inl e)
       | (R', inr a) => k a R'
       end.

Declare Scope run_scope.
Delimit Scope run_scope with run.
Notation "x <- m ;; k" := (bind m (λ x, k))
  (at level 100, m at next level, right associativity) : run_scope.
Notation "m ;; k" := (bind m (λ _, k))
  (at level 100, right associativity) : run_scope.

(** Lines 66-68 (59-61 in main.py): the first required sheet that is
    missing raises. *)
Fixpoint check_required (names : list string) : M unit :=
  match names with
  | [] => ret tt
  | s :: names' =>
      λ R, if mem (sheets R) s then check_required names' R
           else raise (ValueError_missing_sheet s) R
  end.

(** Work on [sheets[name]] for a required sheet.  After [check_required]
    the sheet is there; the first branch is never taken in [process_excel]. *)
Definition on_required {A} (name : string)
  (f : DataFrame → Ledger → DataFrame * Ledger * (Exn + A)) : M A :=
  λ R, match get (sheets R) name with
       | None => (R, inl (KeyError_sheet name))
       | Some df =>
           let r := f df (modified_cells R) in
           (mkRun (set (sheets R) name r.1.1) r.1.2 (warnings R), r.2)
       end.

(** [if sheet_name in sheets: ... else: print(... skipped)] *)
Definition on_optional (name : string)
  (f : DataFrame → Ledger → DataFrame * Ledger * list Exn) : M unit :=
  λ R, match get (sheets R) name with
       | None => (R, inr tt)
       | Some df =>
           let r := f df (modified_cells R) in
           (mkRun (set (sheets R) name r.1.1) r.1.2 (warnings R ++ r.2), inr tt)
       end.

Definition start (workbook : dict DataFrame) : Run := mkRun workbook ∅ [].

(** Steps 3 to 8 of commonsupplier.py after BUT000, and steps 5 to 9 of
    main.py: the same sequence over the same sheets. *)
Definition update_sheets (ctx : Ctx) : M unit :=
  (on_required ADRC (adrc_address ctx) ;;
   on_required LFA1 (lfa1_supplier_general ctx) ;;
   on_required LFB1 (lfb1_company_code ctx) ;;
   on_optional LFM1 (lfm1_purchasing_org ctx) ;;
   on_optional WYT3 (wyt3_partner_function ctx))%run.

Module CommonSupplierPy.

(** [process_excel(input_bytes, pairs)] of commonsupplier.py up to Step 8;
    [workbook] is what [pd.read_excel] returned. *)
Definition process_excel_steps (pairs : list (string * string)) : M unit :=
  (check_required required_sheets ;;
   let m := build_mapping pairs in
   src_count <- on_required BUT100 but100_role ;;
   let ctx := mkCtx CommonSupplier (assign_roles src_count m.2) m.1 "" in
   on_required BUT000 (but000_general ctx) ;;
   update_sheets ctx)%run.

Definition process_excel (workbook : dict DataFrame)
  (pairs : list (string * string)) : Run * (Exn + unit) :=
  process_excel_steps pairs (start workbook).

End CommonSupplierPy.

Module MainPy.

(** [process_excel(input_file, output_file)] of main.py up to Step 9. *)
Definition process_excel_steps : M unit :=
  (check_required required_sheets ;;
   ident <- on_required BUT000 but000_identify ;;
   src_count <- on_required BUT100 but100_role ;;
   let src_info := assign_roles src_count ident.2 in
   let parent_id := reference_parent src_info in
   let ctx := mkCtx Main src_info [] parent_id in
   on_required BUT000 (but000_update ctx ident.1) ;;
   update_sheets ctx)%run.

Definition process_excel (workbook : dict DataFrame) : Run * (Exn + unit) :=
  process_excel_steps (start workbook).

End MainPy.

(* ================================================================== *)
(** * Concrete workbooks used below *)
(* ================================================================== *)

Module Samples.

Definition parent : string := "1003000001".
Definition child : string := "1000000004".
Definition other : string := "1000000009".

Definition but000 : DataFrame :=
  frame ["Source_ID"; "NAME_ORG1"; "NAME_ORG2"; "MC_NAME1"; "XDELE"]
        [[Str parent; Str "ACME"; NaN; Str "ACME"; NaN];
         [Str child; Str "ACME LTD"; NaN; Str "ACME LTD"; NaN]].

Definition but100 : DataFrame :=
  frame ["Source_ID"; "RLTYP"]
        [[Str parent; Str "FLVN00"]; [Str parent; Str "FLVN01"];
         [Str child; Str "FLVN00"]].

(** The same role table with the child in two roles. *)
Definition but100' : DataFrame :=
  frame ["Source_ID"; "RLTYP"]
        [[Str parent; Str "FLVN00"];
         [Str child; Str "FLVN00"]; [Str child; Str "FLVN01"]].

Definition adrc : DataFrame :=
  frame ["Source_ID"; "Name1"; "CITY1"]
        [[Str parent; Str "ACME"; Str "OSAKA"];
         [Str child; Str "ACME LTD"; Str "KOBE"]].

(** The child row already carries the target name, followed by a space. *)
Definition adrc_spaced : DataFrame :=
  frame ["Source_ID"; "Name1"; "CITY1"]
        [[Str parent; Str "ACME"; Str "OSAKA"];
         [Str child; Str "COMMON SUPPLIER 1003000001 "; Str "KOBE"]].

Definition lfa1 : DataFrame :=
  frame ["Source_ID"; "NAME1"; "NAME2"; "LOEVM"]
        [[Str parent; Str "ACME"; Str "HQ"; NaN];
         [Str child; Str "ACME LTD"; NaN; NaN]].

Definition lfb1 : DataFrame :=
  frame ["Source_ID"; "BUKRS"]
        [[Str parent; Str "1000"]; [Str child; Str "2000"];
         [Str child; Str "1000"]].

(** A child row whose company-code cell is empty in the workbook. *)
Definition lfb1_empty_code : DataFrame :=
  frame ["Source_ID"; "BUKRS"]
        [[Str parent; Str "1000"]; [Str child; NaN]].

Definition lfm1 : DataFrame :=
  frame ["Source_ID"; "EKORG"]
        [[Str parent; Str "P100"]; [Str child; Str "P200"]].

Definition lfm1_no_ekorg : DataFrame :=
  frame ["Source_ID"; "WAERS"]
        [[Str parent; Str "JPY"]; [Str child; Str "JPY"]].

Definition wyt3 : DataFrame :=
  frame ["Source_ID"; "EKORG"; "PARVW"]
        [[Str parent; Str "P100"; Str "LF"];
         [Str child; Str "P100"; Str " lf "];
         [Str other; Str "P300"; Str "BA"]].

(** PARVW = LF on a sheet without an EKORG column. *)
Definition wyt3_no_ekorg : DataFrame :=
  frame ["Source_ID"; "PARVW"] [[Str parent; Str "LF"]].

(** PARVW = LF on a row whose DEFPA is X already. *)
Definition wyt3_defpa_set : DataFrame :=
  frame ["Source_ID"; "EKORG"; "PARVW"; "DEFPA"]
        [[Str parent; Str "P100"; Str "LF"; Str "X"]].

Definition workbook : dict DataFrame :=
  [(BUT000, but000); (BUT100, but100); (ADRC, adrc); (LFA1, lfa1);
   (LFB1, lfb1); (LFM1, lfm1); (WYT3, wyt3)].

Definition pairs : list (string * string) := [(parent, child)].

Definition ctx : Ctx :=
  mkCtx CommonSupplier
        [(parent, mkInfo parent_id (Some PO)); (child, mkInfo child_id (Some NPO))]
        [(child, parent)] "".

End Samples.

(* ================================================================== *)
(** * Vocabulary of the statements *)
(* ================================================================== *)

(** [update_cell] replaces the cell: the label exists and the trimmed texts
    of the old and the new value differ. *)
Definition writes (df : DataFrame) (idx : nat) (col new_val : string) : Prop :=
  col ∈ columns df ∧
  PyStr.strip (str (df_at df idx col)) ≠ PyStr.strip new_val.

#[global] Instance writes_dec df idx col new_val :
  Decision (writes df idx col new_val).
Proof. unfold writes. apply _. Defined.

(** The exception of commonsupplier.py, lines 31-32. *)
Definition clears_absent (ep : entry_point) (old_val : cell) (new_val : string)
  : Prop :=
  ep = CommonSupplier ∧ old_val = NaN ∧ new_val = "".

#[global] Instance entry_point_eq_dec : EqDecision entry_point.
Proof. solve_decision. Defined.

#[global] Instance clears_absent_dec ep old_val new_val :
  Decision (clears_absent ep old_val new_val).
Proof. unfold clears_absent. apply _. Defined.

(** [update_cell] adds the cell to the ledger. *)
Definition records (ep : entry_point) (df : DataFrame) (idx : nat)
  (col new_val : string) : Prop :=
  writes df idx col new_val ∧ ¬ clears_absent ep (df_at df idx col) new_val.

#[global] Instance records_dec ep df idx col new_val :
  Decision (records ep df idx col new_val).
Proof. unfold records. apply _. Defined.

(** A step of a row loop over sheet [sheet_name] that stays within row
    [idx]: labels and length are kept, other rows are kept, the ledger
    grows, and only by cells of that row. *)
Definition row_local (sheet_name : string) (idx : nat)
  (g : DataFrame * Ledger → DataFrame * Ledger) : Prop :=
  ∀ st,
    columns (g st).1 = columns st.1 ∧
    nrows (g st).1 = nrows st.1 ∧
    (∀ j d, j ≠ idx → df_at (g st).1 j d = df_at st.1 j d) ∧
    st.2 ⊆ (g st).2 ∧
    (∀ e, e ∈ (g st).2 → e ∈ st.2 ∨ ∃ c, e = (sheet_name, idx, c)).

(** The identifier of a row as the loops read it. *)
Definition row_sid (df : DataFrame) (src_col : string) (idx : nat) : string :=
  PyStr.strip (str (df_at df idx src_col)).

(** The identifiers the pairs name as parents and as children, and the
    parent of the last pair that names [c] as its child. *)
Definition parents_of (pairs : list (string * string)) : list string :=
  (λ pr : string * string, PyStr.strip pr.1) <$> pairs.

Definition children_of (pairs : list (string * string)) : list string :=
  (λ pr : string * string, PyStr.strip pr.2) <$> pairs.

Definition last_parent (pairs : list (string * string)) (c : string)
  : option string :=
  last (parents_of (filter (λ pr : string * string, PyStr.strip pr.2 = c) pairs)).

(** The classification of an identifier in a registry. *)
Definition type_of (src_info : dict Info) (sid : string) : option id_type :=
  type <$> get src_info sid.

(** The identifiers of the base table as main.py reads them, in row order. *)
Definition base_ids (but000 : DataFrame) (source_col : string) : list string :=
  PyStr.strip <$> dropna_astype_str but000 source_col.

(** Every entry of a registry carries the positional type of its key. *)
Definition positional (src_info : dict Info) : Prop :=
  Forall (λ e : string * Info, type e.2 = positional_type e.1) src_info.

(** One step of the loop of main.py, lines 72-74. *)
Definition classify_one (src_info : dict Info) (sid : string) : dict Info :=
  set src_info (PyStr.strip sid) (mkInfo (positional_type (PyStr.strip sid)) None).

(** What a write of [target] leaves in a cell that held [old]: the new
    text, unless the trimmed texts agree already ([update_cell], line 29 of
    commonsupplier.py). *)
Definition written (old : cell) (target : string) : cell :=
  if decide (PyStr.strip (str old) ≠ PyStr.strip target) then Str target else old.

(** Decide a closed decidable proposition by evaluation. *)
Ltac decide_now := apply (bool_decide_unpack _); vm_compute; exact I.

(** The trimmed code of a row as the loops read it. *)
Definition row_code (df : DataFrame) (code_col : string) (idx : nat) : string :=
  PyStr.strip (str (df_at df idx code_col)).

(** The test of the reconciliation rule on a row of [df], with the map of
    code sets [code_map]: the identifier is a child, the code is not the
    empty text, and it is not among the codes of the parent. *)
Definition qualifies (ctx : Ctx) (code_map : dict (gset string))
  (df : DataFrame) (src_col code_col : string) (idx : nat) : bool :=
  let sid := row_sid df src_col idx in
  is_child ctx sid
  && (bool_decide (row_code df code_col idx ≠ "")
      && bool_decide (row_code df code_col idx
                      ∉ default (∅ : gset string)
                          (get code_map (resolve_parent ctx sid)))).

(** The test of the PARVW rule on a row. *)
Definition parvw_is_lf (df : DataFrame) (parvw_col : string) (idx : nat) : bool :=
  bool_decide (PyStr.upper (PyStr.strip (str (df_at df idx parvw_col))) = "LF").

(** The cell a row has under [col] once [ensure_column] has run: its own
    when the label was there, the empty string of the new column otherwise. *)
Definition ensured (df : DataFrame) (col : string) (idx : nat) : cell :=
  if decide (col ∈ columns df) then df_at df idx col else Str "".

(** The first name of a list that the workbook lacks. *)
Definition first_missing (workbook : dict DataFrame) (names : list string)
  : option string :=
  head (filter (λ s, mem workbook s = false) names).

(** The ledger [mc'] extends [mc] by cells of sheet [name] only. *)
Definition tagged (name : string) (mc mc' : Ledger) : Prop :=
  mc ⊆ mc' ∧ ∀ e, e ∈ mc' → e ∈ mc ∨ e.1.1 = name.

(** In the run [R] the sheet [name] holds the frame [df] and the ledger
    names no cell of its row [idx]. *)
Definition holds_unrecorded (name : string) (idx : nat) (df : DataFrame)
  (R : Run) : Prop :=
  get (sheets R) name = Some df ∧ ∀ col, (name, idx, col) ∉ modified_cells R.

(** Two different sheet names are different. *)
Ltac names_ne := let H := fresh in intros H; vm_compute in H; discriminate H.

(** Two registries that classify alike (their roles may differ). *)
Definition same_classes (c1 c2 : Ctx) : Prop :=
  ep c1 = ep c2 ∧ id_map c1 = id_map c2 ∧ parent_id_ref c1 = parent_id_ref c2 ∧
  ∀ sid, is_child c1 sid = is_child c2 sid.

(** Two runs that hold the role tables [df1] and [df2] and agree on
    everything else: the other sheets, the ledger, the warnings. *)
Definition differ_in_roles (df1 df2 : DataFrame) (R1 R2 : Run) : Prop :=
  get (sheets R1) BUT100 = Some df1 ∧
  get (sheets R2) BUT100 = Some df2 ∧
  modified_cells R1 = modified_cells R2 ∧
  warnings R1 = warnings R2 ∧
  ∀ n, n ≠ BUT100 → get (sheets R1) n = get (sheets R2) n.

(** Two outcomes: the same result, in runs that differ in the role table
    only. *)
Definition related {A} (df1 df2 : DataFrame) (x y : Run * (Exn + A)) : Prop :=
  differ_in_roles df1 df2 x.1 y.1 ∧ x.2 = y.2.

(** Two outcomes agree on everything but the role table: the result, the
    ledger, the warnings, and every other sheet. *)
Definition agree {A} (x y : Run * (Exn + A)) : Prop :=
  x.2 = y.2 ∧
  modified_cells x.1 = modified_cells y.1 ∧
  warnings x.1 = warnings y.1 ∧
  ∀ n, n ≠ BUT100 → get (sheets x.1) n = get (sheets y.1) n.

(** The guard of the PARVW rule as [wyt3_row] evaluates it. *)
Definition parvw_fires (parvw_col : option string) (df : DataFrame) (idx : nat)
  : bool :=
  match parvw_col with
  | Some p => bool_decide (p ≠ "") && parvw_is_lf df p idx
  | None => false
  end.

(** The code of row [idx] is among the codes of the rows of [df] whose raw
    identifier cell is [parent_id]: the parent's set of the loop. *)
Definition known_to_parent (df : DataFrame) (src_col code_col : string)
  (parent_id : string) (idx : nat) : Prop :=
  ∃ i t, i < nrows df ∧ df_at df i src_col = Str parent_id ∧
         df_at df i code_col = Str t ∧
         row_code df code_col idx = PyStr.strip t.

(** What [clean_headers] makes of one label. *)
Definition clean_label (s : string) : string :=
  PyStr.replace_nbsp (PyStr.strip s).

(** How many cells of a column hold exactly the text [v] (NaN cells are
    dropped, nothing is trimmed): what [value_counts] counts. *)
Definition occurrences (df : DataFrame) (col : string) (v : string) : nat :=
  length (filter (λ x, x = v) (dropna_astype_str df col)).

(** The writes of one iteration, in order, as (label, new value): every
    row body of the pipeline is such a run of [update_cell] calls on the
    row at hand. *)
Definition apply_writes (ep : entry_point) (sheet_name : string) (idx : nat)
  (ws : list (string * string)) (st : DataFrame * Ledger) : DataFrame * Ledger :=
  fold_left (λ st w, upd ep sheet_name idx w.1 w.2 st) ws st.

Definition each (cs : list string) (v : string) : list (string * string) :=
  (λ c, (c, v)) <$> cs.

(** The writes of the row bodies, read off [but000_row], [adrc_row],
    [lfa1_row], [reconcile_row] and [wyt3_row]. *)
Definition but000_writes (ctx : Ctx) (sid : string) : list (string * string) :=
  if is_child ctx sid then
    each cols_clear "" ++ each cols_fill_x "X"
    ++ each cols_name (common_supplier (resolve_parent ctx sid))
  else
    match ep ctx with
    | CommonSupplier => [("ZGSTS_CMT_REP_FLG", "X"); ("ZGSTS_ATL_REP_FLG", "X")]
    | Main => []
    end.

Definition adrc_writes (ctx : Ctx) (adrc_name_col : string) (sid : string)
  : list (string * string) :=
  if is_child ctx sid
  then [(adrc_name_col, common_supplier (resolve_parent ctx sid))] else [].

Definition lfa1_writes (ctx : Ctx) (sid : string) : list (string * string) :=
  if is_child ctx sid then
    each cols_to_clear ""
    ++ each cols_to_replace (common_supplier (resolve_parent ctx sid))
    ++ each lfa1_cols_fill_x "X"
  else [].

Definition reconcile_writes (ctx : Ctx) (src_col code_col action_col : string)
  (code_map : dict (gset string)) (row : Series) : list (string * string) :=
  let sid := PyStr.strip (str (row src_col)) in
  let code_val := PyStr.strip (str (row code_col)) in
  if is_child ctx sid
     && (bool_decide (code_val ≠ "")
         && bool_decide (code_val ∉ default (∅ : gset string)
                                      (get code_map (resolve_parent ctx sid))))
  then [(action_col, "I"); (src_col, resolve_parent ctx sid)] else [].

Definition wyt3_writes (ctx : Ctx) (src_col ekorg_col action_col : string)
  (ekorg_map : dict (gset string)) (parvw_col : option string)
  (defpa_col : string) (row : Series) : list (string * string) :=
  reconcile_writes ctx src_col ekorg_col action_col ekorg_map row
  ++ match parvw_col with
     | Some p =>
         if bool_decide (p ≠ "")
            && bool_decide (PyStr.upper (PyStr.strip (str (row p))) = "LF")
         then [(defpa_col, "X")] else []
     | None => []
     end.

(** The ledger [out.2] is exact for the sheet [out.1] that came from [df]
    (a label that [df] lacks counting as a column of empty strings, which is
    what [ensure_column] adds): a cell of the sheet is named only if it was
    named before or the trimmed text of the cell has changed; and a cell
    whose value has changed is named, unless commonsupplier.py put the
    empty string where the cell was absent. *)
Definition ledger_exact (ep : entry_point) (sheet_name : string)
  (df : DataFrame) (mc : Ledger) (out : DataFrame * Ledger) : Prop :=
  ∀ i c,
    ((sheet_name, i, c) ∈ out.2 →
     (sheet_name, i, c) ∈ mc
     ∨ (i < nrows out.1 ∧ c ∈ columns out.1 ∧
        PyStr.strip (str (df_at out.1 i c)) ≠ PyStr.strip (str (ensured df c i)))) ∧
    (c ∈ columns out.1 → df_at out.1 i c ≠ ensured df c i →
     (sheet_name, i, c) ∈ out.2
     ∨ (ep = CommonSupplier ∧ ensured df c i = NaN ∧ df_at out.1 i c = Str "")).

(** The column lookups a run makes outside a [try], as (sheet, target), in
    the order of the calls: commonsupplier.py lines 91, 104, 137-138, 153,
    177-178; main.py lines 69, 78, 121-122, 136, 159-160. *)
Definition lookups (e : entry_point) : list (string * string) :=
  match e with
  | CommonSupplier => [(BUT100, "Source_ID"); (BUT000, "Source_ID")]
  | Main => [(BUT000, "Source_ID"); (BUT100, "Source_ID")]
  end
  ++ [(ADRC, "Source_ID"); (ADRC, "Name1"); (LFA1, "Source_ID");
      (LFB1, "Source_ID"); (LFB1, "BUKRS")].

(** The lookup of [target_name] in the sheet [name] of the workbook, once
    its headers are clean, finds no label. *)
Definition lookup_fails (workbook : dict DataFrame) (name target_name : string)
  : bool :=
  match get workbook name with
  | Some df =>
      match find_column (clean_headers df) target_name with
      | inl _ => true
      | inr _ => false
      end
  | None => false
  end.

Fixpoint first_failing (workbook : dict DataFrame) (ls : list (string * string))
  : option string :=
  match ls with
  | [] => None
  | (name, target_name) :: ls' =>
      if lookup_fails workbook name target_name then Some target_name
      else first_failing workbook ls'
  end.

(** What a run raises or returns, read off the sheet names and the labels
    of the workbook. *)
Definition outcome (e : entry_point) (workbook : dict DataFrame) : Exn + unit :=
  match first_missing workbook required_sheets with
  | Some s => inl (ValueError_missing_sheet s)
  | None =>
      match first_failing workbook (lookups e) with
      | Some target_name => inl (KeyError_column target_name)
      | None => inr tt
      end
  end.

(** The sheets that a run writes to. *)
Definition written_sheets : list string := [BUT000; ADRC; LFA1; LFB1; LFM1; WYT3].

(** The run [R] against the workbook it started from, when only the sheets
    of [done] have been through their loop: the workbook has the same sheet
    names in the same order; every sheet has the rows it had; a sheet that
    is none of the seven the pipeline knows is the frame that was read; the
    role table is that frame, with clean headers at most; and every entry
    of the ledger names a sheet of [done], a row of that sheet as it is now
    and a label it has now. *)
Definition run_inv (workbook : dict DataFrame) (done : list string) (R : Run)
  : Prop :=
  keys (sheets R) = keys workbook ∧
  (∀ s df, get workbook s = Some df →
     ∃ out, get (sheets R) s = Some out ∧ nrows out = nrows df ∧
            (s ∉ BUT100 :: written_sheets → out = df) ∧
            (s = BUT100 → out = df ∨ out = clean_headers df)) ∧
  (∀ s i c, (s, i, c) ∈ modified_cells R →
     s ∈ done ∧
     ∃ out, get (sheets R) s = Some out ∧ i < nrows out ∧ c ∈ columns out).

(** What a step on the sheet [name] does to a frame and a ledger: the rows
    stay, and the ledger grows by cells of [name] that the frame has. *)
Definition sheet_step (name : string) (df : DataFrame) (mc : Ledger)
  (out : DataFrame * Ledger) : Prop :=
  nrows out.1 = nrows df ∧
  ∀ e, e ∈ out.2 →
       e ∈ mc ∨ ∃ i c, e = (name, i, c) ∧ i < nrows out.1 ∧ c ∈ columns out.1.

(* ================================================================== *)
(** * Dictionaries and frames: basic facts *)
(* ================================================================== *)

Section dict_facts.
Context {V : Type}.
Implicit Types (d : dict V) (k : string) (v : V).

Lemma get_set d k v k' :
  get (set d k v) k' = if decide (k = k') then Some v else get d k'.
Proof.
  induction d as [|[k0 v0] d IH]; simpl.
  - repeat case_decide; congruence.
  - destruct (decide (k0 = k)) as [->|Hne]; simpl.
    + repeat case_decide; congruence.
    + rewrite IH. repeat case_decide; congruence.
Qed.

Lemma get_set_eq d k v : get (set d k v) k = Some v.
Proof. rewrite get_set. by rewrite decide_True. Qed.

Lemma get_set_ne d k v k' : k ≠ k' → get (set d k v) k' = get d k'.
Proof. intros. rewrite get_set. by rewrite decide_False. Qed.

Lemma get_None_keys d k : get d k = None ↔ k ∉ keys d.
Proof.
  unfold keys. induction d as [|[k0 v0] d IH]; simpl.
  - split; [intros _; apply not_elem_of_nil | done].
  - rewrite not_elem_of_cons. case_decide; subst.
    + split; [done | intros [? _]; done].
    + rewrite IH. intuition congruence.
Qed.

Lemma get_Some_keys d k v : get d k = Some v → k ∈ keys d.
Proof.
  intros H. destruct (decide (k ∈ keys d)) as [|Hn]; [done|].
  apply get_None_keys in Hn. congruence.
Qed.

Lemma keys_set_in d k v : k ∈ keys d → keys (set d k v) = keys d.
Proof.
  unfold keys. induction d as [|[k0 v0] d IH]; simpl.
  - intros H. by apply elem_of_nil in H.
  - intros H. case_decide; simpl; [by subst|].
    f_equal. apply IH. apply elem_of_cons in H as [?|?]; [congruence|done].
Qed.

Lemma keys_set_notin d k v : k ∉ keys d → keys (set d k v) = keys d ++ [k].
Proof.
  unfold keys. induction d as [|[k0 v0] d IH]; simpl; [done|].
  intros H. apply not_elem_of_cons in H as [? ?].
  case_decide; [congruence|]. simpl. f_equal. by apply IH.
Qed.

Lemma NoDup_keys_set d k v : NoDup (keys d) → NoDup (keys (set d k v)).
Proof.
  intros Hd. destruct (decide (k ∈ keys d)).
  - by rewrite keys_set_in.
  - rewrite keys_set_notin by done. apply NoDup_app. split_and!; [done| |].
    + intros x Hx Hx'. apply list_elem_of_singleton in Hx'. by subst.
    + apply NoDup_singleton.
Qed.
End dict_facts.

Section frame_facts.
Implicit Types (df : DataFrame) (idx : nat) (col : string) (v : cell).

Lemma col_lookup_None cs col : col_lookup cs col = None ↔ col ∉ cs.*1.
Proof.
  induction cs as [|[c f] cs IH]; simpl.
  - split; [intros _; apply not_elem_of_nil | done].
  - rewrite not_elem_of_cons. case_decide; subst.
    + split; [done | intros [? _]; done].
    + rewrite IH. intuition congruence.
Qed.

Lemma col_update_fst cs col idx v : (col_update cs col idx v).*1 = cs.*1.
Proof.
  induction cs as [|[c f] cs IH]; simpl; [done|].
  case_decide; simpl; by f_equal.
Qed.

Lemma col_lookup_update cs col idx v col' :
  col_lookup (col_update cs col idx v) col' =
  if decide (col = col')
  then (λ f i, if decide (i = idx) then v else f i) <$> col_lookup cs col
  else col_lookup cs col'.
Proof.
  induction cs as [|[c f] cs IH]; simpl.
  - by case_decide.
  - destruct (decide (c = col)) as [->|Hc]; simpl.
    + destruct (decide (col = col')) as [->|Hne]; simpl; [done|].
      destruct (decide (col = col')); done.
    + destruct (decide (c = col')) as [->|Hc'].
      * destruct (decide (col = col')); [congruence|done].
      * rewrite IH. destruct (decide (col = col')); [|done].
        subst. simpl. destruct (decide (c = col')); done.
Qed.

Lemma columns_df_set df idx col v : columns (df_set df idx col v) = columns df.
Proof. apply col_update_fst. Qed.

(** A write changes the addressed cell and no other. *)
Lemma df_at_df_set df idx col v j d :
  col ∈ columns df →
  df_at (df_set df idx col v) j d =
  if decide (j = idx ∧ d = col) then v else df_at df j d.
Proof.
  intros Hin. unfold df_at, df_set. simpl. rewrite col_lookup_update.
  destruct (decide (col = d)) as [<-|Hne].
  - destruct (col_lookup (cols df) col) as [f|] eqn:Hf; simpl.
    + destruct (decide (j = idx)) as [->|Hj].
      * by rewrite decide_True.
      * rewrite decide_False; [done | intros [? _]; done].
    + apply col_lookup_None in Hf. done.
  - rewrite decide_False; [done | intros [_ ?]; congruence].
Qed.

Lemma columns_add_column df col : columns (add_column df col) = columns df ++ [col].
Proof. unfold columns, add_column. simpl. by rewrite fmap_app. Qed.

Lemma col_lookup_app_new cs col g d :
  col_lookup (cs ++ [(col, g)]) d =
  match col_lookup cs d with
  | Some f => Some f
  | None => if decide (col = d) then Some g else None
  end.
Proof.
  induction cs as [|[c f] cs IH]; simpl; [done|].
  destruct (decide (c = d)); done.
Qed.

Lemma df_at_add_column_old df col idx d :
  d ∈ columns df → df_at (add_column df col) idx d = df_at df idx d.
Proof.
  intros Hd. unfold df_at, add_column. simpl. rewrite col_lookup_app_new.
  destruct (col_lookup (cols df) d) eqn:Hf; [done|].
  apply col_lookup_None in Hf. done.
Qed.

Lemma df_at_add_column_new df col idx :
  col ∉ columns df → df_at (add_column df col) idx col = Str "".
Proof.
  intros Hd. unfold df_at, add_column. simpl. rewrite col_lookup_app_new.
  apply col_lookup_None in Hd. rewrite Hd. by rewrite decide_True.
Qed.

Lemma ensure_column_elem df col : col ∈ columns (ensure_column df col).
Proof.
  unfold ensure_column. case_decide; [done|].
  rewrite columns_add_column. set_solver.
Qed.

Lemma ensure_column_mono df col d :
  d ∈ columns df → d ∈ columns (ensure_column df col).
Proof.
  unfold ensure_column. case_decide; [done|].
  rewrite columns_add_column. set_solver.
Qed.

Lemma nrows_ensure_column df col : nrows (ensure_column df col) = nrows df.
Proof. unfold ensure_column. by case_decide. Qed.

Lemma df_at_ensure_column_old df col idx d :
  d ∈ columns df → df_at (ensure_column df col) idx d = df_at df idx d.
Proof.
  intros. unfold ensure_column. case_decide; [done|].
  by apply df_at_add_column_old.
Qed.

Lemma find_label_elem cs t col : find_label cs t = Some col → col ∈ cs.
Proof.
  induction cs as [|c cs IH]; simpl; [done|].
  destruct (decide _); intros Hf; [injection Hf as ->; left | right; auto].
Qed.

Lemma find_label_fold cs t col :
  find_label cs t = Some col → fold_name col = fold_name t.
Proof.
  induction cs as [|c cs IH]; simpl; [done|].
  destruct (decide _); intros Hf; [by injection Hf as -> | auto].
Qed.

Lemma find_column_elem df t col : find_column df t = inr col → col ∈ columns df.
Proof.
  unfold find_column. destruct (find_label _ _) eqn:Hf; [|done].
  intros [= <-]. by eapply find_label_elem.
Qed.

Lemma find_column_fold df t col :
  find_column df t = inr col → fold_name col = fold_name t.
Proof.
  unfold find_column. destruct (find_label _ _) eqn:Hf; [|done].
  intros [= <-]. by eapply find_label_fold.
Qed.
End frame_facts.

(* ================================================================== *)
(** * [update_cell] *)
(* ================================================================== *)

Section update_cell_facts.
Implicit Types (df : DataFrame) (idx : nat) (col : string) (mc : Ledger).

Lemma update_cell_fst ep df idx col new_val mc sheet_name :
  (update_cell ep df idx col new_val mc sheet_name).1 =
  if decide (writes df idx col new_val)
  then df_set df idx col (Str new_val) else df.
Proof.
  unfold update_cell, writes.
  destruct (decide (col ∈ columns df)) as [Hc|Hc].
  - destruct (decide (PyStr.strip _ ≠ _)) as [Hs|Hs].
    + rewrite decide_True by done.
      destruct ep; [destruct (_ && _)|]; done.
    + rewrite decide_False; [done | intros [_ ?]; done].
  - rewrite decide_False; [done | intros [? _]; done].
Qed.

Lemma update_cell_snd ep df idx col new_val mc sheet_name :
  (update_cell ep df idx col new_val mc sheet_name).2 =
  if decide (records ep df idx col new_val)
  then {[ (sheet_name, idx, col) ]} ∪ mc else mc.
Proof.
  unfold update_cell.
  destruct (decide (records ep df idx col new_val)) as [[[Hc Hs] Hx]|Hr].
  - rewrite decide_True by done. rewrite decide_True by done.
    destruct ep; [|done].
    destruct (isna _ && bool_decide _) eqn:Hb; [|done].
    exfalso. apply Hx. apply andb_true_iff in Hb as [Hna Hv].
    apply bool_decide_eq_true in Hv.
    repeat split; [|done]. by destruct (df_at df idx col).
  - destruct (decide (col ∈ columns df)) as [Hc|Hc]; [|done].
    destruct (decide (PyStr.strip _ ≠ _)) as [Hs|Hs]; [|done].
    destruct ep.
    + destruct (isna _ && bool_decide _) eqn:Hb; [done|].
      exfalso. apply Hr. split; [done|]. intros (_ & Hn & Hv).
      rewrite Hn, Hv in Hb. done.
    + exfalso. apply Hr. split; [done|]. intros (? & _). done.
Qed.

Lemma upd_columns ep s idx col v st : columns (upd ep s idx col v st).1 = columns st.1.
Proof.
  unfold upd. rewrite update_cell_fst. case_decide; [apply columns_df_set | done].
Qed.

Lemma upd_nrows ep s idx col v st : nrows (upd ep s idx col v st).1 = nrows st.1.
Proof. unfold upd. rewrite update_cell_fst. by case_decide. Qed.

(** The cell addressed is replaced exactly when [writes] holds; every
    other cell is kept. *)
Lemma upd_at ep s idx col v st j d :
  df_at (upd ep s idx col v st).1 j d =
  if decide ((j = idx ∧ d = col) ∧ writes st.1 idx col v)
  then Str v else df_at st.1 j d.
Proof.
  unfold upd. rewrite update_cell_fst.
  destruct (decide (writes _ _ _ _)) as [Hw|Hw].
  - rewrite df_at_df_set by apply Hw.
    destruct (decide (j = idx ∧ d = col)) as [Hjd|Hjd].
    + by rewrite decide_True.
    + rewrite decide_False; [done | intros [? _]; done].
  - rewrite decide_False; [done | intros [_ ?]; done].
Qed.

Lemma upd_at_other ep s idx col v st j d :
  ¬ (j = idx ∧ d = col) → df_at (upd ep s idx col v st).1 j d = df_at st.1 j d.
Proof.
  intros Hne. rewrite upd_at. rewrite decide_False; [done | intros [? _]; done].
Qed.

Lemma upd_ledger ep s idx col v st e :
  e ∈ (upd ep s idx col v st).2 ↔
  e ∈ st.2 ∨ (e = (s, idx, col) ∧ records ep st.1 idx col v).
Proof.
  unfold upd. rewrite update_cell_snd. case_decide.
  - rewrite elem_of_union, elem_of_singleton. tauto.
  - tauto.
Qed.

End update_cell_facts.

(* ================================================================== *)
(** * Row loops stay within their row *)
(* ================================================================== *)

Section row_local_facts.
Implicit Types (st : DataFrame * Ledger) (idx : nat) (s : string).

Lemma row_local_id s idx : row_local s idx (λ st, st).
Proof. intros st. split_and!; auto. Qed.

Lemma row_local_comp s idx g h :
  row_local s idx g → row_local s idx h → row_local s idx (λ st, h (g st)).
Proof.
  intros Hg Hh st.
  destruct (Hg st) as (Hg1 & Hg2 & Hg3 & Hg4 & Hg5).
  destruct (Hh (g st)) as (Hh1 & Hh2 & Hh3 & Hh4 & Hh5).
  split_and!.
  - congruence.
  - congruence.
  - intros j d Hj. rewrite Hh3, Hg3; done.
  - etrans; done.
  - intros e He. destruct (Hh5 e He) as [He'|?]; [|by right]. by apply Hg5.
Qed.

Lemma row_local_if s idx (b : bool) g h :
  row_local s idx g → row_local s idx h →
  row_local s idx (λ st, if b then g st else h st).
Proof. by destruct b. Qed.

Lemma row_local_upd ep s idx col v : row_local s idx (upd ep s idx col v).
Proof.
  intros st. split_and!.
  - apply upd_columns.
  - apply upd_nrows.
  - intros j d Hj. apply upd_at_other. intros [? _]. done.
  - intros e He. apply upd_ledger. by left.
  - intros e He. apply upd_ledger in He as [?|[-> _]]; [by left|right; eauto].
Qed.

Lemma row_local_upd_each ep s idx cs v : row_local s idx (upd_each ep s idx cs v).
Proof.
  unfold upd_each. induction cs as [|c cs IH]; simpl.
  - apply row_local_id.
  - apply (row_local_comp s idx (upd ep s idx c v)); [apply row_local_upd | apply IH].
Qed.

Lemma row_local_upd_each_present ep s idx cs v :
  row_local s idx (upd_each_present ep s idx cs v).
Proof.
  unfold upd_each_present. induction cs as [|c cs IH]; simpl.
  - apply row_local_id.
  - apply (row_local_comp s idx
             (λ st, if decide (c ∈ columns st.1) then upd ep s idx c v st else st));
      [|apply IH].
    intros st. case_decide; [apply row_local_upd | apply row_local_id].
Qed.

(** Rows other than [idx] leave row [idx] and its ledger entries alone. *)
Lemma fold_rows_other (s : string) (body : nat → Series → DataFrame * Ledger → DataFrame * Ledger)
  (rows : list (nat * Series)) idx st :
  (∀ i row, row_local s i (body i row)) →
  idx ∉ rows.*1 →
  let st' := fold_left (λ st ir, body ir.1 ir.2 st) rows st in
  columns st'.1 = columns st.1 ∧
  (∀ d, df_at st'.1 idx d = df_at st.1 idx d) ∧
  (∀ c, (s, idx, c) ∈ st'.2 ↔ (s, idx, c) ∈ st.2).
Proof.
  intros Hloc. revert st. induction rows as [|[i row] rows IH]; intros st Hidx; simpl.
  - done.
  - rewrite fmap_cons in Hidx. apply not_elem_of_cons in Hidx as [Hi Hidx].
    simpl in Hi.
    destruct (IH (body i row st) Hidx) as (IH1 & IH2 & IH3).
    destruct (Hloc i row st) as (H1 & H2 & H3 & H4 & H5).
    split_and!.
    + congruence.
    + intros d. rewrite IH2. by apply H3.
    + intros c. rewrite IH3. split.
      * intros He. destruct (H5 _ He) as [?|[c' Hc']]; [done|]. congruence.
      * apply H4.
Qed.

(** Labels, length and the tag of new ledger entries, for a whole loop. *)
Lemma fold_rows_frame (s : string) (body : nat → Series → DataFrame * Ledger → DataFrame * Ledger)
  (rows : list (nat * Series)) st :
  (∀ i row, row_local s i (body i row)) →
  let st' := fold_left (λ st ir, body ir.1 ir.2 st) rows st in
  columns st'.1 = columns st.1 ∧
  nrows st'.1 = nrows st.1 ∧
  st.2 ⊆ st'.2 ∧
  (∀ e, e ∈ st'.2 → e ∈ st.2 ∨ ∃ i c, i ∈ rows.*1 ∧ e = (s, i, c)).
Proof.
  intros Hloc. revert st. induction rows as [|[i row] rows IH]; intros st; simpl.
  - split_and!; auto.
  - destruct (IH (body i row st)) as (IH1 & IH2 & IH3 & IH4).
    destruct (Hloc i row st) as (H1 & H2 & H3 & H4 & H5).
    split_and!.
    + congruence.
    + congruence.
    + etrans; done.
    + intros e He. destruct (IH4 e He) as [He'|(j & c & Hj & ->)].
      * destruct (H5 e He') as [?|[c ->]]; [by left|].
        right. exists i, c. split; [left|done].
      * right. exists j, c. split; [by right|done].
Qed.

Lemma iterrows_fst df : (iterrows df).*1 = seq 0 (nrows df).
Proof.
  unfold iterrows. rewrite <- list_fmap_compose.
  apply list_fmap_id.
Qed.

Lemma for_rows_frame s body df mc :
  (∀ i row, row_local s i (body i row)) →
  columns (for_rows df body mc).1 = columns df ∧
  nrows (for_rows df body mc).1 = nrows df ∧
  mc ⊆ (for_rows df body mc).2 ∧
  (∀ e, e ∈ (for_rows df body mc).2 →
        e ∈ mc ∨ ∃ i c, i < nrows df ∧ e = (s, i, c)).
Proof.
  intros Hloc. unfold for_rows.
  destruct (fold_rows_frame s body (iterrows df) (df, mc) Hloc)
    as (H1 & H2 & H3 & H4).
  split_and!; [done..|].
  intros e He. destruct (H4 e He) as [?|(i & c & Hi & ->)]; [by left|].
  right. exists i, c. split; [|done].
  rewrite iterrows_fst in Hi. apply elem_of_seq in Hi. lia.
Qed.

(** The outcome of a loop on row [idx] is the outcome of the one iteration
    for that row, started from a state that agrees with the frame the loop
    started from on its labels and on row [idx]. *)
Lemma for_rows_row s body df mc idx :
  (∀ i row, row_local s i (body i row)) →
  idx < nrows df →
  ∃ st0,
    columns st0.1 = columns df ∧
    (∀ d, df_at st0.1 idx d = df_at df idx d) ∧
    (∀ c, (s, idx, c) ∈ st0.2 ↔ (s, idx, c) ∈ mc) ∧
    (∀ d, df_at (for_rows df body mc).1 idx d =
          df_at (body idx (df_at df idx) st0).1 idx d) ∧
    (∀ c, (s, idx, c) ∈ (for_rows df body mc).2 ↔
          (s, idx, c) ∈ (body idx (df_at df idx) st0).2).
Proof.
  intros Hloc Hidx. unfold for_rows, iterrows.
  assert (Hsplit : seq 0 (nrows df) =
                   seq 0 idx ++ idx :: seq (S idx) (nrows df - S idx)).
  { replace (nrows df) with (idx + S (nrows df - S idx)) at 1 by lia.
    rewrite seq_app. simpl. done. }
  rewrite Hsplit, fmap_app, fmap_cons, fold_left_app. simpl.
  set (rows1 := (λ i, (i, df_at df i)) <$> seq 0 idx).
  set (rows2 := (λ i, (i, df_at df i)) <$> seq (S idx) (nrows df - S idx)).
  set (st0 := fold_left (λ st ir, body ir.1 ir.2 st) rows1 (df, mc)).
  assert (H1 : idx ∉ rows1.*1).
  { unfold rows1. rewrite <- list_fmap_compose, list_fmap_id.
    rewrite elem_of_seq. lia. }
  assert (H2 : idx ∉ rows2.*1).
  { unfold rows2. rewrite <- list_fmap_compose, list_fmap_id.
    rewrite elem_of_seq. lia. }
  destruct (fold_rows_other s body rows1 idx (df, mc) Hloc H1) as (A1 & A2 & A3).
  destruct (fold_rows_other s body rows2 idx (body idx (df_at df idx) st0) Hloc H2)
    as (B1 & B2 & B3).
  exists st0. split_and!; done.
Qed.

End row_local_facts.

(* ================================================================== *)
(** * The mutation ledger (C2) *)
(* ================================================================== *)

(** C2, main.py: for every frame, row and existing label whose cell is
    absent (NaN), the clear rule of main.py ([update_cell] with the empty
    string) adds the cell to the ledger.  commonsupplier.py has the guard
    ([pd.isna(old_val) and new_val == ""]) that main.py lacks, so the claim
    holds there and fails here. *)
Theorem main_update_cell_records_cleared_absent_cell
  (df : DataFrame) (idx : nat) (col sheet_name : string) (mc : Ledger) :
  col ∈ columns df →
  df_at df idx col = NaN →
  (update_cell Main df idx col "" mc sheet_name).2
  = {[ (sheet_name, idx, col) ]} ∪ mc.
Proof.
  intros Hc Hna. rewrite update_cell_snd. rewrite decide_True; [done|].
  split; [split; [done|] | intros (? & _); done].
  rewrite Hna. by vm_compute.
Qed.

(** The row of LFA1 in the sample workbook whose NAME2 cell is empty: after
    main.py the ledger names the cell, after commonsupplier.py it does not. *)
Lemma main_update_cell_records_cleared_absent_cell_witness :
  "NAME2" ∈ columns Samples.lfa1 ∧
  df_at Samples.lfa1 1 "NAME2" = NaN ∧
  (update_cell Main Samples.lfa1 1 "NAME2" "" ∅ LFA1).2
  = {[ (LFA1, 1, "NAME2") ]} ∪ ∅ ∧
  bool_decide ((LFA1, 1, "NAME2")
               ∈ modified_cells (MainPy.process_excel Samples.workbook).1) = true ∧
  bool_decide ((LFA1, 1, "NAME2")
               ∈ modified_cells
                   (CommonSupplierPy.process_excel Samples.workbook Samples.pairs).1)
  = false.
Proof.
  assert (Hc : "NAME2" ∈ columns Samples.lfa1)
    by (apply (bool_decide_unpack _); vm_compute; exact I).
  assert (Hn : df_at Samples.lfa1 1 "NAME2" = NaN) by reflexivity.
  split; [exact Hc|]. split; [exact Hn|].
  split;
    [exact (main_update_cell_records_cleared_absent_cell
              Samples.lfa1 1 "NAME2" LFA1 ∅ Hc Hn)|].
  split; vm_compute; reflexivity.
Defined.

(** commonsupplier.py: the ledger receives the cell exactly when the label
    exists, the trimmed texts differ, and the write is not the empty
    string over an absent cell; otherwise the ledger is left as it was. *)
Theorem commonsupplier_update_cell_ledger
  (df : DataFrame) (idx : nat) (col new_val sheet_name : string) (mc : Ledger) :
  (update_cell CommonSupplier df idx col new_val mc sheet_name).2 =
  if decide (col ∈ columns df
             ∧ PyStr.strip (str (df_at df idx col)) ≠ PyStr.strip new_val
             ∧ ¬ (df_at df idx col = NaN ∧ new_val = ""))
  then {[ (sheet_name, idx, col) ]} ∪ mc else mc.
Proof.
  rewrite update_cell_snd. unfold records, writes, clears_absent.
  destruct (decide ((col ∈ columns df ∧ _) ∧ _)) as [[[H1 H2] H3]|Hn].
  - rewrite decide_True; [done|]. split_and!; [done..|]. intros [? ?]. by apply H3.
  - rewrite decide_False; [done|]. intros (H1 & H2 & H3). apply Hn.
    split; [done|]. intros (_ & ? & ?). by apply H3.
Qed.

(** The clear rule of commonsupplier.py on a blank cell (absent, empty or
    white space only) leaves the ledger as it was. *)
Theorem commonsupplier_clear_blank_not_recorded
  (df : DataFrame) (idx : nat) (col sheet_name : string) (mc : Ledger) :
  df_at df idx col = NaN ∨ PyStr.strip (str (df_at df idx col)) = "" →
  (update_cell CommonSupplier df idx col "" mc sheet_name).2 = mc.
Proof.
  intros Hblank. rewrite update_cell_snd. rewrite decide_False; [done|].
  intros [[_ Hs] Hx]. destruct Hblank as [Hn|He].
  - apply Hx. done.
  - apply Hs. rewrite He. done.
Qed.

Lemma commonsupplier_clear_blank_not_recorded_witness :
  (df_at Samples.lfa1 1 "NAME2" = NaN
   ∨ PyStr.strip (str (df_at Samples.lfa1 1 "NAME2")) = "") ∧
  (update_cell CommonSupplier Samples.lfa1 1 "NAME2" "" ∅ LFA1).2 = ∅.
Proof.
  assert (H : df_at Samples.lfa1 1 "NAME2" = NaN
              ∨ PyStr.strip (str (df_at Samples.lfa1 1 "NAME2")) = "")
    by (left; reflexivity).
  split; [exact H|].
  exact (commonsupplier_clear_blank_not_recorded Samples.lfa1 1 "NAME2" LFA1 ∅ H).
Defined.

(* ================================================================== *)
(** * Reconciliation at an empty code cell (C1) *)
(* ================================================================== *)

(** C1: a child row of LFB1 whose BUKRS cell is empty in the workbook.  The
    cell is NaN, [str] makes it ["nan"], which is not blank and not among
    the parent's codes: both files mark the row ["I"] and rewrite its
    identifier to the parent, where the claim leaves a row with a blank
    code untouched. *)
Theorem reconcile_empty_code_cell_is_inserted :
  let workbook := set Samples.workbook LFB1 Samples.lfb1_empty_code in
  to_rows Samples.lfb1_empty_code
  = [[Str Samples.parent; Str "1000"]; [Str Samples.child; NaN]] ∧
  to_rows <$> get (sheets (CommonSupplierPy.process_excel workbook Samples.pairs).1) LFB1
  = Some [[Str Samples.parent; Str "1000"; Str ""];
          [Str Samples.parent; NaN; Str "I"]] ∧
  to_rows <$> get (sheets (MainPy.process_excel workbook).1) LFB1
  = Some [[Str Samples.parent; Str "1000"; Str ""];
          [Str Samples.parent; NaN; Str "I"]] ∧
  bool_decide ((LFB1, 1, "_ACTION_CODE")
               ∈ modified_cells
                   (CommonSupplierPy.process_excel workbook Samples.pairs).1) = true.
Proof. vm_compute. done. Qed.

(* ================================================================== *)
(** * The identity map of explicit-pairs mode (C4) *)
(* ================================================================== *)

Section build_mapping_facts.
Implicit Types (pairs : list (string * string)) (pr : string * string).

Lemma build_mapping_snoc pairs pr :
  build_mapping (pairs ++ [pr]) = add_pair (build_mapping pairs) pr.
Proof. unfold build_mapping. by rewrite fold_left_app. Qed.

Lemma children_of_snoc pairs pr :
  children_of (pairs ++ [pr]) = children_of pairs ++ [PyStr.strip pr.2].
Proof. unfold children_of. by rewrite fmap_app. Qed.

Lemma parents_of_snoc pairs pr :
  parents_of (pairs ++ [pr]) = parents_of pairs ++ [PyStr.strip pr.1].
Proof. unfold parents_of. by rewrite fmap_app. Qed.

(** The keys of [id_map] are the children of the pairs. *)
Lemma id_map_keys pairs c :
  c ∈ keys (build_mapping pairs).1 ↔ c ∈ children_of pairs.
Proof.
  induction pairs as [|pr pairs IH] using rev_ind.
  - simpl. done.
  - rewrite build_mapping_snoc, children_of_snoc. simpl.
    rewrite elem_of_app, list_elem_of_singleton, <- IH.
    destruct (decide (PyStr.strip pr.2 ∈ keys (build_mapping pairs).1)) as [Hin|Hin].
    + rewrite keys_set_in by done. split; [by left|]. intros [?| ->]; done.
    + rewrite keys_set_notin by done.
      rewrite elem_of_app, list_elem_of_singleton. done.
Qed.

Lemma id_map_NoDup pairs : NoDup (keys (build_mapping pairs).1).
Proof.
  induction pairs as [|pr pairs IH] using rev_ind.
  - apply NoDup_nil_2.
  - rewrite build_mapping_snoc. simpl. by apply NoDup_keys_set.
Qed.

(** A child maps to the parent of the last pair that names it. *)
Lemma id_map_get pairs c :
  get (build_mapping pairs).1 c = last_parent pairs c.
Proof.
  unfold last_parent. induction pairs as [|pr pairs IH] using rev_ind.
  - done.
  - rewrite build_mapping_snoc. simpl. rewrite get_set, filter_app.
    destruct (decide (PyStr.strip pr.2 = c)) as [Hc|Hc].
    + rewrite (filter_cons_True _ pr []) by done. rewrite filter_nil.
      rewrite parents_of_snoc. by rewrite last_snoc.
    + rewrite (filter_cons_False _ pr []) by done. rewrite filter_nil.
      by rewrite app_nil_r.
Qed.

(** What the registry says of an identifier comes from the pairs. *)
Lemma src_info_sound pairs x info :
  get (build_mapping pairs).2 x = Some info →
  (type info = child_id → x ∈ children_of pairs) ∧
  (type info = parent_id → x ∈ parents_of pairs).
Proof.
  revert info. induction pairs as [|pr pairs IH] using rev_ind; intros info.
  - done.
  - rewrite build_mapping_snoc, children_of_snoc, parents_of_snoc. simpl.
    rewrite !get_set. rewrite !elem_of_app, !list_elem_of_singleton.
    destruct (decide (PyStr.strip pr.2 = x)) as [Hc|Hc].
    + intros [= <-]. simpl. split; [by right | done].
    + destruct (decide (PyStr.strip pr.1 = x)) as [Hp|Hp].
      * intros [= <-]. simpl. split; [done | by right].
      * intros Hg. destruct (IH _ Hg). split; intros; left; auto.
Qed.

(** A child that no pair names as a parent is classified child. *)
Lemma src_info_child pairs c :
  c ∈ children_of pairs → c ∉ parents_of pairs →
  type_of (build_mapping pairs).2 c = Some child_id.
Proof.
  unfold type_of. induction pairs as [|pr pairs IH] using rev_ind.
  - intros H. by apply elem_of_nil in H.
  - rewrite build_mapping_snoc, children_of_snoc, parents_of_snoc. simpl.
    rewrite !get_set. rewrite !elem_of_app, !list_elem_of_singleton.
    intros Hc Hp.
    destruct (decide (PyStr.strip pr.2 = c)) as [Hc'|Hc']; [done|].
    destruct (decide (PyStr.strip pr.1 = c)) as [Hp'|Hp'].
    + exfalso. apply Hp. by right.
    + apply IH.
      * destruct Hc as [?|?]; [done|congruence].
      * intros ?. apply Hp. by left.
Qed.

End build_mapping_facts.

(** C4, as the code has it: when no identifier is named both as a parent
    and as a child by the pairs (after trimming), the keys of [id_map] are
    exactly the identifiers classified child, every key occurs once and
    maps to the parent of the last pair naming it, and no identifier
    classified parent is a key.  (Several children may share a parent: see
    the witness.) *)
Theorem build_mapping_invariant (pairs : list (string * string)) :
  (∀ x, x ∈ parents_of pairs → x ∉ children_of pairs) →
  let id_map := (build_mapping pairs).1 in
  let src_info := (build_mapping pairs).2 in
  (∀ c, c ∈ keys id_map ↔ type_of src_info c = Some child_id) ∧
  NoDup (keys id_map) ∧
  (∀ c, get id_map c = last_parent pairs c) ∧
  (∀ p, type_of src_info p = Some parent_id → get id_map p = None).
Proof.
  intros Hdisj. split_and!.
  - intros c. rewrite id_map_keys. split.
    + intros Hc. apply src_info_child; [done|]. intros Hp. by apply (Hdisj c).
    + unfold type_of. destruct (get _ c) as [info|] eqn:Hg; [|done].
      simpl. intros [= Ht]. by apply (src_info_sound pairs c info).
  - apply id_map_NoDup.
  - apply id_map_get.
  - intros p. unfold type_of. destruct (get _ p) as [info|] eqn:Hg; [|done].
    simpl. intros [= Ht]. apply get_None_keys. rewrite id_map_keys.
    apply Hdisj. by apply (src_info_sound pairs p info).
Qed.

(** Two children of one parent. *)
Lemma build_mapping_invariant_witness :
  let pairs := [(Samples.parent, Samples.child); (Samples.parent, Samples.other)] in
  (∀ x, x ∈ parents_of pairs → x ∉ children_of pairs) ∧
  get (build_mapping pairs).1 Samples.child = Some Samples.parent ∧
  get (build_mapping pairs).1 Samples.other = Some Samples.parent ∧
  get (build_mapping pairs).1 Samples.parent = None.
Proof.
  intros pairs.
  assert (Hd : ∀ x, x ∈ parents_of pairs → x ∉ children_of pairs).
  { intros x Hx Hc. vm_compute in Hx, Hc.
    repeat (apply elem_of_cons in Hx as [->|Hx]);
      repeat (apply elem_of_cons in Hc as [Hc|Hc]; try discriminate Hc);
      try (by apply elem_of_nil in Hc); by apply elem_of_nil in Hx. }
  split; [exact Hd|].
  destruct (build_mapping_invariant pairs Hd) as (_ & _ & H3 & H4).
  split; [rewrite H3; reflexivity|].
  split; [rewrite H3; reflexivity|].
  apply H4. reflexivity.
Defined.

(** C4 as stated fails: with the pairs (A, B) then (B, C) the identifier B
    is a key of [id_map] and is classified parent. *)
Lemma build_mapping_key_classified_parent :
  let pairs := [("1000000001", "1000000002"); ("1000000002", "1000000003")] in
  get (build_mapping pairs).1 "1000000002" = Some "1000000001" ∧
  type_of (build_mapping pairs).2 "1000000002" = Some parent_id.
Proof. split; reflexivity. Qed.

(* ================================================================== *)
(** * The registry: roles and positional classification (C5) *)
(* ================================================================== *)

Section registry_facts.
Implicit Types (src_info : dict Info) (src_count : dict nat) (sid : string).

Lemma get_assign_roles src_count src_info sid :
  get (assign_roles src_count src_info) sid =
  (λ info, mkInfo (type info)
             (Some (if (1 <? default 0 (get src_count sid))%nat then PO else NPO)))
  <$> get src_info sid.
Proof.
  unfold assign_roles. induction src_info as [|[k i] d IH]; simpl; [done|].
  destruct (decide (k = sid)) as [->|Hk]; [done | apply IH].
Qed.

(** The role annotator keeps every classification. *)
Lemma type_of_assign_roles src_count src_info sid :
  type_of (assign_roles src_count src_info) sid = type_of src_info sid.
Proof.
  unfold type_of. rewrite get_assign_roles. by destruct (get src_info sid).
Qed.

Lemma parent_ids_assign_roles src_count src_info :
  parent_ids (assign_roles src_count src_info) = parent_ids src_info.
Proof.
  unfold parent_ids, assign_roles.
  induction src_info as [|[k i] d IH]; [done|].
  rewrite fmap_cons, !filter_cons. cbn [fst snd type].
  destruct (decide (type i = parent_id)); rewrite ?fmap_cons; cbn [fst];
    by rewrite IH.
Qed.

Lemma reference_parent_assign_roles src_count src_info :
  reference_parent (assign_roles src_count src_info) = reference_parent src_info.
Proof. unfold reference_parent. by rewrite parent_ids_assign_roles. Qed.

Lemma is_child_assign_roles ep src_count src_info id_map parent_id sid :
  is_child (mkCtx ep (assign_roles src_count src_info) id_map parent_id) sid =
  is_child (mkCtx ep src_info id_map parent_id) sid.
Proof.
  unfold is_child. simpl. rewrite get_assign_roles.
  by destruct (get src_info sid).
Qed.

Lemma positional_set src_info sid role :
  positional src_info →
  positional (set src_info sid (mkInfo (positional_type sid) role)).
Proof.
  unfold positional. induction 1 as [|[k i] d Hk Hd IH]; simpl.
  - by repeat constructor.
  - case_decide; constructor; done.
Qed.

Lemma parent_ids_positional src_info :
  positional src_info →
  parent_ids src_info =
  filter (λ sid, positional_type sid = parent_id) (keys src_info).
Proof.
  unfold positional, parent_ids, keys.
  induction 1 as [|[k i] d Hk Hd IH]; [done|].
  rewrite fmap_cons, !filter_cons. cbn [fst snd] in *. rewrite Hk.
  destruct (decide (positional_type k = parent_id)); rewrite ?fmap_cons;
    cbn [fst]; by rewrite IH.
Qed.

Lemma classify_fold_positional (raw : list string) src_info :
  positional src_info → positional (fold_left classify_one raw src_info).
Proof.
  revert src_info. induction raw as [|a raw IH]; intros d Hd; simpl; [done|].
  apply IH. by apply positional_set.
Qed.

Lemma classify_fold_get (raw : list string) sid :
  sid ∈ PyStr.strip <$> raw →
  get (fold_left classify_one raw []) sid = Some (mkInfo (positional_type sid) None).
Proof.
  induction raw as [|a raw IH] using rev_ind.
  - intros H. by apply elem_of_nil in H.
  - rewrite fmap_app, fold_left_app. simpl. unfold classify_one at 1.
    rewrite get_set, elem_of_app, list_elem_of_singleton.
    destruct (decide (PyStr.strip a = sid)) as [->|Hne]; [done|].
    intros [?|?]; [auto | congruence].
Qed.

(** The first key with a property, in the order a dict was filled. *)
Lemma classify_fold_head (P : string → Prop) `{∀ x, Decision (P x)}
  (raw : list string) src_info :
  head (filter P (keys (fold_left classify_one raw src_info))) =
  match head (filter P (keys src_info)) with
  | Some x => Some x
  | None => head (filter P (PyStr.strip <$> raw))
  end.
Proof.
  revert src_info. induction raw as [|a raw IH]; intros d; simpl.
  - by destruct (head _).
  - rewrite IH. unfold classify_one.
    destruct (decide (PyStr.strip a ∈ keys d)) as [Hin|Hin].
    + rewrite keys_set_in by done.
      destruct (head (filter P (keys d))) eqn:Hh; [done|].
      rewrite filter_cons. destruct (decide (P (PyStr.strip a))) as [HP|HP]; [|done].
      exfalso. apply head_None in Hh.
      assert (Hx : PyStr.strip a ∈ filter P (keys d))
        by (apply list_elem_of_filter; done).
      rewrite Hh in Hx. by apply elem_of_nil in Hx.
    + rewrite keys_set_notin by done. rewrite filter_app.
      destruct (filter P (keys d)) as [|x l] eqn:Hf; simpl; [|done].
      rewrite !filter_cons, filter_nil.
      by destruct (decide (P (PyStr.strip a))).
Qed.

Lemma positional_type_parent sid :
  positional_type sid = parent_id ↔ PyStr.char_at sid 3 = Some "3"%char.
Proof.
  unfold positional_type, PyStr.char_at. split.
  - destruct (_ <=? _)%nat; simpl; [|done].
    destruct (bool_decide_reflect (String.get 3 sid = Some "3"%char)); done.
  - intros Hg. rewrite Hg.
    assert (Hlen : (4 <=? String.length sid)%nat = true).
    { apply Nat.leb_le.
      destruct sid as [|c0 [|c1 [|c2 [|c3 s]]]]; simpl in *; try discriminate; lia. }
    rewrite Hlen, bool_decide_eq_true_2 by done. done.
Qed.

End registry_facts.

(** C5: in main.py every identifier of the base table (trimmed, NaN cells
    dropped) is registered with the type [parent_id] exactly when its
    character at index 3 is ['3'] and [child_id] otherwise, the role
    annotator keeps that type, and the reference [parent_id] is the first
    identifier in row order that is classified parent (["0000000000"]
    when there is none), which every row of the run resolves to. *)
Theorem positional_classification
  (but000 : DataFrame) (source_col : string) (src_count : dict nat) :
  let ids := base_ids but000 source_col in
  let src_info := assign_roles src_count (identify_types but000 source_col) in
  (∀ sid, sid ∈ ids →
     type_of src_info sid
     = Some (if bool_decide (PyStr.char_at sid 3 = Some "3"%char)
             then parent_id else child_id)) ∧
  reference_parent src_info
  = default "0000000000"
      (head (filter (λ sid, PyStr.char_at sid 3 = Some "3"%char) ids)) ∧
  (∀ sid, resolve_parent (mkCtx Main src_info [] (reference_parent src_info)) sid
          = reference_parent src_info).
Proof.
  intros ids src_info. split; [|split; [|done]].
  - intros sid Hsid. unfold src_info. rewrite type_of_assign_roles.
    unfold type_of, identify_types.
    change (fold_left _ _ []) with
      (fold_left classify_one (dropna_astype_str but000 source_col) []).
    rewrite (classify_fold_get _ sid Hsid). simpl. f_equal.
    destruct (bool_decide_reflect (PyStr.char_at sid 3 = Some "3"%char)) as [Hc|Hc].
    + by apply positional_type_parent.
    + destruct (positional_type sid) eqn:Hp; [|done].
      exfalso. apply Hc. by apply positional_type_parent.
  - unfold reference_parent, src_info. rewrite parent_ids_assign_roles.
    unfold identify_types.
    change (fold_left _ _ []) with
      (fold_left classify_one (dropna_astype_str but000 source_col) []).
    rewrite parent_ids_positional
      by (apply classify_fold_positional; constructor).
    rewrite classify_fold_head. simpl. f_equal. f_equal.
    apply list_filter_iff. intros sid. apply positional_type_parent.
Qed.

(* ================================================================== *)
(** * The row bodies stay within their row *)
(* ================================================================== *)

Section body_facts.
Implicit Types (ctx : Ctx) (st : DataFrame * Ledger) (idx : nat) (row : Series).

Lemma but000_row_local ctx source_col idx row :
  row_local BUT000 idx (but000_row ctx source_col idx row).
Proof.
  unfold but000_row. destruct (is_child ctx _).
  - apply (row_local_comp BUT000 idx
             (λ st, upd_each_present (ep ctx) BUT000 idx cols_fill_x "X"
                      (upd_each_present (ep ctx) BUT000 idx cols_clear "" st))).
    + apply (row_local_comp BUT000 idx
               (upd_each_present (ep ctx) BUT000 idx cols_clear ""));
        apply row_local_upd_each_present.
    + apply row_local_upd_each.
  - destruct (ep ctx); [|apply row_local_id].
    apply (row_local_comp BUT000 idx
             (upd CommonSupplier BUT000 idx "ZGSTS_CMT_REP_FLG" "X"));
      apply row_local_upd.
Qed.

Lemma adrc_row_local ctx src_col name_col idx row :
  row_local ADRC idx (adrc_row ctx src_col name_col idx row).
Proof.
  unfold adrc_row. destruct (is_child ctx _);
    [apply row_local_upd | apply row_local_id].
Qed.

Lemma lfa1_row_local ctx src_col idx row :
  row_local LFA1 idx (lfa1_row ctx src_col idx row).
Proof.
  unfold lfa1_row. destruct (is_child ctx _); [|apply row_local_id].
  apply (row_local_comp LFA1 idx
           (λ st, upd_each (ep ctx) LFA1 idx cols_to_replace _
                    (upd_each (ep ctx) LFA1 idx cols_to_clear "" st))).
  - apply (row_local_comp LFA1 idx (upd_each (ep ctx) LFA1 idx cols_to_clear ""));
      apply row_local_upd_each.
  - apply row_local_upd_each.
Qed.

Lemma reconcile_row_local ctx s src_col code_col action_col code_map idx row :
  row_local s idx (reconcile_row ctx s src_col code_col action_col code_map idx row).
Proof.
  unfold reconcile_row. destruct (is_child ctx _); [|apply row_local_id].
  destruct (_ && _); [|apply row_local_id].
  apply (row_local_comp s idx (upd (ep ctx) s idx action_col "I"));
    apply row_local_upd.
Qed.

Lemma wyt3_row_local ctx src_col ekorg_col action_col ekorg_map parvw_col defpa_col
  idx row :
  row_local WYT3 idx
    (wyt3_row ctx src_col ekorg_col action_col ekorg_map parvw_col defpa_col idx row).
Proof.
  unfold wyt3_row.
  apply (row_local_comp WYT3 idx
           (reconcile_row ctx WYT3 src_col ekorg_col action_col ekorg_map idx row)
           (λ st, match parvw_col with
                  | Some p =>
                      if bool_decide (p ≠ "")
                         && bool_decide
                              (PyStr.upper (PyStr.strip (str (row p))) = "LF")
                      then upd (ep ctx) WYT3 idx defpa_col "X" st
                      else st
                  | None => st
                  end)).
  - apply reconcile_row_local.
  - destruct parvw_col as [p|]; [|apply row_local_id].
    destruct (_ && _); [apply row_local_upd | apply row_local_id].
Qed.

(** A run of writes to the labels [cs] keeps every cell under another label. *)
Lemma upd_each_at_other ep s idx cs v st j d :
  d ∉ cs → df_at (upd_each ep s idx cs v st).1 j d = df_at st.1 j d.
Proof.
  unfold upd_each. revert st. induction cs as [|c cs IH]; intros st Hd; simpl.
  - done.
  - apply not_elem_of_cons in Hd as [Hdc Hd].
    rewrite IH by done. apply upd_at_other. intros [_ ?]. done.
Qed.

Lemma upd_each_present_at_other ep s idx cs v st j d :
  d ∉ cs → df_at (upd_each_present ep s idx cs v st).1 j d = df_at st.1 j d.
Proof.
  unfold upd_each_present. revert st.
  induction cs as [|c cs IH]; intros st Hd; simpl.
  - done.
  - apply not_elem_of_cons in Hd as [Hdc Hd].
    rewrite IH by done. case_decide; [|done].
    apply upd_at_other. intros [_ ?]. done.
Qed.

Lemma upd_each_columns ep s idx cs v st :
  columns (upd_each ep s idx cs v st).1 = columns st.1.
Proof. apply (row_local_upd_each ep s idx cs v st). Qed.

Lemma upd_each_present_columns ep s idx cs v st :
  columns (upd_each_present ep s idx cs v st).1 = columns st.1.
Proof. apply (row_local_upd_each_present ep s idx cs v st). Qed.

(** What one write leaves in the cell it addresses. *)
Lemma upd_at_same ep s idx col v st :
  col ∈ columns st.1 →
  df_at (upd ep s idx col v st).1 idx col = written (df_at st.1 idx col) v.
Proof.
  intros Hc. rewrite upd_at. unfold writes, written.
  destruct (decide (PyStr.strip _ ≠ _)) as [Hs|Hs].
  - by rewrite decide_True.
  - rewrite decide_False; [done | intros [_ [_ ?]]; done].
Qed.

End body_facts.

(* ================================================================== *)
(** * The rename rule (C3) *)
(* ================================================================== *)

Lemma written_strip old target :
  PyStr.strip (str (written old target)) = PyStr.strip target.
Proof.
  unfold written. destruct (decide _) as [Hne|Heq]; [done|].
  destruct (decide (PyStr.strip (str old) = PyStr.strip target)); [done|].
  by exfalso.
Qed.

Lemma written_changed old target :
  PyStr.strip (str old) ≠ PyStr.strip target → written old target = Str target.
Proof. intros H. unfold written. by rewrite decide_True. Qed.

Lemma but000_rename ctx source_col but000 mc idx col :
  idx < nrows but000 →
  is_child ctx (row_sid but000 source_col idx) = true →
  col ∈ cols_name → col ∈ columns but000 →
  df_at (but000_loop ctx source_col but000 mc).1 idx col
  = written (df_at but000 idx col)
      (common_supplier (resolve_parent ctx (row_sid but000 source_col idx))).
Proof.
  intros Hidx Hchild Hname Hcol. unfold but000_loop.
  destruct (for_rows_row BUT000 (but000_row ctx source_col) but000 mc idx
              (but000_row_local ctx source_col) Hidx)
    as (st0 & Hcols & Hrow & _ & Hout & _).
  rewrite Hout. unfold but000_row.
  fold (row_sid but000 source_col idx). rewrite Hchild.
  set (v := common_supplier _).
  set (st1 := upd_each_present (ep ctx) BUT000 idx cols_clear "" st0).
  set (st2 := upd_each_present (ep ctx) BUT000 idx cols_fill_x "X" st1).
  assert (Hc2 : columns st2.1 = columns but000).
  { unfold st2, st1. by rewrite !upd_each_present_columns. }
  assert (Hv : ∀ d, d ∈ cols_name → df_at st2.1 idx d = df_at but000 idx d).
  { intros d Hd. unfold st2, st1.
    rewrite !upd_each_present_at_other, Hrow; [done| |].
    - repeat (apply elem_of_cons in Hd as [->|Hd]); [decide_now..|].
      by apply elem_of_nil in Hd.
    - repeat (apply elem_of_cons in Hd as [->|Hd]); [decide_now..|].
      by apply elem_of_nil in Hd. }
  unfold upd_each, cols_name. cbn [fold_left].
  repeat (apply elem_of_cons in Hname as [->|Hname]).
  - rewrite upd_at_other by (intros [_ ?]; done).
    rewrite upd_at_same by (by rewrite Hc2).
    rewrite Hv by decide_now. done.
  - rewrite upd_at_same by (by rewrite upd_columns, Hc2).
    rewrite upd_at_other by (intros [_ ?]; done).
    rewrite Hv by decide_now. done.
  - by apply elem_of_nil in Hname.
Qed.

Lemma adrc_rename ctx adrc adrc_src_col adrc_name_col mc idx :
  idx < nrows adrc →
  is_child ctx (row_sid adrc adrc_src_col idx) = true →
  adrc_name_col ∈ columns adrc →
  df_at (for_rows adrc (adrc_row ctx adrc_src_col adrc_name_col) mc).1 idx
        adrc_name_col
  = written (df_at adrc idx adrc_name_col)
      (common_supplier (resolve_parent ctx (row_sid adrc adrc_src_col idx))).
Proof.
  intros Hidx Hchild Hcol.
  destruct (for_rows_row ADRC (adrc_row ctx adrc_src_col adrc_name_col) adrc mc idx
              (adrc_row_local ctx adrc_src_col adrc_name_col) Hidx)
    as (st0 & Hcols & Hrow & _ & Hout & _).
  rewrite Hout. unfold adrc_row.
  fold (row_sid adrc adrc_src_col idx). rewrite Hchild.
  rewrite upd_at_same by (by rewrite Hcols). by rewrite Hrow.
Qed.

Lemma lfa1_rename ctx lfa1 lfa1_src_col mc idx :
  idx < nrows lfa1 →
  is_child ctx (row_sid lfa1 lfa1_src_col idx) = true →
  "NAME1" ∈ columns lfa1 →
  df_at (for_rows lfa1 (lfa1_row ctx lfa1_src_col) mc).1 idx "NAME1"
  = written (df_at lfa1 idx "NAME1")
      (common_supplier (resolve_parent ctx (row_sid lfa1 lfa1_src_col idx))).
Proof.
  intros Hidx Hchild Hcol.
  destruct (for_rows_row LFA1 (lfa1_row ctx lfa1_src_col) lfa1 mc idx
              (lfa1_row_local ctx lfa1_src_col) Hidx)
    as (st0 & Hcols & Hrow & _ & Hout & _).
  rewrite Hout. unfold lfa1_row.
  fold (row_sid lfa1 lfa1_src_col idx). rewrite Hchild.
  rewrite upd_each_at_other by decide_now.
  unfold cols_to_replace, upd_each at 1. cbn [fold_left].
  rewrite upd_at_same by (by rewrite upd_each_columns, Hcols).
  rewrite upd_each_at_other by decide_now. by rewrite Hrow.
Qed.

(** C3, as the code has it: for a child identifier C with parent P, every
    configured name cell of every row of C (MC_NAME1 and NAME_ORG1 in
    BUT000, the resolved Name1 column in ADRC, NAME1 in LFA1) ends as
    [written old ("COMMON SUPPLIER " ++ P)]: exactly that text when the
    trimmed old text differs from it, and the old cell, equal to it up to
    surrounding white space, otherwise. *)
Theorem rename_rule (ctx : Ctx) (C P : string) :
  is_child ctx C = true →
  resolve_parent ctx C = P →
  (∀ but000 source_col mc idx col,
     idx < nrows but000 → row_sid but000 source_col idx = C →
     col ∈ cols_name → col ∈ columns but000 →
     df_at (but000_loop ctx source_col but000 mc).1 idx col
     = written (df_at but000 idx col) ("COMMON SUPPLIER " ++ P)) ∧
  (∀ adrc adrc_src_col adrc_name_col mc idx,
     idx < nrows adrc → row_sid adrc adrc_src_col idx = C →
     adrc_name_col ∈ columns adrc →
     df_at (for_rows adrc (adrc_row ctx adrc_src_col adrc_name_col) mc).1 idx
           adrc_name_col
     = written (df_at adrc idx adrc_name_col) ("COMMON SUPPLIER " ++ P)) ∧
  (∀ lfa1 lfa1_src_col mc idx,
     idx < nrows lfa1 → row_sid lfa1 lfa1_src_col idx = C →
     "NAME1" ∈ columns lfa1 →
     df_at (for_rows lfa1 (lfa1_row ctx lfa1_src_col) mc).1 idx "NAME1"
     = written (df_at lfa1 idx "NAME1") ("COMMON SUPPLIER " ++ P)) ∧
  (∀ old,
     PyStr.strip (str (written old ("COMMON SUPPLIER " ++ P)))
     = PyStr.strip ("COMMON SUPPLIER " ++ P) ∧
     (PyStr.strip (str old) ≠ PyStr.strip ("COMMON SUPPLIER " ++ P) →
      written old ("COMMON SUPPLIER " ++ P) = Str ("COMMON SUPPLIER " ++ P))).
Proof.
  intros Hchild Hparent. split_and!.
  - intros but000 source_col mc idx col Hidx Hsid Hname Hcol.
    rewrite but000_rename by (rewrite ?Hsid; done). by rewrite Hsid, Hparent.
  - intros adrc src name mc idx Hidx Hsid Hcol.
    rewrite adrc_rename by (rewrite ?Hsid; done). by rewrite Hsid, Hparent.
  - intros lfa1 src mc idx Hidx Hsid Hcol.
    rewrite lfa1_rename by (rewrite ?Hsid; done). by rewrite Hsid, Hparent.
  - intros old. split; [apply written_strip | apply written_changed].
Qed.

Lemma rename_rule_witness :
  is_child Samples.ctx Samples.child = true ∧
  resolve_parent Samples.ctx Samples.child = Samples.parent ∧
  df_at (but000_loop Samples.ctx "Source_ID" Samples.but000 ∅).1 1 "MC_NAME1"
  = Str "COMMON SUPPLIER 1003000001" ∧
  df_at (for_rows Samples.adrc (adrc_row Samples.ctx "Source_ID" "Name1") ∅).1 1
        "Name1"
  = Str "COMMON SUPPLIER 1003000001" ∧
  df_at (for_rows Samples.lfa1 (lfa1_row Samples.ctx "Source_ID") ∅).1 1 "NAME1"
  = Str "COMMON SUPPLIER 1003000001".
Proof.
  assert (Hc : is_child Samples.ctx Samples.child = true) by reflexivity.
  assert (Hp : resolve_parent Samples.ctx Samples.child = Samples.parent)
    by reflexivity.
  destruct (rename_rule Samples.ctx Samples.child Samples.parent Hc Hp)
    as (H1 & H2 & H3 & _).
  split; [exact Hc|]. split; [exact Hp|]. split_and!.
  - rewrite H1; [reflexivity | simpl; lia | reflexivity | decide_now | decide_now].
  - rewrite H2; [reflexivity | simpl; lia | reflexivity | decide_now].
  - rewrite H3; [reflexivity | simpl; lia | reflexivity | decide_now].
Defined.

(** C3 as stated fails: a Name1 cell of a child row that already holds the
    target text followed by a space is left as it is by both files, and is
    not exactly the target text. *)
Lemma rename_keeps_cell_equal_up_to_spaces :
  let workbook := set Samples.workbook ADRC Samples.adrc_spaced in
  let after := CommonSupplierPy.process_excel workbook Samples.pairs in
  let after_main := MainPy.process_excel workbook in
  after.2 = inr tt ∧
  (get (build_mapping Samples.pairs).1 Samples.child = Some Samples.parent ∧
   type_of (build_mapping Samples.pairs).2 Samples.child = Some child_id) ∧
  to_rows <$> get (sheets after.1) ADRC
  = Some [[Str Samples.parent; Str "ACME"; Str "OSAKA"];
          [Str Samples.child; Str "COMMON SUPPLIER 1003000001 "; Str "KOBE"]] ∧
  to_rows <$> get (sheets after_main.1) ADRC
  = Some [[Str Samples.parent; Str "ACME"; Str "OSAKA"];
          [Str Samples.child; Str "COMMON SUPPLIER 1003000001 "; Str "KOBE"]] ∧
  "COMMON SUPPLIER 1003000001 " ≠ ("COMMON SUPPLIER " ++ Samples.parent)%string.
Proof. vm_compute. split_and!; done. Qed.

(* ================================================================== *)
(** * The association sheets: one row *)
(* ================================================================== *)

Section association_facts.
Implicit Types (ctx : Ctx) (st : DataFrame * Ledger) (idx : nat) (df : DataFrame).

Lemma df_at_ensure_column df col idx :
  df_at (ensure_column df col) idx col = ensured df col idx.
Proof.
  unfold ensure_column, ensured. case_decide; [done|].
  by apply df_at_add_column_new.
Qed.

Lemma columns_ensure_column df col :
  columns (ensure_column df col) =
  if decide (col ∈ columns df) then columns df else columns df ++ [col].
Proof.
  unfold ensure_column. case_decide; [done | apply columns_add_column].
Qed.

Lemma reconcile_row_qualifies ctx s src_col code_col action_col code_map df idx st :
  reconcile_row ctx s src_col code_col action_col code_map idx (df_at df idx) st =
  if qualifies ctx code_map df src_col code_col idx
  then upd (ep ctx) s idx src_col
           (resolve_parent ctx (row_sid df src_col idx))
           (upd (ep ctx) s idx action_col "I" st)
  else st.
Proof.
  unfold reconcile_row, qualifies, row_sid, row_code.
  destruct (is_child ctx _); [|done]. simpl. by destruct (_ && _).
Qed.

Lemma reconcile_row_at_other ctx s src_col code_col action_col code_map idx row st j d :
  d ≠ action_col → d ≠ src_col →
  df_at (reconcile_row ctx s src_col code_col action_col code_map idx row st).1 j d
  = df_at st.1 j d.
Proof.
  intros Ha Hs. unfold reconcile_row.
  destruct (is_child ctx _); [|done]. destruct (_ && _); [|done].
  rewrite !upd_at_other; [done | intros [_ ?]; done | intros [_ ?]; done].
Qed.

Lemma reconcile_row_ledger_other ctx s src_col code_col action_col code_map idx row
  st j d :
  d ≠ action_col → d ≠ src_col →
  (s, j, d) ∈ (reconcile_row ctx s src_col code_col action_col code_map idx row st).2
  ↔ (s, j, d) ∈ st.2.
Proof.
  intros Ha Hs. unfold reconcile_row.
  destruct (is_child ctx _); [|done]. destruct (_ && _); [|done].
  rewrite !upd_ledger. split; [|intros ?; left; by left].
  intros [[?|[He _]]|[He _]]; [done|..]; congruence.
Qed.

Lemma reconcile_row_columns ctx s src_col code_col action_col code_map idx row st :
  columns (reconcile_row ctx s src_col code_col action_col code_map idx row st).1
  = columns st.1.
Proof.
  apply (reconcile_row_local ctx s src_col code_col action_col code_map idx row st).
Qed.

(** The reconciliation of one row of LFB1 or LFM1, read off the frame
    [df1] that [ensure_column] returned. *)
Lemma reconcile_loop_row ctx s src_col code_col df mc idx :
  src_col ∈ columns df → src_col ≠ "_ACTION_CODE" → idx < nrows df →
  let df1 := ensure_column df "_ACTION_CODE" in
  let out := reconcile_loop ctx s src_col code_col df mc in
  let parent_id := resolve_parent ctx (row_sid df1 src_col idx) in
  if qualifies ctx (group_sets df1 src_col code_col) df1 src_col code_col idx
  then
    df_at out.1 idx "_ACTION_CODE" = written (df_at df1 idx "_ACTION_CODE") "I" ∧
    df_at out.1 idx src_col = written (df_at df1 idx src_col) parent_id ∧
    (∀ d, d ≠ "_ACTION_CODE" → d ≠ src_col → df_at out.1 idx d = df_at df1 idx d)
  else
    (∀ d, df_at out.1 idx d = df_at df1 idx d) ∧
    (∀ c, (s, idx, c) ∈ out.2 ↔ (s, idx, c) ∈ mc).
Proof.
  intros Hsrc Hne Hidx df1 out parent_id. unfold out, reconcile_loop.
  fold df1.
  set (body := reconcile_row ctx s src_col code_col "_ACTION_CODE"
                 (group_sets df1 src_col code_col)).
  assert (Hidx1 : idx < nrows df1) by (unfold df1; by rewrite nrows_ensure_column).
  destruct (for_rows_row s body df1 mc idx
              (reconcile_row_local ctx s src_col code_col "_ACTION_CODE" _) Hidx1)
    as (st0 & Hcols & Hrow & Hmc & Hout & Hled).
  unfold body in *. clear body. rewrite reconcile_row_qualifies in Hout, Hled.
  destruct (qualifies ctx _ df1 src_col code_col idx).
  - assert (Ha : "_ACTION_CODE" ∈ columns st0.1)
      by (rewrite Hcols; apply ensure_column_elem).
    assert (Hs : src_col ∈ columns st0.1)
      by (rewrite Hcols; by apply ensure_column_mono).
    split_and!.
    + rewrite Hout, upd_at_other by (intros [_ ?]; done).
      rewrite upd_at_same by done. by rewrite Hrow.
    + rewrite Hout, upd_at_same by (by rewrite upd_columns).
      rewrite upd_at_other by (intros [_ ?]; done). by rewrite Hrow.
    + intros d Hd1 Hd2. rewrite Hout.
      rewrite !upd_at_other; [by rewrite Hrow | intros [_ ?]; done..].
  - split; [intros d; by rewrite Hout, Hrow | intros c; by rewrite Hled, Hmc].
Qed.

(** The parent's set: the trimmed non-NaN codes of the rows whose raw
    identifier cell is the key, in the frame the loop starts from. *)
Lemma group_sets_fold df src_col code_col (l : list nat) (d0 : dict (gset string)) k x :
  x ∈ default (∅ : gset string)
        (get (fold_left
                (λ d idx,
                   match df_at df idx src_col with
                   | NaN => d
                   | Str k =>
                       let codes : gset string :=
                         match df_at df idx code_col with
                         | NaN => ∅
                         | Str s => {[ PyStr.strip s ]}
                         end in
                       set d k (default ∅ (get d k) ∪ codes)
                   end) l d0) k)
  ↔ x ∈ default (∅ : gset string) (get d0 k)
    ∨ ∃ i t, i ∈ l ∧ df_at df i src_col = Str k ∧ df_at df i code_col = Str t
             ∧ x = PyStr.strip t.
Proof.
  revert d0. induction l as [|i l IH]; intros d0; simpl.
  - split; [by left|]. intros [?|(i & t & Hi & _)]; [done|].
    by apply elem_of_nil in Hi.
  - rewrite IH. clear IH. split.
    + intros [Hx|(j & t & Hj & H1 & H2 & H3)].
      * destruct (df_at df i src_col) as [|k'] eqn:Hk; [by left|].
        rewrite get_set in Hx. destruct (decide (k' = k)) as [->|Hne]; [|by left].
        simpl in Hx. apply elem_of_union in Hx as [Hx|Hx]; [by left|].
        destruct (df_at df i code_col) as [|t] eqn:Ht; [set_solver|].
        apply elem_of_singleton in Hx. right. exists i, t.
        split_and!; [left|done..].
      * right. exists j, t. split_and!; [by right|done..].
    + intros [Hx|(j & t & Hj & H1 & H2 & H3)].
      * left. destruct (df_at df i src_col) as [|k'] eqn:Hk; [done|].
        rewrite get_set. destruct (decide (k' = k)) as [->|Hne]; [|done].
        simpl. apply elem_of_union. by left.
      * apply elem_of_cons in Hj as [->|Hj].
        -- left. rewrite H1, get_set, decide_True by done. simpl.
           rewrite H2. apply elem_of_union. right. by apply elem_of_singleton.
        -- right. exists j, t. done.
Qed.

Lemma group_sets_spec df src_col code_col k x :
  x ∈ default (∅ : gset string) (get (group_sets df src_col code_col) k)
  ↔ ∃ i t, i < nrows df ∧ df_at df i src_col = Str k
           ∧ df_at df i code_col = Str t ∧ x = PyStr.strip t.
Proof.
  unfold group_sets. rewrite group_sets_fold. simpl. split.
  - intros [Hx|(i & t & Hi & H)]; [set_solver|].
    exists i, t. apply elem_of_seq in Hi. split; [lia|done].
  - intros (i & t & Hi & H). right. exists i, t. split; [|done].
    apply elem_of_seq. lia.
Qed.

End association_facts.

(* ================================================================== *)
(** * WYT3: one row, and the labels the lookups return *)
(* ================================================================== *)

Section partner_function_facts.
Implicit Types (ctx : Ctx) (st : DataFrame * Ledger) (idx : nat) (df : DataFrame).

Lemma wyt3_row_fires ctx src_col ekorg_col action_col ekorg_map parvw_col defpa_col
  idx df st :
  wyt3_row ctx src_col ekorg_col action_col ekorg_map parvw_col defpa_col idx
           (df_at df idx) st
  = if parvw_fires parvw_col df idx
    then upd (ep ctx) WYT3 idx defpa_col "X"
           (reconcile_row ctx WYT3 src_col ekorg_col action_col ekorg_map idx
              (df_at df idx) st)
    else reconcile_row ctx WYT3 src_col ekorg_col action_col ekorg_map idx
           (df_at df idx) st.
Proof. unfold wyt3_row, parvw_fires, parvw_is_lf. by destruct parvw_col. Qed.

Lemma wyt3_loop_row ctx src_col ekorg_col df mc idx :
  src_col ∈ columns df → src_col ≠ "_ACTION_CODE" → src_col ≠ "DEFPA" →
  idx < nrows df →
  let df1 := ensure_column df "_ACTION_CODE" in
  let df2 := ensure_column df1 "DEFPA" in
  let out := wyt3_loop ctx src_col ekorg_col df mc in
  let fires := parvw_fires (find_parvw (columns df1)) df2 idx in
  df_at out.1 idx "DEFPA"
  = (if fires then written (df_at df2 idx "DEFPA") "X" else df_at df2 idx "DEFPA") ∧
  ((WYT3, idx, "DEFPA") ∈ out.2 ↔
   (WYT3, idx, "DEFPA") ∈ mc
   ∨ (fires = true ∧ PyStr.strip (str (df_at df2 idx "DEFPA")) ≠ "X")) ∧
  (qualifies ctx (group_sets df1 src_col ekorg_col) df2 src_col ekorg_col idx = false →
   df_at out.1 idx "_ACTION_CODE" = df_at df2 idx "_ACTION_CODE").
Proof.
  intros Hsrc Hne1 Hne2 Hidx df1 df2 out fires. unfold out, wyt3_loop.
  fold df1. fold df2.
  assert (Hidx2 : idx < nrows df2)
    by (unfold df2, df1; by rewrite !nrows_ensure_column).
  destruct (for_rows_row WYT3
              (wyt3_row ctx src_col ekorg_col "_ACTION_CODE"
                 (group_sets df1 src_col ekorg_col) (find_parvw (columns df1)) "DEFPA")
              df2 mc idx
              (wyt3_row_local ctx src_col ekorg_col "_ACTION_CODE" _ _ "DEFPA") Hidx2)
    as (st0 & Hcols & Hrow & Hmc & Hout & Hled).
  rewrite wyt3_row_fires in Hout, Hled. fold fires in Hout, Hled.
  set (st1 := reconcile_row ctx WYT3 src_col ekorg_col "_ACTION_CODE"
                (group_sets df1 src_col ekorg_col) idx (df_at df2 idx) st0) in *.
  assert (Hd1 : df_at st1.1 idx "DEFPA" = df_at df2 idx "DEFPA").
  { unfold st1. rewrite reconcile_row_at_other by done. apply Hrow. }
  assert (Hl1 : (WYT3, idx, "DEFPA") ∈ st1.2 ↔ (WYT3, idx, "DEFPA") ∈ mc).
  { unfold st1. rewrite reconcile_row_ledger_other by done. apply Hmc. }
  assert (Hc1 : "DEFPA" ∈ columns st1.1).
  { unfold st1. rewrite reconcile_row_columns, Hcols. apply ensure_column_elem. }
  split_and!.
  - rewrite Hout. destruct fires; [|done].
    rewrite upd_at_same by done. by rewrite Hd1.
  - rewrite Hled. destruct fires.
    + rewrite upd_ledger, Hl1. unfold records, writes, clears_absent.
      rewrite Hd1. split.
      * intros [?|[_ [[_ Hs] _]]]; [by left|]. right. done.
      * intros [?|[_ Hs]]; [by left|]. right. split; [done|].
        split; [done|]. intros (_ & _ & ?). done.
    + rewrite Hl1. split; [by left|]. intros [?|[? _]]; done.
  - intros Hq. rewrite Hout.
    assert (Ha : df_at st1.1 idx "_ACTION_CODE" = df_at df2 idx "_ACTION_CODE").
    { unfold st1. rewrite reconcile_row_qualifies, Hq. apply Hrow. }
    destruct fires; [|done].
    rewrite upd_at_other by (intros [_ ?]; done). done.
Qed.

Lemma find_parvw_app cs l p :
  find_parvw cs = Some p → find_parvw (cs ++ l) = Some p.
Proof.
  induction cs as [|c cs IH]; simpl; [done|].
  destruct (decide _); [done|apply IH].
Qed.

Lemma find_parvw_elem cs p :
  find_parvw cs = Some p → p ∈ cs ∧ PyStr.lower (PyStr.strip p) = "parvw".
Proof.
  induction cs as [|c cs IH]; simpl; [done|].
  destruct (decide _) as [Hc|Hc].
  - intros [= <-]. split; [left|done].
  - intros Hp. destruct (IH Hp). split; [by right|done].
Qed.

Lemma find_parvw_ensure df col p :
  find_parvw (columns df) = Some p →
  find_parvw (columns (ensure_column df col)) = Some p.
Proof.
  intros Hp. rewrite columns_ensure_column. case_decide; [done|].
  by apply find_parvw_app.
Qed.

(** A label that resolves a target is none of the literals below. *)
Lemma find_column_Source_ID df src_col :
  find_column df "Source_ID" = inr src_col →
  src_col ∈ columns df ∧ src_col ≠ "" ∧ src_col ≠ "_ACTION_CODE" ∧ src_col ≠ "DEFPA".
Proof.
  intros Hf. split; [by eapply find_column_elem|].
  apply find_column_fold in Hf.
  split_and!; intros ->; vm_compute in Hf; discriminate.
Qed.

Lemma try_find_columns_inr df src_col ekorg_col :
  try_find_columns df = inr (src_col, ekorg_col) →
  find_column df "Source_ID" = inr src_col ∧
  find_column df "EKORG" = inr ekorg_col ∧
  both_truthy src_col ekorg_col = true.
Proof.
  unfold try_find_columns.
  destruct (find_column df "Source_ID") as [e|s] eqn:Hs; [done|].
  destruct (find_column df "EKORG") as [e|k] eqn:Hk; [done|].
  intros [= <- <-]. split_and!; [done..|].
  unfold both_truthy. apply andb_true_iff. split; apply bool_decide_eq_true.
  - by apply (find_column_Source_ID df s).
  - apply find_column_fold in Hk. intros ->. vm_compute in Hk. discriminate.
Qed.

Lemma nrows_clean_headers df : nrows (clean_headers df) = nrows df.
Proof. done. Qed.

End partner_function_facts.

(* ================================================================== *)
(** * The PARVW rule (C7) *)
(* ================================================================== *)

(** C7, as the code has it: in WYT3, when the Source_ID and EKORG columns
    resolve and a PARVW column is found, a row whose trimmed PARVW is "LF"
    up to case ends with DEFPA = [written old "X"], where [old] is the
    row's DEFPA cell ("" when the column had to be created): exactly "X"
    when the trimmed old text is not "X", the old cell otherwise; and the
    ledger holds the cell exactly when it did before or the trimmed old
    text is not "X".  The classification of the row's identifier does not
    enter. *)
Theorem partner_function_defpa
  (ctx : Ctx) (df : DataFrame) (mc : Ledger) (src_col ekorg_col parvw_col : string)
  (idx : nat) :
  let df0 := clean_headers df in
  try_find_columns df0 = inr (src_col, ekorg_col) →
  find_parvw (columns df0) = Some parvw_col →
  idx < nrows df →
  PyStr.upper (PyStr.strip (str (df_at df0 idx parvw_col))) = "LF" →
  let out := wyt3_partner_function ctx df mc in
  let old := ensured df0 "DEFPA" idx in
  df_at out.1.1 idx "DEFPA" = written old "X" ∧
  ((WYT3, idx, "DEFPA") ∈ out.1.2 ↔
   (WYT3, idx, "DEFPA") ∈ mc ∨ PyStr.strip (str old) ≠ "X").
Proof.
  intros df0 Hcols Hparvw Hidx Hlf out old. unfold out, wyt3_partner_function.
  fold df0. rewrite Hcols.
  destruct (try_find_columns_inr df0 src_col ekorg_col Hcols) as (Hs & _ & Ht).
  rewrite Ht. cbn [fst snd].
  destruct (find_column_Source_ID df0 src_col Hs) as (Hin & _ & Hna & Hnd).
  destruct (wyt3_loop_row ctx src_col ekorg_col df0 mc idx Hin Hna Hnd Hidx)
    as (H1 & H2 & _).
  set (df1 := ensure_column df0 "_ACTION_CODE") in *.
  set (df2 := ensure_column df1 "DEFPA") in *.
  assert (Hp1 : find_parvw (columns df1) = Some parvw_col)
    by (by apply find_parvw_ensure).
  destruct (find_parvw_elem _ _ Hparvw) as [Hpin Hplow].
  assert (Hfires : parvw_fires (find_parvw (columns df1)) df2 idx = true).
  { rewrite Hp1. unfold parvw_fires, parvw_is_lf.
    apply andb_true_iff. split; apply bool_decide_eq_true.
    - intros ->. vm_compute in Hplow. discriminate.
    - unfold df2, df1. rewrite !df_at_ensure_column_old; [done|..].
      + done.
      + by apply ensure_column_mono. }
  rewrite Hfires in H1, H2.
  assert (Hold : df_at df2 idx "DEFPA" = old).
  { unfold old, ensured, df2.
    destruct (decide ("DEFPA" ∈ columns df0)) as [Hd|Hd].
    - rewrite df_at_ensure_column_old by (by apply ensure_column_mono).
      unfold df1. by rewrite df_at_ensure_column_old.
    - rewrite df_at_ensure_column. unfold ensured.
      rewrite decide_False; [done|]. unfold df1.
      rewrite columns_ensure_column. case_decide; [done|].
      intros [?|Hx]%elem_of_app; [done|].
      apply list_elem_of_singleton in Hx. discriminate. }
  rewrite Hold in H1, H2. split; [exact H1|].
  rewrite H2. split; intros [?|?]; [by left|right|by left|right]; tauto.
Qed.

Lemma partner_function_defpa_witness :
  try_find_columns (clean_headers Samples.wyt3) = inr ("Source_ID", "EKORG") ∧
  find_parvw (columns (clean_headers Samples.wyt3)) = Some "PARVW" ∧
  1 < nrows Samples.wyt3 ∧
  PyStr.upper (PyStr.strip (str (df_at (clean_headers Samples.wyt3) 1 "PARVW"))) = "LF" ∧
  df_at (wyt3_partner_function Samples.ctx Samples.wyt3 ∅).1.1 1 "DEFPA" = Str "X" ∧
  ((WYT3, 1, "DEFPA") ∈ (wyt3_partner_function Samples.ctx Samples.wyt3 ∅).1.2 ↔
   (WYT3, 1, "DEFPA") ∈ (∅ : Ledger)
   ∨ PyStr.strip (str (ensured (clean_headers Samples.wyt3) "DEFPA" 1)) ≠ "X").
Proof.
  assert (H1 : try_find_columns (clean_headers Samples.wyt3)
               = inr ("Source_ID", "EKORG")) by reflexivity.
  assert (H2 : find_parvw (columns (clean_headers Samples.wyt3)) = Some "PARVW")
    by reflexivity.
  assert (H3 : 1 < nrows Samples.wyt3) by (simpl; lia).
  assert (H4 : PyStr.upper
                 (PyStr.strip (str (df_at (clean_headers Samples.wyt3) 1 "PARVW")))
               = "LF") by reflexivity.
  destruct (partner_function_defpa Samples.ctx Samples.wyt3 ∅
              "Source_ID" "EKORG" "PARVW" 1 H1 H2 H3 H4) as [Ha Hb].
  split_and!; [exact H1 | exact H2 | exact H3 | exact H4 | | exact Hb].
  rewrite Ha. reflexivity.
Defined.

(** C7 as stated fails in two ways.  On a WYT3 sheet without an EKORG
    column the whole block is skipped with a warning, the PARVW rule
    included: the row with PARVW = "LF" gets no DEFPA.  And a row whose
    DEFPA is "X" already is not written, so the ledger does not name it. *)
Lemma partner_function_defpa_skipped_or_unrecorded :
  let skipped :=
    CommonSupplierPy.process_excel
      (set Samples.workbook WYT3 Samples.wyt3_no_ekorg) Samples.pairs in
  let unrecorded :=
    CommonSupplierPy.process_excel
      (set Samples.workbook WYT3 Samples.wyt3_defpa_set) Samples.pairs in
  (to_rows Samples.wyt3_no_ekorg = [[Str Samples.parent; Str "LF"]] ∧
   skipped.2 = inr tt ∧
   warnings skipped.1 = [KeyError_column "EKORG"] ∧
   columns <$> get (sheets skipped.1) WYT3 = Some ["Source_ID"; "PARVW"] ∧
   to_rows <$> get (sheets skipped.1) WYT3 = Some [[Str Samples.parent; Str "LF"]]) ∧
  (unrecorded.2 = inr tt ∧
   to_rows <$> get (sheets unrecorded.1) WYT3
   = Some [[Str Samples.parent; Str "P100"; Str "LF"; Str "X"; Str ""]] ∧
   columns <$> get (sheets unrecorded.1) WYT3
   = Some ["Source_ID"; "EKORG"; "PARVW"; "DEFPA"; "_ACTION_CODE"] ∧
   bool_decide ((WYT3, 0, "DEFPA") ∈ modified_cells unrecorded.1) = false).
Proof. vm_compute. split_and!; done. Qed.

(* ================================================================== *)
(** * The columns the association sheets gain (C10) *)
(* ================================================================== *)

Lemma reconcile_loop_columns ctx s src_col code_col df mc :
  columns (reconcile_loop ctx s src_col code_col df mc).1
  = columns (ensure_column df "_ACTION_CODE").
Proof.
  unfold reconcile_loop.
  apply (for_rows_frame s _ _ mc (reconcile_row_local ctx s src_col code_col _ _)).
Qed.

Lemma wyt3_loop_columns ctx src_col ekorg_col df mc :
  columns (wyt3_loop ctx src_col ekorg_col df mc).1
  = columns (ensure_column (ensure_column df "_ACTION_CODE") "DEFPA").
Proof.
  unfold wyt3_loop.
  apply (for_rows_frame WYT3 _ _ mc
           (wyt3_row_local ctx src_col ekorg_col _ _ _ _)).
Qed.

(** C10: when the Source_ID and code columns of an association sheet
    resolve, the frame that comes out has the labels of the input (with
    clean headers) followed by "_ACTION_CODE" when that was missing (and,
    for WYT3, then by "DEFPA" when that was missing); the new columns hold
    the empty string, and a row keeps it under "_ACTION_CODE" when the
    reconciliation test fails on it and under "DEFPA" when the PARVW rule
    does not fire on it. *)
Theorem action_columns_ensured (ctx : Ctx) (df : DataFrame) (mc : Ledger) :
  let df0 := clean_headers df in
  let df1 := ensure_column df0 "_ACTION_CODE" in
  let df2 := ensure_column df1 "DEFPA" in
  (∀ f col idx,
     col ∈ columns (ensure_column f col) ∧
     (col ∉ columns f →
      columns (ensure_column f col) = columns f ++ [col] ∧
      df_at (ensure_column f col) idx col = Str "")) ∧
  (∀ src_col bukrs_col,
     find_column df0 "Source_ID" = inr src_col →
     find_column df0 "BUKRS" = inr bukrs_col →
     let out := (lfb1_company_code ctx df mc).1.1 in
     columns out = columns df1 ∧
     ∀ idx, idx < nrows df →
       qualifies ctx (group_sets df1 src_col bukrs_col) df1 src_col bukrs_col idx
       = false →
       df_at out idx "_ACTION_CODE" = df_at df1 idx "_ACTION_CODE") ∧
  (∀ src_col ekorg_col,
     try_find_columns df0 = inr (src_col, ekorg_col) →
     let out := (lfm1_purchasing_org ctx df mc).1.1 in
     columns out = columns df1 ∧
     ∀ idx, idx < nrows df →
       qualifies ctx (group_sets df1 src_col ekorg_col) df1 src_col ekorg_col idx
       = false →
       df_at out idx "_ACTION_CODE" = df_at df1 idx "_ACTION_CODE") ∧
  (∀ src_col ekorg_col,
     try_find_columns df0 = inr (src_col, ekorg_col) →
     let out := (wyt3_partner_function ctx df mc).1.1 in
     columns out = columns df2 ∧
     ∀ idx, idx < nrows df →
       (qualifies ctx (group_sets df1 src_col ekorg_col) df2 src_col ekorg_col idx
        = false →
        df_at out idx "_ACTION_CODE" = df_at df2 idx "_ACTION_CODE") ∧
       (parvw_fires (find_parvw (columns df1)) df2 idx = false →
        df_at out idx "DEFPA" = df_at df2 idx "DEFPA")).
Proof.
  intros df0 df1 df2. split_and!.
  - intros f col idx. split; [apply ensure_column_elem|].
    intros Hc. rewrite columns_ensure_column, decide_False by done.
    split; [done|]. rewrite df_at_ensure_column. unfold ensured.
    by rewrite decide_False.
  - intros src_col bukrs_col Hs Hb out. unfold out, lfb1_company_code.
    fold df0. rewrite Hs, Hb. cbn [fst snd].
    split; [apply reconcile_loop_columns|].
    intros idx Hidx Hq.
    destruct (find_column_Source_ID df0 src_col Hs) as (Hin & _ & Hna & _).
    pose proof (reconcile_loop_row ctx LFB1 src_col bukrs_col df0 mc idx
                  Hin Hna Hidx) as Hrow.
    cbv zeta in Hrow. fold df1 in Hrow. rewrite Hq in Hrow. apply Hrow.
  - intros src_col ekorg_col Hc out. unfold out, lfm1_purchasing_org.
    fold df0. rewrite Hc.
    destruct (try_find_columns_inr df0 src_col ekorg_col Hc) as (Hs & _ & Ht).
    rewrite Ht. cbn [fst snd].
    split; [apply reconcile_loop_columns|].
    intros idx Hidx Hq.
    destruct (find_column_Source_ID df0 src_col Hs) as (Hin & _ & Hna & _).
    pose proof (reconcile_loop_row ctx LFM1 src_col ekorg_col df0 mc idx
                  Hin Hna Hidx) as Hrow.
    cbv zeta in Hrow. fold df1 in Hrow. rewrite Hq in Hrow. apply Hrow.
  - intros src_col ekorg_col Hc out. unfold out, wyt3_partner_function.
    fold df0. rewrite Hc.
    destruct (try_find_columns_inr df0 src_col ekorg_col Hc) as (Hs & _ & Ht).
    rewrite Ht. cbn [fst snd].
    split; [apply wyt3_loop_columns|].
    intros idx Hidx.
    destruct (find_column_Source_ID df0 src_col Hs) as (Hin & _ & Hna & Hnd).
    destruct (wyt3_loop_row ctx src_col ekorg_col df0 mc idx Hin Hna Hnd Hidx)
      as (H1 & _ & H3).
    fold df1 in H1, H3. fold df2 in H1, H3.
    split; [exact H3|].
    intros Hf. rewrite Hf in H1. exact H1.
Qed.

(** The sample sheets after commonsupplier.py: the labels gained, and the
    empty string on the rows that no rule touches. *)
Example action_columns_of_the_samples :
  let after := CommonSupplierPy.process_excel Samples.workbook Samples.pairs in
  columns <$> get (sheets after.1) LFB1 = Some ["Source_ID"; "BUKRS"; "_ACTION_CODE"] ∧
  columns <$> get (sheets after.1) WYT3
  = Some ["Source_ID"; "EKORG"; "PARVW"; "_ACTION_CODE"; "DEFPA"] ∧
  to_rows <$> get (sheets after.1) WYT3
  = Some [[Str Samples.parent; Str "P100"; Str "LF"; Str ""; Str "X"];
          [Str Samples.child; Str "P100"; Str " lf "; Str ""; Str "X"];
          [Str Samples.other; Str "P300"; Str "BA"; Str ""; Str ""]].
Proof. vm_compute. split_and!; done. Qed.

(* ================================================================== *)
(** * Failures (C8) *)
(* ================================================================== *)

Lemma check_required_first_missing names R :
  check_required names R =
  match first_missing (sheets R) names with
  | Some s => (R, inl (ValueError_missing_sheet s))
  | None => (R, inr tt)
  end.
Proof.
  unfold first_missing. induction names as [|s names IH]; [done|].
  cbn [check_required]. rewrite filter_cons.
  destruct (mem (sheets R) s) eqn:Hs.
  - rewrite decide_False by done. apply IH.
  - by rewrite decide_True.
Qed.

Lemma first_missing_Some workbook names s :
  s ∈ names → mem workbook s = false →
  ∃ s', first_missing workbook names = Some s' ∧ s' ∈ names ∧ mem workbook s' = false.
Proof.
  intros Hs Hm. unfold first_missing.
  destruct (filter _ names) as [|s' l] eqn:Hf.
  - assert (Hin : s ∈ filter (λ s, mem workbook s = false) names)
      by (by apply list_elem_of_filter).
    rewrite Hf in Hin. by apply elem_of_nil in Hin.
  - exists s'. split; [done|].
    assert (Hin : s' ∈ filter (λ s, mem workbook s = false) names)
      by (rewrite Hf; left).
    apply list_elem_of_filter in Hin as [? ?]. done.
Qed.

Lemma on_optional_skips (name : string)
  (f : DataFrame → Ledger → DataFrame * Ledger * list Exn) R df e :
  get (sheets R) name = Some df →
  f df (modified_cells R) = (clean_headers df, modified_cells R, [e]) →
  on_optional name f R =
  (mkRun (set (sheets R) name (clean_headers df)) (modified_cells R)
         (warnings R ++ [e]), inr tt).
Proof. intros Hg Hf. unfold on_optional. by rewrite Hg, Hf. Qed.

Lemma on_optional_returns (name : string)
  (f : DataFrame → Ledger → DataFrame * Ledger * list Exn) R :
  (on_optional name f R).2 = inr tt.
Proof. unfold on_optional. by destruct (get (sheets R) name). Qed.

(** C8: when a required sheet is missing, both entry points raise the
    [ValueError] that names the first missing required sheet, and the run
    at the raise is the run at the start: no frame was touched, the ledger
    is empty, nothing was assembled.  When a column lookup fails in LFM1 or
    WYT3, the step raises nothing: the frame is left with clean headers and
    its cells as they were, the ledger is left as it was, the exception is
    printed as a warning, and the step returns normally, as every step on
    an optional sheet does. *)
Theorem missing_sheet_is_fatal_missing_optional_column_is_not
  (workbook : dict DataFrame) (pairs : list (string * string)) (s : string) :
  s ∈ required_sheets →
  mem workbook s = false →
  (∃ s', first_missing workbook required_sheets = Some s' ∧
         s' ∈ required_sheets ∧ mem workbook s' = false ∧
         CommonSupplierPy.process_excel workbook pairs
         = (start workbook, inl (ValueError_missing_sheet s')) ∧
         MainPy.process_excel workbook
         = (start workbook, inl (ValueError_missing_sheet s'))) ∧
  (∀ ctx R df e,
     try_find_columns (clean_headers df) = inl e →
     (get (sheets R) LFM1 = Some df →
      on_optional LFM1 (lfm1_purchasing_org ctx) R
      = (mkRun (set (sheets R) LFM1 (clean_headers df)) (modified_cells R)
               (warnings R ++ [e]), inr tt)) ∧
     (get (sheets R) WYT3 = Some df →
      on_optional WYT3 (wyt3_partner_function ctx) R
      = (mkRun (set (sheets R) WYT3 (clean_headers df)) (modified_cells R)
               (warnings R ++ [e]), inr tt))) ∧
  (∀ ctx R,
     (on_optional LFM1 (lfm1_purchasing_org ctx) R).2 = inr tt ∧
     (on_optional WYT3 (wyt3_partner_function ctx) R).2 = inr tt).
Proof.
  intros Hs Hm. split_and!.
  - destruct (first_missing_Some workbook required_sheets s Hs Hm)
      as (s' & Hf & Hin & Hm').
    exists s'. split_and!; [done..| |].
    + unfold CommonSupplierPy.process_excel, CommonSupplierPy.process_excel_steps.
      unfold bind at 1. rewrite check_required_first_missing. simpl sheets.
      by rewrite Hf.
    + unfold MainPy.process_excel, MainPy.process_excel_steps.
      unfold bind at 1. rewrite check_required_first_missing. simpl sheets.
      by rewrite Hf.
  - intros ctx R df e He. split; intros Hg.
    + apply on_optional_skips; [done|]. unfold lfm1_purchasing_org. by rewrite He.
    + apply on_optional_skips; [done|]. unfold wyt3_partner_function. by rewrite He.
  - intros ctx R. split; apply on_optional_returns.
Qed.

(** Without LFA1 the run stops at the start; with an LFM1 sheet that has no
    EKORG column the run goes on through WYT3. *)
Lemma missing_sheet_is_fatal_missing_optional_column_is_not_witness :
  let no_lfa1 := filter (λ e : string * DataFrame, e.1 ≠ LFA1) Samples.workbook in
  let no_ekorg :=
    CommonSupplierPy.process_excel
      (set Samples.workbook LFM1 Samples.lfm1_no_ekorg) Samples.pairs in
  LFA1 ∈ required_sheets ∧
  mem no_lfa1 LFA1 = false ∧
  CommonSupplierPy.process_excel no_lfa1 Samples.pairs
  = (start no_lfa1, inl (ValueError_missing_sheet LFA1)) ∧
  no_ekorg.2 = inr tt ∧
  warnings no_ekorg.1 = [KeyError_column "EKORG"] ∧
  to_rows <$> get (sheets no_ekorg.1) LFM1 = Some (to_rows Samples.lfm1_no_ekorg) ∧
  columns <$> get (sheets no_ekorg.1) LFM1 = Some ["Source_ID"; "WAERS"] ∧
  columns <$> get (sheets no_ekorg.1) WYT3
  = Some ["Source_ID"; "EKORG"; "PARVW"; "_ACTION_CODE"; "DEFPA"].
Proof.
  intros no_lfa1 no_ekorg.
  assert (H1 : LFA1 ∈ required_sheets) by decide_now.
  assert (H2 : mem no_lfa1 LFA1 = false) by reflexivity.
  destruct (missing_sheet_is_fatal_missing_optional_column_is_not
              no_lfa1 Samples.pairs LFA1 H1 H2) as ((s' & Hf & _ & _ & Hc & _) & _ & _).
  assert (Hs' : s' = LFA1).
  { assert (Hx : first_missing no_lfa1 required_sheets = Some LFA1) by reflexivity.
    rewrite Hx in Hf. by injection Hf. }
  subst s'.
  split_and!; [exact H1 | exact H2 | exact Hc | ..]; vm_compute; reflexivity.
Defined.

(* ================================================================== *)
(** * Steps of the run: what they return and what they leave alone *)
(* ================================================================== *)

Section run_facts.
Implicit Types (R : Run) (ctx : Ctx) (df : DataFrame) (mc : Ledger).

Lemma bind_ok {A B} (m : M A) (k : A → M B) R R' (b : B) :
  bind m k R = (R', inr b) →
  ∃ R1 a, m R = (R1, inr a) ∧ k a R1 = (R', inr b).
Proof.
  unfold bind. destruct (m R) as [R1 [e|a]]; [done|]. intros Hk. eauto.
Qed.

Lemma check_required_ok names R R' (u : unit) :
  check_required names R = (R', inr u) → R' = R.
Proof.
  rewrite check_required_first_missing.
  destruct (first_missing _ _); [done|]. by intros [= <-].
Qed.

Lemma on_required_ok {A} (name : string)
  (f : DataFrame → Ledger → DataFrame * Ledger * (Exn + A)) R R' (a : A) :
  on_required name f R = (R', inr a) →
  ∃ df, get (sheets R) name = Some df ∧
        (f df (modified_cells R)).2 = inr a ∧
        R' = mkRun (set (sheets R) name (f df (modified_cells R)).1.1)
                   (f df (modified_cells R)).1.2 (warnings R).
Proof.
  unfold on_required. destruct (get (sheets R) name) as [df|]; [|done].
  intros [= <- Ha]. exists df. done.
Qed.

Lemma on_optional_ok (name : string)
  (f : DataFrame → Ledger → DataFrame * Ledger * list Exn) R R' r :
  on_optional name f R = (R', r) →
  (get (sheets R) name = None ∧ R' = R) ∨
  ∃ df, get (sheets R) name = Some df ∧
        R' = mkRun (set (sheets R) name (f df (modified_cells R)).1.1)
                   (f df (modified_cells R)).1.2
                   (warnings R ++ (f df (modified_cells R)).2).
Proof.
  unfold on_optional. destruct (get (sheets R) name) as [df|].
  - intros [= <- _]. right. exists df. done.
  - intros [= <- _]. by left.
Qed.

Lemma tagged_refl name mc : tagged name mc mc.
Proof. split; [done | by left]. Qed.

Lemma for_rows_tagged s body df mc :
  (∀ i row, row_local s i (body i row)) →
  tagged s mc (for_rows df body mc).2.
Proof.
  intros Hloc. destruct (for_rows_frame s body df mc Hloc) as (_ & _ & H3 & H4).
  split; [done|]. intros e He. destruct (H4 e He) as [?|(i & c & _ & ->)]; auto.
Qed.

Lemma but100_role_ledger df mc : (but100_role df mc).1.2 = mc.
Proof. unfold but100_role. by destruct (find_column _ _). Qed.

Lemma but000_identify_ledger df mc : (but000_identify df mc).1.2 = mc.
Proof. unfold but000_identify. by destruct (find_column _ _). Qed.

Lemma but000_general_tagged ctx df mc :
  tagged BUT000 mc (but000_general ctx df mc).1.2.
Proof.
  unfold but000_general. destruct (find_column _ _); [apply tagged_refl|].
  apply for_rows_tagged, but000_row_local.
Qed.

Lemma but000_update_tagged ctx source_col df mc :
  tagged BUT000 mc (but000_update ctx source_col df mc).1.2.
Proof. apply for_rows_tagged, but000_row_local. Qed.

Lemma adrc_address_tagged ctx df mc :
  tagged ADRC mc (adrc_address ctx df mc).1.2.
Proof.
  unfold adrc_address. destruct (find_column _ "Source_ID"); [apply tagged_refl|].
  destruct (find_column _ "Name1"); [apply tagged_refl|].
  apply for_rows_tagged, adrc_row_local.
Qed.

Lemma lfa1_supplier_general_tagged ctx df mc :
  tagged LFA1 mc (lfa1_supplier_general ctx df mc).1.2.
Proof.
  unfold lfa1_supplier_general. destruct (find_column _ _); [apply tagged_refl|].
  apply for_rows_tagged, lfa1_row_local.
Qed.

Lemma reconcile_loop_tagged ctx s src_col code_col df mc :
  tagged s mc (reconcile_loop ctx s src_col code_col df mc).2.
Proof. apply for_rows_tagged, reconcile_row_local. Qed.

Lemma lfb1_company_code_tagged ctx df mc :
  tagged LFB1 mc (lfb1_company_code ctx df mc).1.2.
Proof.
  unfold lfb1_company_code. destruct (find_column _ "Source_ID"); [apply tagged_refl|].
  destruct (find_column _ "BUKRS"); [apply tagged_refl|].
  apply reconcile_loop_tagged.
Qed.

Lemma lfm1_purchasing_org_tagged ctx df mc :
  tagged LFM1 mc (lfm1_purchasing_org ctx df mc).1.2.
Proof.
  unfold lfm1_purchasing_org. destruct (try_find_columns _) as [e|[s k]];
    [apply tagged_refl|].
  destruct (both_truthy s k); [apply reconcile_loop_tagged | apply tagged_refl].
Qed.

Lemma wyt3_partner_function_tagged ctx df mc :
  tagged WYT3 mc (wyt3_partner_function ctx df mc).1.2.
Proof.
  unfold wyt3_partner_function. destruct (try_find_columns _) as [e|[s k]];
    [apply tagged_refl|].
  destruct (both_truthy s k); [|apply tagged_refl].
  apply for_rows_tagged, wyt3_row_local.
Qed.

(** A step on another sheet keeps a sheet and the unrecorded row. *)
Lemma holds_unrecorded_tagged name sheet idx df sheets' mc' w R :
  name ≠ sheet → tagged name (modified_cells R) mc' →
  get sheets' sheet = get (sheets R) sheet →
  holds_unrecorded sheet idx df R →
  holds_unrecorded sheet idx df (mkRun sheets' mc' w).
Proof.
  intros Hne [_ Htag] Hget [Hdf Hmc]. split; simpl.
  - by rewrite Hget.
  - intros col Hin. destruct (Htag _ Hin) as [?|Heq]; [by apply (Hmc col)|].
    simpl in Heq. congruence.
Qed.

Lemma on_required_other {A} (name sheet : string)
  (f : DataFrame → Ledger → DataFrame * Ledger * (Exn + A)) idx df R R' a :
  name ≠ sheet →
  (∀ df mc, tagged name mc (f df mc).1.2) →
  on_required name f R = (R', inr a) →
  holds_unrecorded sheet idx df R → holds_unrecorded sheet idx df R'.
Proof.
  intros Hne Htag Hstep Hinv.
  apply on_required_ok in Hstep as (df' & Hg & _ & ->).
  apply (holds_unrecorded_tagged name sheet idx df _ _ _ R); [done| |..|done].
  - apply Htag.
  - by apply get_set_ne.
Qed.

Lemma on_optional_other (name sheet : string)
  (f : DataFrame → Ledger → DataFrame * Ledger * list Exn) idx df R R' r :
  name ≠ sheet →
  (∀ df mc, tagged name mc (f df mc).1.2) →
  on_optional name f R = (R', r) →
  holds_unrecorded sheet idx df R → holds_unrecorded sheet idx df R'.
Proof.
  intros Hne Htag Hstep Hinv.
  apply on_optional_ok in Hstep as [[_ ->]|(df' & Hg & ->)]; [done|].
  apply (holds_unrecorded_tagged name sheet idx df _ _ _ R); [done| |..|done].
  - apply Htag.
  - by apply get_set_ne.
Qed.

(** The step on the sheet itself, when it adds no cell of the row. *)
Lemma on_required_self {A} (sheet : string)
  (f : DataFrame → Ledger → DataFrame * Ledger * (Exn + A)) idx df R R' a :
  (∀ col, (sheet, idx, col) ∈ (f df (modified_cells R)).1.2 →
          (sheet, idx, col) ∈ modified_cells R) →
  on_required sheet f R = (R', inr a) →
  holds_unrecorded sheet idx df R →
  holds_unrecorded sheet idx (f df (modified_cells R)).1.1 R'.
Proof.
  intros Hf Hstep [Hdf Hmc].
  apply on_required_ok in Hstep as (df' & Hg & _ & ->).
  rewrite Hdf in Hg. injection Hg as <-. split; simpl.
  - apply get_set_eq.
  - intros col Hin. apply (Hmc col). by apply Hf.
Qed.

End run_facts.

(* ================================================================== *)
(** * Rows of parents in ADRC and LFA1 (C6) *)
(* ================================================================== *)

Lemma adrc_address_nonchild ctx df mc src_col idx :
  find_column (clean_headers df) "Source_ID" = inr src_col →
  idx < nrows df →
  is_child ctx (row_sid (clean_headers df) src_col idx) = false →
  columns (adrc_address ctx df mc).1.1 = columns (clean_headers df) ∧
  (∀ col, df_at (adrc_address ctx df mc).1.1 idx col
          = df_at (clean_headers df) idx col) ∧
  (∀ col, (ADRC, idx, col) ∈ (adrc_address ctx df mc).1.2 → (ADRC, idx, col) ∈ mc).
Proof.
  intros Hs Hidx Hc. unfold adrc_address. rewrite Hs.
  destruct (find_column _ "Name1") as [e|name_col]; [done|]. cbn [fst snd].
  destruct (for_rows_row ADRC (adrc_row ctx src_col name_col) (clean_headers df) mc idx
              (adrc_row_local ctx src_col name_col) Hidx)
    as (st0 & _ & Hrow & Hmc & Hout & Hled).
  unfold adrc_row in Hout, Hled. fold (row_sid (clean_headers df) src_col idx) in *.
  rewrite Hc in Hout, Hled. split_and!.
  - apply (for_rows_frame ADRC _ _ mc (adrc_row_local ctx src_col name_col)).
  - intros col. by rewrite Hout, Hrow.
  - intros col. by rewrite Hled, Hmc.
Qed.

Lemma lfa1_supplier_general_nonchild ctx df mc src_col idx :
  find_column (clean_headers df) "Source_ID" = inr src_col →
  idx < nrows df →
  is_child ctx (row_sid (clean_headers df) src_col idx) = false →
  columns (lfa1_supplier_general ctx df mc).1.1 = columns (clean_headers df) ∧
  (∀ col, df_at (lfa1_supplier_general ctx df mc).1.1 idx col
          = df_at (clean_headers df) idx col) ∧
  (∀ col, (LFA1, idx, col) ∈ (lfa1_supplier_general ctx df mc).1.2 →
          (LFA1, idx, col) ∈ mc).
Proof.
  intros Hs Hidx Hc. unfold lfa1_supplier_general. rewrite Hs. cbn [fst snd].
  destruct (for_rows_row LFA1 (lfa1_row ctx src_col) (clean_headers df) mc idx
              (lfa1_row_local ctx src_col) Hidx)
    as (st0 & _ & Hrow & Hmc & Hout & Hled).
  unfold lfa1_row in Hout, Hled. fold (row_sid (clean_headers df) src_col idx) in *.
  rewrite Hc in Hout, Hled. split_and!.
  - apply (for_rows_frame LFA1 _ _ mc (lfa1_row_local ctx src_col)).
  - intros col. by rewrite Hout, Hrow.
  - intros col. by rewrite Hled, Hmc.
Qed.

Lemma is_child_of_parent ep src_info id_map ref sid :
  type_of src_info sid = Some parent_id →
  is_child (mkCtx ep src_info id_map ref) sid = false.
Proof.
  unfold type_of, is_child. simpl. destruct (get src_info sid) as [info|]; [|done].
  simpl. intros [= ->]. done.
Qed.

(** C6: after a run of commonsupplier.py that reaches the assembly, a row
    of ADRC or of LFA1 whose identifier is classified parent has every
    cell as the workbook had it, and the ledger names no cell of the row. *)
Theorem parent_rows_untouched
  (workbook : dict DataFrame) (pairs : list (string * string)) (R : Run)
  (sheet : string) (df : DataFrame) (src_col : string) (idx : nat) :
  CommonSupplierPy.process_excel workbook pairs = (R, inr tt) →
  sheet = ADRC ∨ sheet = LFA1 →
  get workbook sheet = Some df →
  find_column (clean_headers df) "Source_ID" = inr src_col →
  idx < nrows df →
  type_of (build_mapping pairs).2 (row_sid (clean_headers df) src_col idx)
  = Some parent_id →
  ∃ out,
    get (sheets R) sheet = Some out ∧
    columns out = columns (clean_headers df) ∧
    (∀ col, df_at out idx col = df_at (clean_headers df) idx col) ∧
    (∀ col, (sheet, idx, col) ∉ modified_cells R).
Proof.
  intros Hrun Hsheet Hdf Hsrc Hidx Hparent.
  unfold CommonSupplierPy.process_excel, CommonSupplierPy.process_excel_steps in Hrun.
  apply bind_ok in Hrun as (R0 & [] & Hc & Hrun).
  apply check_required_ok in Hc as ->. cbv zeta in Hrun.
  apply bind_ok in Hrun as (R1 & src_count & H1 & Hrun).
  apply bind_ok in Hrun as (R2 & [] & H2 & Hrun).
  unfold update_sheets in Hrun.
  apply bind_ok in Hrun as (R3 & [] & H3 & Hrun).
  apply bind_ok in Hrun as (R4 & [] & H4 & Hrun).
  apply bind_ok in Hrun as (R5 & [] & H5 & Hrun).
  apply bind_ok in Hrun as (R6 & [] & H6 & H7).
  set (ctx := mkCtx CommonSupplier (assign_roles src_count (build_mapping pairs).2)
                    (build_mapping pairs).1 "") in *.
  assert (Hchild : is_child ctx (row_sid (clean_headers df) src_col idx) = false).
  { unfold ctx. rewrite is_child_assign_roles. by apply is_child_of_parent. }
  assert (I0 : holds_unrecorded sheet idx df (start workbook)).
  { split; [done|]. intros col. apply not_elem_of_empty. }
  assert (I1 : holds_unrecorded sheet idx df R1).
  { eapply (on_required_other BUT100 sheet); [| |exact H1|exact I0].
    - destruct Hsheet as [-> | ->]; names_ne.
    - intros d mc. rewrite but100_role_ledger. apply tagged_refl. }
  assert (I2 : holds_unrecorded sheet idx df R2).
  { eapply (on_required_other BUT000 sheet); [| |exact H2|exact I1].
    - destruct Hsheet as [-> | ->]; names_ne.
    - apply but000_general_tagged. }
  destruct Hsheet as [-> | ->].
  - destruct (adrc_address_nonchild ctx df (modified_cells R2) src_col idx
                Hsrc Hidx Hchild) as (Hcols & Hcells & Hled).
    exists (adrc_address ctx df (modified_cells R2)).1.1.
    assert (I3 : holds_unrecorded ADRC idx
                   (adrc_address ctx df (modified_cells R2)).1.1 R3)
      by (by eapply on_required_self).
    assert (I4 := on_required_other LFA1 ADRC _ idx _ R3 R4 tt ltac:(names_ne)
                    (lfa1_supplier_general_tagged ctx) H4 I3).
    assert (I5 := on_required_other LFB1 ADRC _ idx _ R4 R5 tt ltac:(names_ne)
                    (lfb1_company_code_tagged ctx) H5 I4).
    assert (I6 := on_optional_other LFM1 ADRC _ idx _ R5 R6 _ ltac:(names_ne)
                    (lfm1_purchasing_org_tagged ctx) H6 I5).
    assert (I7 := on_optional_other WYT3 ADRC _ idx _ R6 R _ ltac:(names_ne)
                    (wyt3_partner_function_tagged ctx) H7 I6).
    destruct I7 as [Hget Hnone]. split_and!; done.
  - destruct (lfa1_supplier_general_nonchild ctx df (modified_cells R3) src_col idx
                Hsrc Hidx Hchild) as (Hcols & Hcells & Hled).
    exists (lfa1_supplier_general ctx df (modified_cells R3)).1.1.
    assert (I3 := on_required_other ADRC LFA1 _ idx _ R2 R3 tt ltac:(names_ne)
                    (adrc_address_tagged ctx) H3 I2).
    assert (I4 : holds_unrecorded LFA1 idx
                   (lfa1_supplier_general ctx df (modified_cells R3)).1.1 R4)
      by (by eapply on_required_self).
    assert (I5 := on_required_other LFB1 LFA1 _ idx _ R4 R5 tt ltac:(names_ne)
                    (lfb1_company_code_tagged ctx) H5 I4).
    assert (I6 := on_optional_other LFM1 LFA1 _ idx _ R5 R6 _ ltac:(names_ne)
                    (lfm1_purchasing_org_tagged ctx) H6 I5).
    assert (I7 := on_optional_other WYT3 LFA1 _ idx _ R6 R _ ltac:(names_ne)
                    (wyt3_partner_function_tagged ctx) H7 I6).
    destruct I7 as [Hget Hnone]. split_and!; done.
Qed.

Lemma parent_rows_untouched_witness :
  let after := CommonSupplierPy.process_excel Samples.workbook Samples.pairs in
  after = (after.1, inr tt) ∧
  (LFA1 = ADRC ∨ LFA1 = LFA1) ∧
  get Samples.workbook LFA1 = Some Samples.lfa1 ∧
  find_column (clean_headers Samples.lfa1) "Source_ID" = inr "Source_ID" ∧
  0 < nrows Samples.lfa1 ∧
  type_of (build_mapping Samples.pairs).2
          (row_sid (clean_headers Samples.lfa1) "Source_ID" 0) = Some parent_id ∧
  ∃ out,
    get (sheets after.1) LFA1 = Some out ∧
    columns out = columns (clean_headers Samples.lfa1) ∧
    (∀ col, df_at out 0 col = df_at (clean_headers Samples.lfa1) 0 col) ∧
    (∀ col, (LFA1, 0, col) ∉ modified_cells after.1).
Proof.
  intros after.
  assert (H1 : CommonSupplierPy.process_excel Samples.workbook Samples.pairs
               = (after.1, inr tt)).
  { unfold after. destruct (CommonSupplierPy.process_excel _ _) as [R r] eqn:Hr.
    assert (Hr2 : (CommonSupplierPy.process_excel Samples.workbook Samples.pairs).2
                  = inr tt) by (vm_compute; reflexivity).
    rewrite Hr in Hr2. simpl in Hr2. by rewrite Hr2. }
  assert (H2 : LFA1 = ADRC ∨ LFA1 = LFA1) by (by right).
  assert (H3 : get Samples.workbook LFA1 = Some Samples.lfa1) by reflexivity.
  assert (H4 : find_column (clean_headers Samples.lfa1) "Source_ID" = inr "Source_ID")
    by reflexivity.
  assert (H5 : 0 < nrows Samples.lfa1) by (simpl; lia).
  assert (H6 : type_of (build_mapping Samples.pairs).2
                 (row_sid (clean_headers Samples.lfa1) "Source_ID" 0)
               = Some parent_id) by reflexivity.
  split_and!; [exact H1 | exact H2 | exact H3 | exact H4 | exact H5 | exact H6 |].
  exact (parent_rows_untouched Samples.workbook Samples.pairs after.1 LFA1
           Samples.lfa1 "Source_ID" 0 H1 H2 H3 H4 H5 H6).
Defined.

(* ================================================================== *)
(** * The role attribute gates nothing (C9) *)
(* ================================================================== *)

Section role_facts.
Implicit Types (R : Run) (ctx : Ctx) (df : DataFrame) (mc : Ledger).

Lemma same_classes_resolve c1 c2 sid :
  same_classes c1 c2 → resolve_parent c1 sid = resolve_parent c2 sid.
Proof.
  intros (Hep & Hmap & Href & _). unfold resolve_parent.
  by rewrite Hep, Hmap, Href.
Qed.

Lemma for_rows_ext df mc
  (b1 b2 : nat → Series → DataFrame * Ledger → DataFrame * Ledger) :
  (∀ i row st, b1 i row st = b2 i row st) →
  for_rows df b1 mc = for_rows df b2 mc.
Proof.
  intros Hb. unfold for_rows. generalize (df, mc).
  induction (iterrows df) as [|ir l IH]; intros st; simpl; [done|].
  by rewrite Hb, IH.
Qed.

Lemma but000_row_ext c1 c2 source_col i row st :
  same_classes c1 c2 →
  but000_row c1 source_col i row st = but000_row c2 source_col i row st.
Proof.
  intros Hc. unfold but000_row.
  rewrite (same_classes_resolve c1 c2 _ Hc).
  destruct Hc as (Hep & _ & _ & Hch). by rewrite Hch, Hep.
Qed.

Lemma adrc_row_ext c1 c2 src_col name_col i row st :
  same_classes c1 c2 →
  adrc_row c1 src_col name_col i row st = adrc_row c2 src_col name_col i row st.
Proof.
  intros Hc. unfold adrc_row.
  rewrite (same_classes_resolve c1 c2 _ Hc).
  destruct Hc as (Hep & _ & _ & Hch). by rewrite Hch, Hep.
Qed.

Lemma lfa1_row_ext c1 c2 src_col i row st :
  same_classes c1 c2 →
  lfa1_row c1 src_col i row st = lfa1_row c2 src_col i row st.
Proof.
  intros Hc. unfold lfa1_row.
  rewrite (same_classes_resolve c1 c2 _ Hc).
  destruct Hc as (Hep & _ & _ & Hch). by rewrite Hch, Hep.
Qed.

Lemma reconcile_row_ext c1 c2 s src_col code_col action_col code_map i row st :
  same_classes c1 c2 →
  reconcile_row c1 s src_col code_col action_col code_map i row st
  = reconcile_row c2 s src_col code_col action_col code_map i row st.
Proof.
  intros Hc. unfold reconcile_row.
  rewrite (same_classes_resolve c1 c2 _ Hc).
  destruct Hc as (Hep & _ & _ & Hch). by rewrite Hch, Hep.
Qed.

Lemma wyt3_row_ext c1 c2 src_col ekorg_col action_col ekorg_map parvw_col defpa_col
  i row st :
  same_classes c1 c2 →
  wyt3_row c1 src_col ekorg_col action_col ekorg_map parvw_col defpa_col i row st
  = wyt3_row c2 src_col ekorg_col action_col ekorg_map parvw_col defpa_col i row st.
Proof.
  intros Hc. unfold wyt3_row.
  rewrite (reconcile_row_ext c1 c2 _ _ _ _ _ _ _ _ Hc).
  destruct Hc as (Hep & _ & _ & _). by rewrite Hep.
Qed.

Lemma but000_general_ext c1 c2 df mc :
  same_classes c1 c2 → but000_general c1 df mc = but000_general c2 df mc.
Proof.
  intros Hc. unfold but000_general, but000_loop.
  destruct (find_column _ _) as [e|source_col]; [done|].
  rewrite (for_rows_ext _ _ (but000_row c1 source_col) (but000_row c2 source_col));
    [done|]. intros. by apply but000_row_ext.
Qed.

Lemma but000_update_ext c1 c2 source_col df mc :
  same_classes c1 c2 →
  but000_update c1 source_col df mc = but000_update c2 source_col df mc.
Proof.
  intros Hc. unfold but000_update, but000_loop.
  rewrite (for_rows_ext _ _ (but000_row c1 source_col) (but000_row c2 source_col));
    [done|]. intros. by apply but000_row_ext.
Qed.

Lemma adrc_address_ext c1 c2 df mc :
  same_classes c1 c2 → adrc_address c1 df mc = adrc_address c2 df mc.
Proof.
  intros Hc. unfold adrc_address.
  destruct (find_column _ "Source_ID") as [e|s]; [done|].
  destruct (find_column _ "Name1") as [e|n]; [done|].
  rewrite (for_rows_ext _ _ (adrc_row c1 s n) (adrc_row c2 s n)); [done|].
  intros. by apply adrc_row_ext.
Qed.

Lemma lfa1_supplier_general_ext c1 c2 df mc :
  same_classes c1 c2 →
  lfa1_supplier_general c1 df mc = lfa1_supplier_general c2 df mc.
Proof.
  intros Hc. unfold lfa1_supplier_general.
  destruct (find_column _ "Source_ID") as [e|s]; [done|].
  rewrite (for_rows_ext _ _ (lfa1_row c1 s) (lfa1_row c2 s)); [done|].
  intros. by apply lfa1_row_ext.
Qed.

Lemma reconcile_loop_ext c1 c2 s src_col code_col df mc :
  same_classes c1 c2 →
  reconcile_loop c1 s src_col code_col df mc
  = reconcile_loop c2 s src_col code_col df mc.
Proof.
  intros Hc. unfold reconcile_loop. apply for_rows_ext.
  intros. by apply reconcile_row_ext.
Qed.

Lemma lfb1_company_code_ext c1 c2 df mc :
  same_classes c1 c2 → lfb1_company_code c1 df mc = lfb1_company_code c2 df mc.
Proof.
  intros Hc. unfold lfb1_company_code.
  destruct (find_column _ "Source_ID") as [e|s]; [done|].
  destruct (find_column _ "BUKRS") as [e|b]; [done|].
  by rewrite (reconcile_loop_ext c1 c2).
Qed.

Lemma lfm1_purchasing_org_ext c1 c2 df mc :
  same_classes c1 c2 → lfm1_purchasing_org c1 df mc = lfm1_purchasing_org c2 df mc.
Proof.
  intros Hc. unfold lfm1_purchasing_org.
  destruct (try_find_columns _) as [e|[s k]]; [done|].
  destruct (both_truthy s k); [|done].
  by rewrite (reconcile_loop_ext c1 c2).
Qed.

Lemma wyt3_partner_function_ext c1 c2 df mc :
  same_classes c1 c2 →
  wyt3_partner_function c1 df mc = wyt3_partner_function c2 df mc.
Proof.
  intros Hc. unfold wyt3_partner_function, wyt3_loop.
  destruct (try_find_columns _) as [e|[s k]]; [done|].
  destruct (both_truthy s k); [|done].
  match goal with
  | |- context [for_rows ?d (wyt3_row c1 ?a ?b ?c ?m ?p ?q) mc] =>
      rewrite (for_rows_ext d mc (wyt3_row c1 a b c m p q) (wyt3_row c2 a b c m p q))
  end; [done|]. intros. by apply wyt3_row_ext.
Qed.

(** A step on a sheet other than the role table, in two runs that differ
    in the role table only. *)
Lemma related_on_required {A} (name : string)
  (f1 f2 : DataFrame → Ledger → DataFrame * Ledger * (Exn + A)) df1 df2 R1 R2 :
  name ≠ BUT100 →
  (∀ df mc, f1 df mc = f2 df mc) →
  differ_in_roles df1 df2 R1 R2 →
  related df1 df2 (on_required name f1 R1) (on_required name f2 R2).
Proof.
  intros Hne Hf (H1 & H2 & Hmc & Hw & Hs). unfold related, on_required.
  rewrite <- (Hs name Hne), <- Hmc.
  destruct (get (sheets R1) name) as [df|]; simpl.
  - rewrite Hf, Hw. split; [|done]. split_and!; simpl; [| |done..|].
    + by rewrite get_set_ne.
    + by rewrite get_set_ne.
    + intros n Hn. rewrite !get_set. case_decide; [done|]. by apply Hs.
  - split; [|done]. split_and!; done.
Qed.

Lemma related_on_optional (name : string)
  (f1 f2 : DataFrame → Ledger → DataFrame * Ledger * list Exn) df1 df2 R1 R2 :
  name ≠ BUT100 →
  (∀ df mc, f1 df mc = f2 df mc) →
  differ_in_roles df1 df2 R1 R2 →
  related df1 df2 (on_optional name f1 R1) (on_optional name f2 R2).
Proof.
  intros Hne Hf (H1 & H2 & Hmc & Hw & Hs). unfold related, on_optional.
  rewrite <- (Hs name Hne), <- Hmc.
  destruct (get (sheets R1) name) as [df|]; simpl.
  - rewrite Hf, Hw. split; [|done]. split_and!; simpl; [| |done..|].
    + by rewrite get_set_ne.
    + by rewrite get_set_ne.
    + intros n Hn. rewrite !get_set. case_decide; [done|]. by apply Hs.
  - split; [|done]. split_and!; done.
Qed.

Lemma related_bind {A B} (m1 m2 : M A) (k1 k2 : A → M B) df1 df2 R1 R2 :
  related df1 df2 (m1 R1) (m2 R2) →
  (∀ a R1' R2', differ_in_roles df1 df2 R1' R2' →
                related df1 df2 (k1 a R1') (k2 a R2')) →
  related df1 df2 (bind m1 k1 R1) (bind m2 k2 R2).
Proof.
  unfold bind. destruct (m1 R1) as [R1' r1], (m2 R2) as [R2' r2].
  intros [Hd Hr] Hk. simpl in Hd, Hr. subst r2.
  destruct r1 as [e|a]; [done|]. by apply Hk.
Qed.

Lemma related_update_sheets c1 c2 df1 df2 R1 R2 :
  same_classes c1 c2 →
  differ_in_roles df1 df2 R1 R2 →
  related df1 df2 (update_sheets c1 R1) (update_sheets c2 R2).
Proof.
  intros Hc Hd. unfold update_sheets.
  apply related_bind.
  { apply related_on_required; [names_ne | | done].
    intros. by apply adrc_address_ext. }
  intros _ R1a R2a Ha. apply related_bind.
  { apply related_on_required; [names_ne | | done].
    intros. by apply lfa1_supplier_general_ext. }
  intros _ R1b R2b Hb. apply related_bind.
  { apply related_on_required; [names_ne | | done].
    intros. by apply lfb1_company_code_ext. }
  intros _ R1c R2c Hcc. apply related_bind.
  { apply related_on_optional; [names_ne | | done].
    intros. by apply lfm1_purchasing_org_ext. }
  intros _ R1d R2d Hdd.
  apply related_on_optional; [names_ne | | done].
  intros. by apply wyt3_partner_function_ext.
Qed.

Lemma related_check_required df1 df2 R1 R2 :
  differ_in_roles df1 df2 R1 R2 →
  related df1 df2 (check_required required_sheets R1)
                  (check_required required_sheets R2).
Proof.
  intros Hd. rewrite !check_required_first_missing.
  assert (Hm : ∀ s, mem (sheets R1) s = mem (sheets R2) s).
  { intros s. unfold mem. destruct Hd as (H1 & H2 & _ & _ & Hs).
    destruct (decide (s = BUT100)) as [->|Hne]; [by rewrite H1, H2|].
    by rewrite (Hs s Hne). }
  assert (Hf : first_missing (sheets R1) required_sheets
               = first_missing (sheets R2) required_sheets).
  { unfold first_missing. f_equal. apply list_filter_iff.
    intros s. by rewrite Hm. }
  rewrite Hf. clear Hf. destruct (first_missing (sheets R2) _); split; simpl; done.
Qed.

(** The role table's own step: both runs return (their counts differ) and
    still differ in the role table only. *)
Lemma but100_step df1 df2 col1 col2 R1 R2 :
  find_column (clean_headers df1) "Source_ID" = inr col1 →
  find_column (clean_headers df2) "Source_ID" = inr col2 →
  differ_in_roles df1 df2 R1 R2 →
  ∃ R1' R2',
    on_required BUT100 but100_role R1
    = (R1', inr (value_counts (clean_headers df1) col1)) ∧
    on_required BUT100 but100_role R2
    = (R2', inr (value_counts (clean_headers df2) col2)) ∧
    differ_in_roles (clean_headers df1) (clean_headers df2) R1' R2'.
Proof.
  intros Hc1 Hc2 (H1 & H2 & Hmc & Hw & Hs).
  unfold on_required, but100_role. rewrite H1, H2, Hc1, Hc2. simpl.
  eexists _, _. split_and!; [done..|].
  split_and!; simpl; [apply get_set_eq | apply get_set_eq | done..|].
  intros n Hn. rewrite !get_set_ne by done. by apply Hs.
Qed.

Lemma related_agree {A} df1 df2 (x y : Run * (Exn + A)) :
  related df1 df2 x y → agree x y.
Proof. intros [(_ & _ & ? & ? & ?) ?]. done. Qed.

Lemma agree_bind {A B} (m1 m2 : M A) (k1 k2 : A → M B) df1 df2 R1 R2 :
  related df1 df2 (m1 R1) (m2 R2) →
  (∀ a R1' R2', differ_in_roles df1 df2 R1' R2' → agree (k1 a R1') (k2 a R2')) →
  agree (bind m1 k1 R1) (bind m2 k2 R2).
Proof.
  unfold bind. destruct (m1 R1) as [R1' r1], (m2 R2) as [R2' r2].
  intros [Hd Hr] Hk. simpl in Hd, Hr. subst r2.
  destruct r1 as [e|a]; [|by apply Hk].
  apply (related_agree df1 df2). by split.
Qed.

Lemma same_classes_roles ep src_info id_map ref cnt1 cnt2 :
  same_classes (mkCtx ep (assign_roles cnt1 src_info) id_map ref)
               (mkCtx ep (assign_roles cnt2 src_info) id_map ref).
Proof.
  split_and!; [done..|]. intros sid. by rewrite !is_child_assign_roles.
Qed.

End role_facts.

(** C9: two workbooks that differ in the role table only, each with a
    Source_ID column in it.  Both entry points end with the same result,
    the same ledger, the same warnings and the same frame under every
    sheet name other than the role table's: what the role annotator
    computes reaches no rule. *)
Theorem role_table_gates_nothing
  (workbook1 workbook2 : dict DataFrame) (pairs : list (string * string))
  (roles1 roles2 : DataFrame) (col1 col2 : string) :
  (∀ n, n ≠ BUT100 → get workbook1 n = get workbook2 n) →
  get workbook1 BUT100 = Some roles1 →
  get workbook2 BUT100 = Some roles2 →
  find_column (clean_headers roles1) "Source_ID" = inr col1 →
  find_column (clean_headers roles2) "Source_ID" = inr col2 →
  agree (CommonSupplierPy.process_excel workbook1 pairs)
        (CommonSupplierPy.process_excel workbook2 pairs) ∧
  agree (MainPy.process_excel workbook1) (MainPy.process_excel workbook2).
Proof.
  intros Hs H1 H2 Hc1 Hc2.
  assert (D0 : differ_in_roles roles1 roles2 (start workbook1) (start workbook2)).
  { split_and!; done. }
  split.
  - unfold CommonSupplierPy.process_excel, CommonSupplierPy.process_excel_steps.
    eapply agree_bind; [by apply related_check_required|].
    intros _ R1 R2 D1. cbv zeta.
    destruct (but100_step roles1 roles2 col1 col2 R1 R2 Hc1 Hc2 D1)
      as (R1' & R2' & E1 & E2 & D2).
    unfold bind at 1 3. rewrite E1, E2.
    apply (related_agree (clean_headers roles1) (clean_headers roles2)).
    apply related_bind.
    + apply related_on_required; [names_ne | | done].
      intros. apply but000_general_ext, same_classes_roles.
    + intros _ R1a R2a Da. apply related_update_sheets; [|done].
      apply same_classes_roles.
  - unfold MainPy.process_excel, MainPy.process_excel_steps.
    eapply agree_bind; [by apply related_check_required|].
    intros _ R1 R2 D1.
    eapply agree_bind.
    { apply related_on_required; [names_ne | | exact D1]. done. }
    intros ident R1a R2a Da.
    destruct (but100_step roles1 roles2 col1 col2 R1a R2a Hc1 Hc2 Da)
      as (R1' & R2' & E1 & E2 & D2).
    unfold bind at 1 3. rewrite E1, E2. cbv zeta.
    rewrite !reference_parent_assign_roles.
    apply (related_agree (clean_headers roles1) (clean_headers roles2)).
    apply related_bind.
    + apply related_on_required; [names_ne | | done].
      intros. apply but000_update_ext, same_classes_roles.
    + intros _ R1b R2b Db. apply related_update_sheets; [|done].
      apply same_classes_roles.
Qed.

(** The sample workbook with two role tables: the child has one role in
    the first (NPO) and two in the second (PO). *)
Lemma role_table_gates_nothing_witness :
  let workbook1 := Samples.workbook in
  let workbook2 := set Samples.workbook BUT100 Samples.but100' in
  let src_info := (build_mapping Samples.pairs).2 in
  (∀ n, n ≠ BUT100 → get workbook1 n = get workbook2 n) ∧
  get workbook1 BUT100 = Some Samples.but100 ∧
  get workbook2 BUT100 = Some Samples.but100' ∧
  find_column (clean_headers Samples.but100) "Source_ID" = inr "Source_ID" ∧
  find_column (clean_headers Samples.but100') "Source_ID" = inr "Source_ID" ∧
  role <$> get (assign_roles (value_counts (clean_headers Samples.but100) "Source_ID")
                             src_info) Samples.child = Some (Some NPO) ∧
  role <$> get (assign_roles (value_counts (clean_headers Samples.but100') "Source_ID")
                             src_info) Samples.child = Some (Some PO) ∧
  agree (CommonSupplierPy.process_excel workbook1 Samples.pairs)
        (CommonSupplierPy.process_excel workbook2 Samples.pairs) ∧
  agree (MainPy.process_excel workbook1) (MainPy.process_excel workbook2).
Proof.
  intros workbook1 workbook2 src_info.
  assert (H0 : ∀ n, n ≠ BUT100 → get workbook1 n = get workbook2 n).
  { intros n Hn. unfold workbook2. symmetry. by apply get_set_ne. }
  assert (H1 : get workbook1 BUT100 = Some Samples.but100) by reflexivity.
  assert (H2 : get workbook2 BUT100 = Some Samples.but100') by reflexivity.
  assert (H3 : find_column (clean_headers Samples.but100) "Source_ID"
               = inr "Source_ID") by reflexivity.
  assert (H4 : find_column (clean_headers Samples.but100') "Source_ID"
               = inr "Source_ID") by reflexivity.
  split_and!; [exact H0 | exact H1 | exact H2 | exact H3 | exact H4
              | reflexivity | reflexivity | |];
    apply (role_table_gates_nothing workbook1 workbook2 Samples.pairs
             Samples.but100 Samples.but100' "Source_ID" "Source_ID" H0 H1 H2 H3 H4).
Defined.

(* ================================================================== *)
(** * The reconciliation rule as the code has it *)
(* ================================================================== *)

Lemma qualifies_spec ctx df src_col code_col idx :
  src_col ∈ columns df → code_col ∈ columns df →
  let df1 := ensure_column df "_ACTION_CODE" in
  let sid := row_sid df src_col idx in
  qualifies ctx (group_sets df1 src_col code_col) df1 src_col code_col idx = true
  ↔ is_child ctx sid = true ∧ row_code df code_col idx ≠ "" ∧
    ¬ known_to_parent df src_col code_col (resolve_parent ctx sid) idx.
Proof.
  intros Hs Hc df1 sid. unfold qualifies, row_sid, row_code, known_to_parent.
  assert (Hsrc : ∀ i, df_at df1 i src_col = df_at df i src_col)
    by (intros; by apply df_at_ensure_column_old).
  assert (Hcode : ∀ i, df_at df1 i code_col = df_at df i code_col)
    by (intros; by apply df_at_ensure_column_old).
  rewrite Hsrc, Hcode. fold sid.
  rewrite !andb_true_iff, !bool_decide_eq_true.
  rewrite group_sets_spec. unfold df1 at 1. rewrite nrows_ensure_column.
  unfold row_code.
  split.
  - intros (H1 & H2 & H3). split_and!; [done..|].
    intros (i & t & Hi & Ha & Hb & Hx). apply H3. exists i, t.
    rewrite Hsrc, Hcode. done.
  - intros (H1 & H2 & H3). split_and!; [done..|].
    intros (i & t & Hi & Ha & Hb & Hx). apply H3. exists i, t.
    rewrite Hsrc, Hcode in *. done.
Qed.

(** The loop of LFB1 and LFM1 on one row.  The row's code is the trimmed
    text of [str] of its cell, so an empty cell (NaN) counts as the code
    "nan".  When the identifier is a child, the code is not the empty text
    and no row whose raw identifier cell is the parent carries the code,
    "_ACTION_CODE" becomes "I" and the identifier cell becomes the parent
    (each as [written]); otherwise the row is as [ensure_column] left it
    and the ledger gains no cell of the row. *)
Theorem reconciliation_rule
  (ctx : Ctx) (sheet_name src_col code_col : string) (df : DataFrame)
  (mc : Ledger) (idx : nat) :
  src_col ∈ columns df → code_col ∈ columns df → src_col ≠ "_ACTION_CODE" →
  idx < nrows df →
  let out := reconcile_loop ctx sheet_name src_col code_col df mc in
  let sid := row_sid df src_col idx in
  let parent_id := resolve_parent ctx sid in
  (is_child ctx sid = true → row_code df code_col idx ≠ "" →
   ¬ known_to_parent df src_col code_col parent_id idx →
   df_at out.1 idx "_ACTION_CODE" = written (ensured df "_ACTION_CODE" idx) "I" ∧
   df_at out.1 idx src_col = written (df_at df idx src_col) parent_id) ∧
  (is_child ctx sid = false ∨ row_code df code_col idx = ""
   ∨ known_to_parent df src_col code_col parent_id idx →
   (∀ col, df_at out.1 idx col = df_at (ensure_column df "_ACTION_CODE") idx col) ∧
   (∀ col, (sheet_name, idx, col) ∈ out.2 ↔ (sheet_name, idx, col) ∈ mc)).
Proof.
  intros Hs Hc Hne Hidx out sid parent_id.
  pose proof (reconcile_loop_row ctx sheet_name src_col code_col df mc idx
                Hs Hne Hidx) as Hrow.
  cbv zeta in Hrow.
  pose proof (qualifies_spec ctx df src_col code_col idx Hs Hc) as Hq.
  cbv zeta in Hq. fold sid in Hq. fold parent_id in Hq.
  destruct (qualifies _ _ _ _ _ _) eqn:Hqual.
  - destruct Hrow as (Ha & Hb & _). split.
    + intros _ _ _. fold out in Ha, Hb. rewrite Ha, Hb.
      rewrite df_at_ensure_column.
      assert (Hrs : row_sid (ensure_column df "_ACTION_CODE") src_col idx = sid).
      { unfold row_sid, sid. by rewrite df_at_ensure_column_old. }
      rewrite Hrs. by rewrite df_at_ensure_column_old.
    + intros Hno. exfalso.
      destruct (proj1 Hq eq_refl) as (H1 & H2 & H3).
      destruct Hno as [Hno|[Hno|Hno]]; [congruence|done..].
  - split; [|intros _; exact Hrow].
    intros H1 H2 H3. exfalso.
    assert (Ht : false = true) by (apply Hq; done). discriminate.
Qed.

Lemma reconciliation_rule_witness :
  "Source_ID" ∈ columns Samples.lfb1 ∧ "BUKRS" ∈ columns Samples.lfb1 ∧
  "Source_ID" ≠ "_ACTION_CODE" ∧ 1 < nrows Samples.lfb1 ∧
  known_to_parent Samples.lfb1 "Source_ID" "BUKRS" Samples.parent 2 ∧
  to_rows (reconcile_loop Samples.ctx LFB1 "Source_ID" "BUKRS" Samples.lfb1 ∅).1
  = [[Str Samples.parent; Str "1000"; Str ""];
     [Str Samples.parent; Str "2000"; Str "I"];
     [Str Samples.child; Str "1000"; Str ""]] ∧
  df_at (reconcile_loop Samples.ctx LFB1 "Source_ID" "BUKRS" Samples.lfb1 ∅).1 1
        "_ACTION_CODE" = Str "I" ∧
  (∀ col, (LFB1, 2, col)
          ∈ (reconcile_loop Samples.ctx LFB1 "Source_ID" "BUKRS" Samples.lfb1 ∅).2
          ↔ (LFB1, 2, col) ∈ (∅ : Ledger)).
Proof.
  assert (H1 : "Source_ID" ∈ columns Samples.lfb1) by decide_now.
  assert (H2 : "BUKRS" ∈ columns Samples.lfb1) by decide_now.
  assert (H3 : "Source_ID" ≠ "_ACTION_CODE") by discriminate.
  assert (H4 : 1 < nrows Samples.lfb1) by (simpl; lia).
  assert (H5 : 2 < nrows Samples.lfb1) by (simpl; lia).
  assert (Hk : known_to_parent Samples.lfb1 "Source_ID" "BUKRS" Samples.parent 2).
  { exists 0, "1000". split_and!; [simpl; lia | reflexivity..]. }
  destruct (reconciliation_rule Samples.ctx LFB1 "Source_ID" "BUKRS" Samples.lfb1 ∅ 1
              H1 H2 H3 H4) as [Hins _].
  destruct (reconciliation_rule Samples.ctx LFB1 "Source_ID" "BUKRS" Samples.lfb1 ∅ 2
              H1 H2 H3 H5) as [_ Hkeep].
  split_and!; [exact H1 | exact H2 | exact H3 | exact H4 | exact Hk
              | vm_compute; reflexivity | | ].
  - destruct Hins as [Ha _]; [reflexivity | discriminate | | rewrite Ha; reflexivity].
    intros (i & t & Hi & Hsrc & Hcode & Hx).
    destruct i as [|[|[|i]]]; simpl in Hi; try lia; vm_compute in Hsrc, Hcode, Hx;
      try discriminate; injection Hcode as <-; discriminate.
  - apply Hkeep. right. right. exact Hk.
Defined.

(* ================================================================== *)
(** * The helper functions *)
(* ================================================================== *)

Section string_facts.
Implicit Types (s : string) (c : ascii).

Lemma lstrip_lstrip s : PyStr.lstrip (PyStr.lstrip s) = PyStr.lstrip s.
Proof.
  induction s as [|c s IH]; [done|]. cbn [PyStr.lstrip].
  destruct (PyStr.isspace c) eqn:Hc; [done|]. cbn [PyStr.lstrip]. by rewrite Hc.
Qed.

Lemma rstrip_rstrip s : PyStr.rstrip (PyStr.rstrip s) = PyStr.rstrip s.
Proof.
  induction s as [|c s IH]; [done|]. cbn [PyStr.rstrip].
  destruct (PyStr.rstrip s) as [|c' r] eqn:Hr.
  - destruct (PyStr.isspace c) eqn:Hc; [done|]. cbn [PyStr.rstrip]. by rewrite Hc.
  - cbn [PyStr.rstrip] in *. by rewrite IH.
Qed.

Lemma lstrip_rstrip s :
  PyStr.lstrip (PyStr.rstrip s) = PyStr.rstrip (PyStr.lstrip s).
Proof.
  induction s as [|c s IH]; [done|]. cbn [PyStr.lstrip PyStr.rstrip].
  destruct (PyStr.isspace c) eqn:Hc.
  - rewrite <- IH. destruct (PyStr.rstrip s) as [|c' r]; [done|].
    cbn [PyStr.lstrip]. by rewrite Hc.
  - cbn [PyStr.rstrip].
    destruct (PyStr.rstrip s) as [|c' r]; rewrite ?Hc; cbn [PyStr.lstrip];
      by rewrite ?Hc.
Qed.

(** [strip] of a stripped text changes nothing. *)
Lemma strip_strip s : PyStr.strip (PyStr.strip s) = PyStr.strip s.
Proof.
  unfold PyStr.strip.
  by rewrite lstrip_rstrip, lstrip_lstrip, rstrip_rstrip.
Qed.

Lemma lstrip_map_chars (f : ascii → ascii) s :
  (∀ c, PyStr.isspace (f c) = PyStr.isspace c) →
  PyStr.lstrip (PyStr.map_chars f s) = PyStr.map_chars f (PyStr.lstrip s).
Proof.
  intros Hf. induction s as [|c s IH]; [done|].
  cbn [PyStr.lstrip PyStr.map_chars]. rewrite Hf.
  by destruct (PyStr.isspace c).
Qed.

Lemma rstrip_map_chars (f : ascii → ascii) s :
  (∀ c, PyStr.isspace (f c) = PyStr.isspace c) →
  PyStr.rstrip (PyStr.map_chars f s) = PyStr.map_chars f (PyStr.rstrip s).
Proof.
  intros Hf. induction s as [|c s IH]; [done|].
  cbn [PyStr.rstrip PyStr.map_chars]. rewrite IH, Hf.
  destruct (PyStr.rstrip s) as [|c' r]; [|done].
  cbn [PyStr.map_chars]. by destruct (PyStr.isspace c).
Qed.

Lemma replace_nbsp_isspace c :
  PyStr.isspace (if Ascii.eqb c PyStr.nbsp then " "%char else c) = PyStr.isspace c.
Proof.
  destruct (Ascii.eqb c PyStr.nbsp) eqn:Hc; [|done].
  apply Ascii.eqb_eq in Hc. by subst c.
Qed.

(** NBSP is white space, so replacing it and stripping commute. *)
Lemma strip_replace_nbsp s :
  PyStr.strip (PyStr.replace_nbsp s) = PyStr.replace_nbsp (PyStr.strip s).
Proof.
  unfold PyStr.strip, PyStr.replace_nbsp.
  rewrite lstrip_map_chars, rstrip_map_chars; [done|..];
    apply replace_nbsp_isspace.
Qed.

Lemma replace_nbsp_replace_nbsp s :
  PyStr.replace_nbsp (PyStr.replace_nbsp s) = PyStr.replace_nbsp s.
Proof.
  unfold PyStr.replace_nbsp. induction s as [|c s IH]; [done|].
  cbn [PyStr.map_chars]. rewrite IH. f_equal.
  destruct (Ascii.eqb c PyStr.nbsp) eqn:Hc; [done|]. by rewrite Hc.
Qed.

Lemma clean_label_clean_label s : clean_label (clean_label s) = clean_label s.
Proof.
  unfold clean_label.
  by rewrite strip_replace_nbsp, strip_strip, replace_nbsp_replace_nbsp.
Qed.

Lemma strip_clean_label s : PyStr.strip (clean_label s) = clean_label s.
Proof. unfold clean_label. by rewrite strip_replace_nbsp, strip_strip. Qed.

End string_facts.

(** [clean_headers] touches labels only, and a second call changes
    nothing: the frame keeps its length and every cell in place, every
    label comes out stripped (so stripping it again, as the column-hiding
    pass does, gives the label back), and cleaning the result again returns
    it as it is. *)
Theorem clean_headers_idempotent (df : DataFrame) :
  clean_headers (clean_headers df) = clean_headers df ∧
  nrows (clean_headers df) = nrows df ∧
  to_rows (clean_headers df) = to_rows df ∧
  columns (clean_headers df) = clean_label <$> columns df ∧
  (∀ col, col ∈ columns (clean_headers df) →
          PyStr.strip col = col ∧ PyStr.replace_nbsp col = col).
Proof.
  assert (Hcols : columns (clean_headers df) = clean_label <$> columns df).
  { unfold columns, clean_headers. simpl. rewrite <- !list_fmap_compose.
    by apply list_fmap_ext. }
  split_and!.
  - unfold clean_headers. simpl. f_equal. rewrite <- list_fmap_compose.
    apply list_fmap_ext. intros i [c f] _. simpl. f_equal.
    apply clean_label_clean_label.
  - done.
  - unfold to_rows, clean_headers. simpl. apply list_fmap_ext. intros i r _.
    rewrite <- list_fmap_compose. by apply list_fmap_ext.
  - exact Hcols.
  - intros col Hcol. rewrite Hcols in Hcol.
    apply list_elem_of_fmap in Hcol as (c & -> & _). split.
    + apply strip_clean_label.
    + apply replace_nbsp_replace_nbsp.
Qed.

Section find_column_facts.
Implicit Types (cs : list string) (t col : string).

Lemma find_label_Some cs t col :
  find_label cs t = Some col ↔
  ∃ pre post, cs = pre ++ col :: post ∧ fold_name col = fold_name t ∧
              Forall (λ c, fold_name c ≠ fold_name t) pre.
Proof.
  induction cs as [|c cs IH]; simpl.
  - split; [done|]. intros (pre & post & Hcs & _). by destruct pre.
  - destruct (decide (fold_name c = fold_name t)) as [Hc|Hc].
    + split.
      * intros [= <-]. exists [], cs. by split_and!.
      * intros (pre & post & Hcs & Hf & Hpre). destruct pre as [|c0 pre].
        -- by injection Hcs as -> _.
        -- injection Hcs as -> _. apply Forall_cons in Hpre as [? _]. done.
    + rewrite IH. split.
      * intros (pre & post & -> & Hf & Hpre). exists (c :: pre), post.
        split_and!; [done..|]. by constructor.
      * intros (pre & post & Hcs & Hf & Hpre). destruct pre as [|c0 pre].
        -- injection Hcs as -> _. done.
        -- injection Hcs as -> ->. apply Forall_cons in Hpre as [_ ?].
           by exists pre, post.
Qed.

Lemma find_label_None cs t :
  find_label cs t = None ↔ Forall (λ c, fold_name c ≠ fold_name t) cs.
Proof.
  induction cs as [|c cs IH]; simpl; [by split|].
  destruct (decide (fold_name c = fold_name t)) as [Hc|Hc].
  - split; [done|]. intros [? _]%Forall_cons. done.
  - rewrite IH. split; [by constructor | by intros [_ ?]%Forall_cons].
Qed.

Lemma find_label_fold_target cs t t' :
  fold_name t' = fold_name t → find_label cs t' = find_label cs t.
Proof.
  intros Ht. induction cs as [|c cs IH]; simpl; [done|]. by rewrite Ht, IH.
Qed.

End find_column_facts.

(** [find_column] returns the first label, in column order, that equals
    the target once both are lowercased and their spaces removed; it raises
    the [KeyError] naming the target exactly when no label does; and two
    targets that fold to the same text find the same label. *)
Theorem find_column_first_match (df : DataFrame) (target_name : string) :
  match find_column df target_name with
  | inr col =>
      ∃ pre post,
        columns df = pre ++ col :: post ∧
        fold_name col = fold_name target_name ∧
        Forall (λ c, fold_name c ≠ fold_name target_name) pre
  | inl e =>
      e = KeyError_column target_name ∧
      Forall (λ c, fold_name c ≠ fold_name target_name) (columns df)
  end ∧
  (∀ t, fold_name t = fold_name target_name →
        match find_column df t, find_column df target_name with
        | inr c1, inr c2 => c1 = c2
        | inl _, inl _ => True
        | _, _ => False
        end).
Proof.
  unfold find_column. split.
  - destruct (find_label (columns df) target_name) as [col|] eqn:Hf.
    + by apply find_label_Some.
    + split; [done|]. by apply find_label_None.
  - intros t Ht. rewrite (find_label_fold_target _ _ _ Ht).
    by destruct (find_label (columns df) target_name).
Qed.

(** Headers that differ from the target in case and spaces only. *)
Example find_column_folds :
  let df := frame [" name"; "source id "; "SOURCE_ID"; "Bukrs"] [] in
  find_column (clean_headers df) "Source_ID" = inr "SOURCE_ID" ∧
  find_column (clean_headers df) "S o u r c e I D" = inr "source id" ∧
  find_column (clean_headers df) "BUKRS" = inr "Bukrs" ∧
  find_column (clean_headers df) "EKORG" = inl (KeyError_column "EKORG").
Proof. vm_compute. split_and!; reflexivity. Qed.

(** After [update_cell] the cell holds the new value up to surrounding
    white space (when the label exists), no other cell, no label and no
    row count has changed, the ledger has only grown, and the same call
    made again changes neither the frame nor the ledger. *)
Theorem update_cell_settles
  (ep : entry_point) (df : DataFrame) (idx : nat) (col new_val sheet_name : string)
  (mc : Ledger) :
  let r := update_cell ep df idx col new_val mc sheet_name in
  (col ∈ columns df →
   PyStr.strip (str (df_at r.1 idx col)) = PyStr.strip new_val) ∧
  (∀ j d, ¬ (j = idx ∧ d = col) → df_at r.1 j d = df_at df j d) ∧
  columns r.1 = columns df ∧ nrows r.1 = nrows df ∧
  mc ⊆ r.2 ∧
  update_cell ep r.1 idx col new_val r.2 sheet_name = (r.1, r.2).
Proof.
  intros r.
  assert (Hat : col ∈ columns df →
                PyStr.strip (str (df_at r.1 idx col)) = PyStr.strip new_val).
  { intros Hc. unfold r.
    pose proof (upd_at_same ep sheet_name idx col new_val (df, mc) Hc) as H.
    unfold upd in H. simpl in H. rewrite H. apply written_strip. }
  assert (Hcols : columns r.1 = columns df)
    by apply (upd_columns ep sheet_name idx col new_val (df, mc)).
  split_and!.
  - exact Hat.
  - intros j d Hne.
    by apply (upd_at_other ep sheet_name idx col new_val (df, mc)).
  - exact Hcols.
  - apply (upd_nrows ep sheet_name idx col new_val (df, mc)).
  - intros e He. apply (upd_ledger ep sheet_name idx col new_val (df, mc)).
    by left.
  - apply injective_projections.
    + rewrite update_cell_fst. rewrite decide_False; [done|].
      intros [Hc Hs]. rewrite Hcols in Hc. by apply Hs, Hat.
    + rewrite update_cell_snd. rewrite decide_False; [done|].
      intros [[Hc Hs] _]. rewrite Hcols in Hc. by apply Hs, Hat.
Qed.

(* ================================================================== *)
(** * The role annotator and the parent of a child *)
(* ================================================================== *)

Lemma value_counts_fold (l : list string) (d : dict nat) (v : string) :
  default 0 (get (fold_left (λ d x, set d x (S (default 0 (get d x)))) l d) v)
  = default 0 (get d v) + length (filter (λ x, x = v) l).
Proof.
  revert d. induction l as [|x l IH]; intros d.
  - rewrite filter_nil. simpl. lia.
  - cbn [fold_left]. rewrite IH, get_set, filter_cons.
    destruct (decide (x = v)) as [->|Hne]; simpl; lia.
Qed.

Lemma value_counts_get (df : DataFrame) (col v : string) :
  default 0 (get (value_counts df col) v) = occurrences df col v.
Proof. unfold value_counts, occurrences. by rewrite value_counts_fold. Qed.

(** The role annotator gives every registered identifier the role PO when
    at least two cells of the role column hold exactly its text, and NPO
    otherwise (NaN cells are not counted and nothing is trimmed, so an
    identifier written with a space around it in the role table counts for
    nothing); identifiers that are not registered get no role, and no
    classification changes. *)
Theorem role_counts_occurrences
  (but100 : DataFrame) (role_src_col : string) (src_info : dict Info) (sid : string) :
  let annotated := assign_roles (value_counts but100 role_src_col) src_info in
  role <$> get annotated sid
  = (λ _, Some (if decide (2 ≤ occurrences but100 role_src_col sid)%nat
                   then PO else NPO))
    <$> get src_info sid ∧
  type_of annotated sid = type_of src_info sid ∧
  keys annotated = keys src_info.
Proof.
  intros annotated. unfold annotated. split_and!.
  - rewrite get_assign_roles, value_counts_get.
    destruct (get src_info sid) as [info|]; [|done]. simpl. do 2 f_equal.
    destruct (decide (2 ≤ occurrences but100 role_src_col sid)%nat) as [H|H].
    + by rewrite (proj2 (Nat.ltb_lt _ _)) by lia.
    + by rewrite (proj2 (Nat.ltb_ge _ _)) by lia.
  - apply type_of_assign_roles.
  - unfold keys, assign_roles. rewrite <- list_fmap_compose.
    by apply list_fmap_ext.
Qed.

(** In the sample role table the parent has two roles and the child one;
    a padded identifier is not counted. *)
Example roles_of_the_samples :
  let counts := value_counts (clean_headers Samples.but100) "Source_ID" in
  let src_info := assign_roles counts (build_mapping Samples.pairs).2 in
  role <$> get src_info Samples.parent = Some (Some PO) ∧
  role <$> get src_info Samples.child = Some (Some NPO) ∧
  occurrences (frame ["Source_ID"] [[Str " 1003000001"]; [Str "1003000001 "]; [NaN]])
              "Source_ID" Samples.parent = 0.
Proof. vm_compute. split_and!; reflexivity. Qed.

(** In commonsupplier.py an identifier that the registry classifies as
    child is always a key of [id_map], and its value is the trimmed parent
    of the last pair naming it: the default ["0000000000"] of
    [id_map.get(sid, "0000000000")] is never what a child row receives. *)
Theorem child_always_has_a_parent
  (pairs : list (string * string)) (src_count : dict nat) (sid : string) :
  let ctx := mkCtx CommonSupplier (assign_roles src_count (build_mapping pairs).2)
                   (build_mapping pairs).1 "" in
  is_child ctx sid = true →
  ∃ p, last_parent pairs sid = Some p ∧
       p ∈ parents_of pairs ∧
       get (build_mapping pairs).1 sid = Some p ∧
       resolve_parent ctx sid = p.
Proof.
  intros ctx Hchild. unfold ctx in Hchild. rewrite is_child_assign_roles in Hchild.
  unfold is_child in Hchild. simpl in Hchild.
  destruct (get (build_mapping pairs).2 sid) as [info|] eqn:Hinfo; [|done].
  apply bool_decide_eq_true in Hchild.
  destruct (src_info_sound pairs sid info Hinfo) as [Hc _].
  apply Hc, id_map_keys in Hchild.
  destruct (get (build_mapping pairs).1 sid) as [p|] eqn:Hp.
  - exists p. rewrite <- id_map_get. split_and!; [done| |done|].
    + rewrite id_map_get in Hp. unfold last_parent in Hp.
      apply last_Some in Hp as (l & Hl).
      assert (Hin : p ∈ parents_of
                          (filter (λ pr : string * string, PyStr.strip pr.2 = sid)
                                  pairs))
        by (rewrite Hl; apply elem_of_app; right; left).
      unfold parents_of in *. apply list_elem_of_fmap in Hin as (pr & -> & Hpr).
      apply list_elem_of_filter in Hpr as [_ Hpr].
      apply list_elem_of_fmap. by exists pr.
    + unfold resolve_parent, ctx. simpl. by rewrite Hp.
  - apply get_None_keys in Hp. done.
Qed.

Lemma child_always_has_a_parent_witness :
  let ctx := mkCtx CommonSupplier
                   (assign_roles [] (build_mapping Samples.pairs).2)
                   (build_mapping Samples.pairs).1 "" in
  is_child ctx Samples.child = true ∧
  ∃ p, last_parent Samples.pairs Samples.child = Some p ∧
       p ∈ parents_of Samples.pairs ∧
       get (build_mapping Samples.pairs).1 Samples.child = Some p ∧
       resolve_parent ctx Samples.child = p.
Proof.
  intros ctx.
  assert (H : is_child ctx Samples.child = true) by reflexivity.
  split; [exact H|].
  exact (child_always_has_a_parent Samples.pairs [] Samples.child H).
Defined.

(* ================================================================== *)
(** * Row bodies as runs of writes *)
(* ================================================================== *)

Section writes_facts.
Implicit Types (ctx : Ctx) (st : DataFrame * Ledger) (idx : nat) (s : string)
  (ws : list (string * string)).

Lemma upd_absent ep s idx col v st : col ∉ columns st.1 → upd ep s idx col v st = st.
Proof.
  intros Hc. unfold upd, update_cell. rewrite decide_False by done. by destruct st.
Qed.

Lemma apply_writes_app ep s idx ws1 ws2 st :
  apply_writes ep s idx (ws1 ++ ws2) st
  = apply_writes ep s idx ws2 (apply_writes ep s idx ws1 st).
Proof. unfold apply_writes. by rewrite fold_left_app. Qed.

Lemma upd_each_writes ep s idx cs v st :
  upd_each ep s idx cs v st = apply_writes ep s idx (each cs v) st.
Proof.
  unfold upd_each, apply_writes, each. revert st.
  induction cs as [|c cs IH]; intros st; [done|]. cbn [fold_left fmap list_fmap].
  apply IH.
Qed.

Lemma upd_each_present_writes ep s idx cs v st :
  upd_each_present ep s idx cs v st = apply_writes ep s idx (each cs v) st.
Proof.
  unfold upd_each_present, apply_writes, each. revert st.
  induction cs as [|c cs IH]; intros st; [done|]. cbn [fold_left fmap list_fmap].
  rewrite IH. f_equal. case_decide; [done|]. symmetry. by apply upd_absent.
Qed.

Lemma but000_row_writes ctx source_col idx row st :
  but000_row ctx source_col idx row st
  = apply_writes (ep ctx) BUT000 idx
      (but000_writes ctx (PyStr.strip (str (row source_col)))) st.
Proof.
  unfold but000_row, but000_writes. destruct (is_child ctx _).
  - by rewrite !apply_writes_app, upd_each_writes, !upd_each_present_writes.
  - by destruct (ep ctx).
Qed.

Lemma adrc_row_writes ctx src_col name_col idx row st :
  adrc_row ctx src_col name_col idx row st
  = apply_writes (ep ctx) ADRC idx
      (adrc_writes ctx name_col (PyStr.strip (str (row src_col)))) st.
Proof. unfold adrc_row, adrc_writes. by destruct (is_child ctx _). Qed.

Lemma lfa1_row_writes ctx src_col idx row st :
  lfa1_row ctx src_col idx row st
  = apply_writes (ep ctx) LFA1 idx
      (lfa1_writes ctx (PyStr.strip (str (row src_col)))) st.
Proof.
  unfold lfa1_row, lfa1_writes. destruct (is_child ctx _); [|done].
  by rewrite !apply_writes_app, !upd_each_writes.
Qed.

Lemma reconcile_row_writes ctx s src_col code_col action_col code_map idx row st :
  reconcile_row ctx s src_col code_col action_col code_map idx row st
  = apply_writes (ep ctx) s idx
      (reconcile_writes ctx src_col code_col action_col code_map row) st.
Proof.
  unfold reconcile_row, reconcile_writes.
  destruct (is_child ctx _); [|done]. cbn [andb]. by destruct (_ && _).
Qed.

Lemma wyt3_row_writes ctx src_col ekorg_col action_col ekorg_map parvw_col defpa_col
  idx row st :
  wyt3_row ctx src_col ekorg_col action_col ekorg_map parvw_col defpa_col idx row st
  = apply_writes (ep ctx) WYT3 idx
      (wyt3_writes ctx src_col ekorg_col action_col ekorg_map parvw_col defpa_col row)
      st.
Proof.
  unfold wyt3_row, wyt3_writes. rewrite apply_writes_app, reconcile_row_writes.
  destruct parvw_col as [p|]; [|done]. by destruct (_ && _).
Qed.

Lemma row_local_apply_writes ep s idx ws : row_local s idx (apply_writes ep s idx ws).
Proof.
  unfold apply_writes. induction ws as [|w ws IH]; simpl.
  - apply row_local_id.
  - apply (row_local_comp s idx (upd ep s idx w.1 w.2)); [apply row_local_upd | apply IH].
Qed.

Lemma writes_agree df df' idx col v :
  columns df' = columns df → df_at df' idx col = df_at df idx col →
  writes df' idx col v ↔ writes df idx col v.
Proof. intros Hc Hd. unfold writes. by rewrite Hc, Hd. Qed.

Lemma records_agree ep df df' idx col v :
  columns df' = columns df → df_at df' idx col = df_at df idx col →
  records ep df' idx col v ↔ records ep df idx col v.
Proof.
  intros Hc Hd. unfold records. rewrite (writes_agree df df') by done.
  by rewrite Hd.
Qed.

(** A run of writes to distinct labels: each label named receives its
    value by the rule of [update_cell], read on the state the run started
    from; nothing else of the row moves. *)
Lemma apply_writes_spec ep s idx ws st :
  NoDup ws.*1 →
  (∀ d, df_at (apply_writes ep s idx ws st).1 idx d
        = match get ws d with
          | Some v => if decide (writes st.1 idx d v) then Str v else df_at st.1 idx d
          | None => df_at st.1 idx d
          end) ∧
  (∀ e, e ∈ (apply_writes ep s idx ws st).2 ↔
        e ∈ st.2
        ∨ ∃ d v, e = (s, idx, d) ∧ get ws d = Some v ∧ records ep st.1 idx d v).
Proof.
  revert st. induction ws as [|[c v] ws IH]; intros st Hnd.
  - split; [done|]. intros e. split; [by left|]. by intros [?|(d & v & _ & ? & _)].
  - rewrite fmap_cons in Hnd. apply NoDup_cons in Hnd as [Hc Hnd]. simpl in Hc.
    destruct (IH (upd ep s idx c v st) Hnd) as [IH1 IH2].
    assert (Hcols : columns (upd ep s idx c v st).1 = columns st.1)
      by apply upd_columns.
    assert (Hoth : ∀ d, d ≠ c →
              df_at (upd ep s idx c v st).1 idx d = df_at st.1 idx d).
    { intros d Hd. apply upd_at_other. intros [_ ?]. done. }
    split.
    + intros d. change (apply_writes ep s idx ((c, v) :: ws) st)
        with (apply_writes ep s idx ws (upd ep s idx c v st)).
      rewrite IH1. cbn [get]. destruct (decide (c = d)) as [<-|Hne].
      * rewrite (proj2 (get_None_keys ws c) Hc). rewrite upd_at.
        destruct (decide (writes st.1 idx c v)) as [Hw|Hw].
        -- by rewrite decide_True.
        -- rewrite decide_False; [done | intros [_ ?]; done].
      * destruct (get ws d) as [v'|]; [|by apply Hoth].
        rewrite Hoth by done.
        destruct (decide (writes st.1 idx d v')) as [Hw|Hw].
        -- rewrite decide_True; [done|].
           apply (writes_agree st.1 (upd ep s idx c v st).1); auto.
        -- rewrite decide_False; [done|]. intros Hw'. apply Hw.
           apply (writes_agree st.1 (upd ep s idx c v st).1) in Hw'; auto.
    + intros e. change (apply_writes ep s idx ((c, v) :: ws) st)
        with (apply_writes ep s idx ws (upd ep s idx c v st)).
      rewrite IH2, upd_ledger. cbn [get]. split.
      * intros [[?|[-> Hr]]|(d & v' & -> & Hg & Hr)].
        -- by left.
        -- right. exists c, v. by rewrite decide_True.
        -- right. exists d, v'. split; [done|].
           assert (Hdc : c ≠ d).
           { intros ->. apply get_Some_keys in Hg. done. }
           rewrite decide_False by done. split; [done|].
           apply (records_agree ep st.1 (upd ep s idx c v st).1) in Hr; auto.
      * intros [?|(d & v' & -> & Hg & Hr)]; [by left; left|].
        destruct (decide (c = d)) as [<-|Hne].
        -- injection Hg as <-. left. by right.
        -- right. exists d, v'. split_and!; [done..|].
           apply (records_agree ep st.1 (upd ep s idx c v st).1); auto.
Qed.

End writes_facts.

(** A loop whose iterations are runs of writes to distinct labels: every
    cell and every ledger entry is read off the plan of its row and the
    frame the loop started from. *)
Lemma for_rows_writes ep s (plan : Series → list (string * string)) df mc :
  (∀ row, NoDup (plan row).*1) →
  let out := for_rows df (λ idx row, apply_writes ep s idx (plan row)) mc in
  columns out.1 = columns df ∧
  nrows out.1 = nrows df ∧
  (∀ i d, df_at out.1 i d
          = if decide (i < nrows df) then
              match get (plan (df_at df i)) d with
              | Some v => if decide (writes df i d v) then Str v else df_at df i d
              | None => df_at df i d
              end
            else df_at df i d) ∧
  (∀ i d, (s, i, d) ∈ out.2 ↔
          (s, i, d) ∈ mc
          ∨ (i < nrows df ∧
             ∃ v, get (plan (df_at df i)) d = Some v ∧ records ep df i d v)) ∧
  (∀ e, e ∈ out.2 → e ∈ mc ∨ e.1.1 = s).
Proof.
  intros Hnd out.
  assert (Hloc : ∀ i row, row_local s i
            ((λ idx row, apply_writes ep s idx (plan row)) i row)).
  { intros i row. apply row_local_apply_writes. }
  destruct (for_rows_frame s _ df mc Hloc) as (Hc & Hn & _ & Hin).
  split_and!; [done|done|..].
  - intros i d. destruct (decide (i < nrows df)) as [Hi|Hi].
    + destruct (for_rows_row s _ df mc i Hloc Hi) as (st0 & A1 & A2 & _ & A4 & _).
      unfold out. rewrite A4.
      destruct (apply_writes_spec ep s i (plan (df_at df i)) st0 (Hnd _)) as [B1 _].
      rewrite B1. destruct (get _ d) as [v|]; [|apply A2].
      rewrite A2. destruct (decide (writes df i d v)) as [Hw|Hw].
      * rewrite decide_True; [done|]. by apply (writes_agree df st0.1).
      * rewrite decide_False; [done|]. intros Hw'. apply Hw.
        by apply (writes_agree df st0.1) in Hw'.
    + assert (Hni : i ∉ (iterrows df).*1).
      { rewrite iterrows_fst, elem_of_seq. lia. }
      destruct (fold_rows_other s _ (iterrows df) i (df, mc) Hloc Hni) as (_ & B & _).
      apply B.
  - intros i d. destruct (decide (i < nrows df)) as [Hi|Hi].
    + destruct (for_rows_row s _ df mc i Hloc Hi) as (st0 & A1 & A2 & A3 & _ & A5).
      unfold out. rewrite A5.
      destruct (apply_writes_spec ep s i (plan (df_at df i)) st0 (Hnd _)) as [_ B2].
      rewrite B2, A3. split.
      * intros [?|(d' & v & Heq & Hg & Hr)]; [by left|].
        injection Heq as <-. right. split; [done|]. exists v. split; [done|].
        by apply (records_agree ep df st0.1) in Hr.
      * intros [?|(_ & v & Hg & Hr)]; [by left|]. right. exists d, v.
        split_and!; [done..|]. by apply (records_agree ep df st0.1).
    + assert (Hni : i ∉ (iterrows df).*1).
      { rewrite iterrows_fst, elem_of_seq. lia. }
      destruct (fold_rows_other s _ (iterrows df) i (df, mc) Hloc Hni) as (_ & _ & B).
      unfold out, for_rows. rewrite B. simpl. split; [by left|].
      intros [?|[? _]]; [done|lia].
  - intros e He. destruct (Hin e He) as [?|(i & c & _ & ->)]; [by left|by right].
Qed.

Lemma ledger_exact_refl ep s df mc : ledger_exact ep s df mc (df, mc).
Proof.
  intros i c. split; [by left|]. cbn [fst snd]. intros Hc. unfold ensured.
  by rewrite decide_True.
Qed.

Lemma for_rows_writes_exact ep s (plan : Series → list (string * string))
  df0 df mc :
  (∀ row, NoDup (plan row).*1) →
  (∀ i c, c ∈ columns df → df_at df i c = ensured df0 c i) →
  ledger_exact ep s df0 mc
    (for_rows df (λ idx row, apply_writes ep s idx (plan row)) mc).
Proof.
  intros Hnd Hbase i c.
  destruct (for_rows_writes ep s plan df mc Hnd) as (Hc & Hn & Hat & Hled & _).
  cbv zeta in Hc, Hn, Hat, Hled. rewrite Hc, Hn. split.
  - rewrite Hled. intros [?|(Hi & v & Hg & Hr)]; [by left|]. right.
    split; [done|]. split; [apply Hr|].
    rewrite Hat, decide_True, Hg by done.
    rewrite decide_True by apply Hr. rewrite <- Hbase by apply Hr.
    apply not_eq_sym, Hr.
  - intros Hcol. rewrite <- (Hbase i c Hcol).
    rewrite Hat, Hled. destruct (decide (i < nrows df)) as [Hi|Hi]; [|done].
    destruct (get _ c) as [v|]; [|done].
    destruct (decide (writes df i c v)) as [Hw|Hw]; [|done]. intros _.
    destruct (decide (clears_absent ep (df_at df i c) v)) as [Hca|Hca].
    + right. destruct Hca as (? & ? & ->). done.
    + left. right. split; [done|]. exists v. done.
Qed.

Lemma ensured_same df i c : c ∈ columns df → df_at df i c = ensured df c i.
Proof. intros Hc. unfold ensured. by rewrite decide_True. Qed.

Lemma ensured_ensure_column df0 df a :
  columns df0 ⊆ columns df →
  (∀ i c, c ∈ columns df → df_at df i c = ensured df0 c i) →
  columns df0 ⊆ columns (ensure_column df a) ∧
  ∀ i c, c ∈ columns (ensure_column df a) →
         df_at (ensure_column df a) i c = ensured df0 c i.
Proof.
  intros Hsub Hbase. split.
  - intros c Hc. by apply ensure_column_mono, Hsub.
  - intros i c Hc. destruct (decide (c ∈ columns df)) as [Hin|Hout].
    + rewrite df_at_ensure_column_old by done. by apply Hbase.
    + assert (c = a) as ->.
      { rewrite columns_ensure_column in Hc. rewrite decide_False in Hc.
        - apply elem_of_app in Hc as [?|Hc]; [done|].
          by apply list_elem_of_singleton in Hc.
        - intros Ha. rewrite decide_True in Hc by done. done. }
      rewrite df_at_ensure_column. unfold ensured.
      rewrite decide_False by done. rewrite decide_False; [done|].
      intros Hc0. by apply Hout, Hsub.
Qed.

Section plan_facts.
Implicit Types (ctx : Ctx) (row : Series) (sid : string).

Lemma get_app {V} (d1 d2 : dict V) k :
  get (d1 ++ d2) k = match get d1 k with Some v => Some v | None => get d2 k end.
Proof.
  induction d1 as [|[k' v'] d1 IH]; [done|]. simpl. by case_decide.
Qed.

Lemma get_each cs v k :
  get (each cs v) k = if bool_decide (k ∈ cs) then Some v else None.
Proof.
  unfold each. induction cs as [|c cs IH]; [done|]. cbn [fmap list_fmap get].
  destruct (decide (c = k)) as [->|Hck].
  - rewrite bool_decide_eq_true_2; [done | apply elem_of_cons; by left].
  - rewrite IH. apply (f_equal (λ b : bool, if b then Some v else None)).
    apply bool_decide_ext. rewrite elem_of_cons. naive_solver.
Qed.

Lemma each_fst cs v : (each cs v).*1 = cs.
Proof. unfold each. rewrite <- list_fmap_compose. apply list_fmap_id. Qed.

Lemma but000_writes_NoDup ctx sid : NoDup (but000_writes ctx sid).*1.
Proof.
  unfold but000_writes. destruct (is_child ctx sid).
  - rewrite !fmap_app, !each_fst. decide_now.
  - destruct (ep ctx); decide_now.
Qed.

Lemma adrc_writes_NoDup ctx name_col sid : NoDup (adrc_writes ctx name_col sid).*1.
Proof.
  unfold adrc_writes. destruct (is_child ctx sid); simpl.
  - apply NoDup_singleton.
  - apply NoDup_nil_2.
Qed.

Lemma lfa1_writes_NoDup ctx sid : NoDup (lfa1_writes ctx sid).*1.
Proof.
  unfold lfa1_writes. destruct (is_child ctx sid).
  - rewrite !fmap_app, !each_fst. decide_now.
  - apply NoDup_nil_2.
Qed.

Lemma reconcile_writes_NoDup ctx src_col code_col action_col code_map row :
  src_col ≠ action_col →
  NoDup (reconcile_writes ctx src_col code_col action_col code_map row).*1.
Proof.
  intros Hne. unfold reconcile_writes. destruct (_ && _); simpl.
  - apply NoDup_cons. split; [|apply NoDup_singleton].
    intros Hin. by apply list_elem_of_singleton in Hin.
  - apply NoDup_nil_2.
Qed.

Lemma wyt3_writes_NoDup ctx src_col ekorg_col ekorg_map parvw_col row :
  src_col ≠ "_ACTION_CODE" → src_col ≠ "DEFPA" →
  NoDup (wyt3_writes ctx src_col ekorg_col "_ACTION_CODE" ekorg_map parvw_col
                     "DEFPA" row).*1.
Proof.
  intros H1 H2. unfold wyt3_writes, reconcile_writes.
  assert (Hthree : NoDup ["_ACTION_CODE"; src_col; "DEFPA"]).
  { repeat (apply NoDup_cons; split); [| |set_solver|apply NoDup_nil_2].
    - rewrite !elem_of_cons. intros [?|[?|?]]; [done|done|set_solver].
    - rewrite !elem_of_cons. intros [?|?]; [done|set_solver]. }
  assert (Htwo : NoDup ["_ACTION_CODE"; src_col]).
  { apply (NoDup_app ["_ACTION_CODE"; src_col] ["DEFPA"]) in Hthree. apply Hthree. }
  destruct (is_child ctx _ && _); destruct parvw_col as [p|];
    try destruct (bool_decide (p ≠ "") && _); simpl;
    done || apply NoDup_nil_2 || apply NoDup_singleton.
Qed.

Lemma but000_loop_writes ctx source_col but000 mc :
  but000_loop ctx source_col but000 mc
  = for_rows but000
      (λ idx row, apply_writes (ep ctx) BUT000 idx
         (but000_writes ctx (PyStr.strip (str (row source_col))))) mc.
Proof.
  unfold but000_loop. apply for_rows_ext. intros. apply but000_row_writes.
Qed.

Lemma adrc_loop_writes ctx src_col name_col adrc mc :
  for_rows adrc (adrc_row ctx src_col name_col) mc
  = for_rows adrc
      (λ idx row, apply_writes (ep ctx) ADRC idx
         (adrc_writes ctx name_col (PyStr.strip (str (row src_col))))) mc.
Proof. apply for_rows_ext. intros. apply adrc_row_writes. Qed.

Lemma lfa1_loop_writes ctx src_col lfa1 mc :
  for_rows lfa1 (lfa1_row ctx src_col) mc
  = for_rows lfa1
      (λ idx row, apply_writes (ep ctx) LFA1 idx
         (lfa1_writes ctx (PyStr.strip (str (row src_col))))) mc.
Proof. apply for_rows_ext. intros. apply lfa1_row_writes. Qed.

Lemma reconcile_loop_writes ctx s src_col code_col df mc :
  reconcile_loop ctx s src_col code_col df mc
  = for_rows (ensure_column df "_ACTION_CODE")
      (λ idx row, apply_writes (ep ctx) s idx
         (reconcile_writes ctx src_col code_col "_ACTION_CODE"
            (group_sets (ensure_column df "_ACTION_CODE") src_col code_col) row)) mc.
Proof.
  unfold reconcile_loop. apply for_rows_ext. intros. apply reconcile_row_writes.
Qed.

Lemma wyt3_loop_writes ctx src_col ekorg_col df mc :
  wyt3_loop ctx src_col ekorg_col df mc
  = for_rows (ensure_column (ensure_column df "_ACTION_CODE") "DEFPA")
      (λ idx row, apply_writes (ep ctx) WYT3 idx
         (wyt3_writes ctx src_col ekorg_col "_ACTION_CODE"
            (group_sets (ensure_column df "_ACTION_CODE") src_col ekorg_col)
            (find_parvw (columns (ensure_column df "_ACTION_CODE")))
            "DEFPA" row)) mc.
Proof.
  unfold wyt3_loop. apply for_rows_ext. intros. apply wyt3_row_writes.
Qed.

Lemma writes_written df i c v :
  c ∈ columns df →
  (if decide (writes df i c v) then Str v else df_at df i c)
  = written (df_at df i c) v.
Proof.
  intros Hc. unfold writes, written.
  destruct (decide (PyStr.strip _ ≠ _)) as [Hs|Hs].
  - by rewrite decide_True.
  - rewrite decide_False; [done | intros [_ ?]; done].
Qed.

End plan_facts.

(* ================================================================== *)
(** * Every cell of BUT000 and of LFA1 after its loop *)
(* ================================================================== *)

(** The loop of BUT000, cell by cell.  On the row of a child a label of
    [cols_clear] receives the empty string, a label of [cols_fill_x] an X,
    a label of [cols_name] the common name; on every other row
    commonsupplier.py puts an X under ZGSTS_CMT_REP_FLG and
    ZGSTS_ATL_REP_FLG, whatever the identifier of the row, and main.py
    writes nothing.  Each write follows [written]; every other cell is as
    the loop found it. *)
Theorem but000_cell_rules (ctx : Ctx) (source_col : string) (but000 : DataFrame)
  (mc : Ledger) (idx : nat) (col : string) :
  idx < nrows but000 →
  col ∈ columns but000 →
  let sid := row_sid but000 source_col idx in
  let old := df_at but000 idx col in
  df_at (but000_loop ctx source_col but000 mc).1 idx col
  = if is_child ctx sid then
      if bool_decide (col ∈ cols_clear) then written old ""
      else if bool_decide (col ∈ cols_fill_x) then written old "X"
      else if bool_decide (col ∈ cols_name)
           then written old (common_supplier (resolve_parent ctx sid))
      else old
    else
      match ep ctx with
      | CommonSupplier =>
          if bool_decide (col ∈ ["ZGSTS_CMT_REP_FLG"; "ZGSTS_ATL_REP_FLG"])
          then written old "X" else old
      | Main => old
      end.
Proof.
  intros Hidx Hcol sid old. rewrite but000_loop_writes.
  destruct (for_rows_writes (ep ctx) BUT000
              (λ row, but000_writes ctx (PyStr.strip (str (row source_col))))
              but000 mc) as (_ & _ & Hat & _).
  { intros row. apply but000_writes_NoDup. }
  cbv zeta in Hat. rewrite Hat, decide_True by done.
  fold (row_sid but000 source_col idx). fold sid. fold old.
  unfold but000_writes. destruct (is_child ctx sid).
  - rewrite !get_app, !get_each.
    destruct (bool_decide (col ∈ cols_clear)); [by apply writes_written|].
    destruct (bool_decide (col ∈ cols_fill_x)); [by apply writes_written|].
    destruct (bool_decide (col ∈ cols_name)); [by apply writes_written|done].
  - destruct (ep ctx); [|done].
    change [("ZGSTS_CMT_REP_FLG", "X"); ("ZGSTS_ATL_REP_FLG", "X")]
      with (each ["ZGSTS_CMT_REP_FLG"; "ZGSTS_ATL_REP_FLG"] "X").
    rewrite get_each. destruct (bool_decide _); [by apply writes_written|done].
Qed.

Lemma but000_cell_rules_witness :
  1 < nrows Samples.but000 ∧ "XDELE" ∈ columns Samples.but000 ∧
  df_at (but000_loop Samples.ctx "Source_ID" Samples.but000 ∅).1 1 "XDELE"
  = Str "X".
Proof.
  assert (H1 : 1 < nrows Samples.but000) by (vm_compute; lia).
  assert (H2 : "XDELE" ∈ columns Samples.but000) by decide_now.
  split_and!; [exact H1 | exact H2 |].
  rewrite (but000_cell_rules Samples.ctx "Source_ID" Samples.but000 ∅ 1 "XDELE" H1 H2).
  vm_compute. reflexivity.
Defined.

(** The loop of LFA1, cell by cell: on the row of a child the labels of
    [cols_to_clear] (NAME2, NAME3, NAME4) receive the empty string, NAME1
    the common name, the labels of [lfa1_cols_fill_x] (LOEVM, SPERR, SPERM)
    an X, each by the rule of [written]; every other cell of the sheet is
    as the loop found it. *)
Theorem lfa1_cell_rules (ctx : Ctx) (lfa1_src_col : string) (lfa1 : DataFrame)
  (mc : Ledger) (idx : nat) (col : string) :
  idx < nrows lfa1 →
  col ∈ columns lfa1 →
  let sid := row_sid lfa1 lfa1_src_col idx in
  let old := df_at lfa1 idx col in
  df_at (for_rows lfa1 (lfa1_row ctx lfa1_src_col) mc).1 idx col
  = if is_child ctx sid then
      if bool_decide (col ∈ cols_to_clear) then written old ""
      else if bool_decide (col ∈ cols_to_replace)
           then written old (common_supplier (resolve_parent ctx sid))
      else if bool_decide (col ∈ lfa1_cols_fill_x) then written old "X"
      else old
    else old.
Proof.
  intros Hidx Hcol sid old. rewrite lfa1_loop_writes.
  destruct (for_rows_writes (ep ctx) LFA1
              (λ row, lfa1_writes ctx (PyStr.strip (str (row lfa1_src_col))))
              lfa1 mc) as (_ & _ & Hat & _).
  { intros row. apply lfa1_writes_NoDup. }
  cbv zeta in Hat. rewrite Hat, decide_True by done.
  fold (row_sid lfa1 lfa1_src_col idx). fold sid. fold old.
  unfold lfa1_writes. destruct (is_child ctx sid); [|done].
  rewrite !get_app, !get_each.
  destruct (bool_decide (col ∈ cols_to_clear)); [by apply writes_written|].
  destruct (bool_decide (col ∈ cols_to_replace)); [by apply writes_written|].
  destruct (bool_decide (col ∈ lfa1_cols_fill_x)); [by apply writes_written|done].
Qed.

Lemma lfa1_cell_rules_witness :
  1 < nrows Samples.lfa1 ∧ "LOEVM" ∈ columns Samples.lfa1 ∧
  df_at (for_rows Samples.lfa1 (lfa1_row Samples.ctx "Source_ID") ∅).1 1 "LOEVM"
  = Str "X".
Proof.
  assert (H1 : 1 < nrows Samples.lfa1) by (vm_compute; lia).
  assert (H2 : "LOEVM" ∈ columns Samples.lfa1) by decide_now.
  split_and!; [exact H1 | exact H2 |].
  rewrite (lfa1_cell_rules Samples.ctx "Source_ID" Samples.lfa1 ∅ 1 "LOEVM" H1 H2).
  vm_compute. reflexivity.
Defined.

(* ================================================================== *)
(** * The ledger names the cells that changed *)
(* ================================================================== *)

Section exact_facts.
Implicit Types (ctx : Ctx) (df : DataFrame) (mc : Ledger).

Lemma but000_loop_exact ctx source_col df mc :
  ledger_exact (ep ctx) BUT000 df mc (but000_loop ctx source_col df mc).
Proof.
  rewrite but000_loop_writes.
  apply (for_rows_writes_exact (ep ctx) BUT000
           (λ row, but000_writes ctx (PyStr.strip (str (row source_col))))).
  - intros row. apply but000_writes_NoDup.
  - intros i c. apply ensured_same.
Qed.

Lemma reconcile_loop_exact ctx s src_col code_col df mc :
  find_column df "Source_ID" = inr src_col →
  ledger_exact (ep ctx) s df mc (reconcile_loop ctx s src_col code_col df mc).
Proof.
  intros Hsrc. apply find_column_Source_ID in Hsrc as (_ & _ & Hne & _).
  rewrite reconcile_loop_writes.
  apply (for_rows_writes_exact (ep ctx) s
           (reconcile_writes ctx src_col code_col "_ACTION_CODE"
              (group_sets (ensure_column df "_ACTION_CODE") src_col code_col))).
  - intros row. by apply reconcile_writes_NoDup.
  - apply (ensured_ensure_column df df "_ACTION_CODE"); [done|].
    intros i c. apply ensured_same.
Qed.

Lemma but000_general_exact ctx df mc :
  ledger_exact (ep ctx) BUT000 (clean_headers df) mc (but000_general ctx df mc).1.
Proof.
  unfold but000_general. destruct (find_column _ _) as [e|source_col]; cbn [fst].
  - apply ledger_exact_refl.
  - rewrite <- surjective_pairing. apply but000_loop_exact.
Qed.

Lemma adrc_address_exact ctx df mc :
  ledger_exact (ep ctx) ADRC (clean_headers df) mc (adrc_address ctx df mc).1.
Proof.
  unfold adrc_address. destruct (find_column _ "Source_ID") as [e|src_col];
    [apply ledger_exact_refl|].
  destruct (find_column _ "Name1") as [e|name_col]; [apply ledger_exact_refl|].
  cbn [fst]. rewrite <- surjective_pairing, adrc_loop_writes.
  apply (for_rows_writes_exact (ep ctx) ADRC
           (λ row, adrc_writes ctx name_col (PyStr.strip (str (row src_col))))).
  - intros row. apply adrc_writes_NoDup.
  - intros i c. apply ensured_same.
Qed.

Lemma lfa1_supplier_general_exact ctx df mc :
  ledger_exact (ep ctx) LFA1 (clean_headers df) mc
               (lfa1_supplier_general ctx df mc).1.
Proof.
  unfold lfa1_supplier_general.
  destruct (find_column _ "Source_ID") as [e|src_col]; [apply ledger_exact_refl|].
  cbn [fst]. rewrite <- surjective_pairing, lfa1_loop_writes.
  apply (for_rows_writes_exact (ep ctx) LFA1
           (λ row, lfa1_writes ctx (PyStr.strip (str (row src_col))))).
  - intros row. apply lfa1_writes_NoDup.
  - intros i c. apply ensured_same.
Qed.

Lemma lfb1_company_code_exact ctx df mc :
  ledger_exact (ep ctx) LFB1 (clean_headers df) mc (lfb1_company_code ctx df mc).1.
Proof.
  unfold lfb1_company_code.
  destruct (find_column _ "Source_ID") as [e|src_col] eqn:Hsrc;
    [apply ledger_exact_refl|].
  destruct (find_column _ "BUKRS") as [e|bukrs_col]; [apply ledger_exact_refl|].
  cbn [fst]. rewrite <- surjective_pairing. by apply reconcile_loop_exact.
Qed.

Lemma lfm1_purchasing_org_exact ctx df mc :
  ledger_exact (ep ctx) LFM1 (clean_headers df) mc
               (lfm1_purchasing_org ctx df mc).1.
Proof.
  unfold lfm1_purchasing_org.
  destruct (try_find_columns _) as [e|[src_col ekorg_col]] eqn:Hfind;
    [apply ledger_exact_refl|].
  apply try_find_columns_inr in Hfind as (Hsrc & _ & ->).
  cbn [fst]. rewrite <- surjective_pairing. by apply reconcile_loop_exact.
Qed.

Lemma wyt3_partner_function_exact ctx df mc :
  ledger_exact (ep ctx) WYT3 (clean_headers df) mc
               (wyt3_partner_function ctx df mc).1.
Proof.
  unfold wyt3_partner_function.
  destruct (try_find_columns _) as [e|[src_col ekorg_col]] eqn:Hfind;
    [apply ledger_exact_refl|].
  apply try_find_columns_inr in Hfind as (Hsrc & _ & ->).
  apply find_column_Source_ID in Hsrc as (_ & _ & Hne1 & Hne2).
  cbn [fst]. rewrite <- surjective_pairing, wyt3_loop_writes.
  set (d := clean_headers df).
  apply (for_rows_writes_exact (ep ctx) WYT3
           (wyt3_writes ctx src_col ekorg_col "_ACTION_CODE"
              (group_sets (ensure_column d "_ACTION_CODE") src_col ekorg_col)
              (find_parvw (columns (ensure_column d "_ACTION_CODE"))) "DEFPA")).
  - intros row. by apply wyt3_writes_NoDup.
  - destruct (ensured_ensure_column d d "_ACTION_CODE") as [S1 B1]; [done| |].
    { intros i c. apply ensured_same. }
    by apply (ensured_ensure_column d (ensure_column d "_ACTION_CODE") "DEFPA").
Qed.

End exact_facts.

(** Whatever the sheet and the ledger a step starts from, the ledger it
    leaves is exact for the sheet it leaves: an entry the step adds names a
    row and a label of the sheet whose trimmed text differs from what the
    cleaned sheet held, and a cell whose value differs from the cleaned
    sheet is named, the one exception being an absent cell that
    commonsupplier.py has filled with the empty string. *)
Theorem ledger_names_the_changed_cells (ctx : Ctx) (df : DataFrame) (mc : Ledger) :
  (∀ source_col,
     ledger_exact (ep ctx) BUT000 df mc (but000_loop ctx source_col df mc)) ∧
  ledger_exact (ep ctx) BUT000 (clean_headers df) mc (but000_general ctx df mc).1 ∧
  ledger_exact (ep ctx) ADRC (clean_headers df) mc (adrc_address ctx df mc).1 ∧
  ledger_exact (ep ctx) LFA1 (clean_headers df) mc
               (lfa1_supplier_general ctx df mc).1 ∧
  ledger_exact (ep ctx) LFB1 (clean_headers df) mc (lfb1_company_code ctx df mc).1 ∧
  ledger_exact (ep ctx) LFM1 (clean_headers df) mc
               (lfm1_purchasing_org ctx df mc).1 ∧
  ledger_exact (ep ctx) WYT3 (clean_headers df) mc
               (wyt3_partner_function ctx df mc).1.
Proof.
  split_and!.
  - intros source_col. apply but000_loop_exact.
  - apply but000_general_exact.
  - apply adrc_address_exact.
  - apply lfa1_supplier_general_exact.
  - apply lfb1_company_code_exact.
  - apply lfm1_purchasing_org_exact.
  - apply wyt3_partner_function_exact.
Qed.

(* ================================================================== *)
(** * What a run raises *)
(* ================================================================== *)

Section outcome_facts.
Implicit Types (workbook : dict DataFrame) (R : Run) (ctx : Ctx).

Lemma bind_snd {A B} (m : M A) (k : A → M B) R :
  (bind m k R).2
  = match (m R).2 with
    | inl e => inl e
    | inr a => (k a (m R).1).2
    end.
Proof. unfold bind. by destruct (m R) as [R' [e|a]]. Qed.

Lemma on_required_at {A} (name : string)
  (f : DataFrame → Ledger → DataFrame * Ledger * (Exn + A)) R df :
  get (sheets R) name = Some df →
  on_required name f R
  = (mkRun (set (sheets R) name (f df (modified_cells R)).1.1)
           (f df (modified_cells R)).1.2 (warnings R),
     (f df (modified_cells R)).2).
Proof. intros Hg. unfold on_required. by rewrite Hg. Qed.

Lemma on_optional_sheets (name : string)
  (f : DataFrame → Ledger → DataFrame * Ledger * list Exn) R s :
  s ≠ name → get (sheets (on_optional name f R).1) s = get (sheets R) s.
Proof.
  intros Hne. unfold on_optional. destruct (get (sheets R) name); [|done].
  cbn [fst sheets]. by apply get_set_ne.
Qed.

Lemma find_column_inl df t e : find_column df t = inl e → e = KeyError_column t.
Proof. unfold find_column. destruct (find_label _ _); [done|]. by intros [= <-]. Qed.

Lemma required_present workbook s :
  first_missing workbook required_sheets = None →
  s ∈ required_sheets → ∃ df, get workbook s = Some df.
Proof.
  unfold first_missing. intros Hf Hs.
  destruct (get workbook s) as [df|] eqn:Hg; [by exists df|].
  assert (Hin : s ∈ filter (λ s, mem workbook s = false) required_sheets).
  { apply list_elem_of_filter. split; [|done]. unfold mem. by rewrite Hg. }
  destruct (filter _ required_sheets); [by apply elem_of_nil in Hin | done].
Qed.

Lemma first_failing_app workbook l1 l2 :
  first_failing workbook (l1 ++ l2)
  = match first_failing workbook l1 with
    | Some t => Some t
    | None => first_failing workbook l2
    end.
Proof.
  induction l1 as [|[s t] l1 IH]; [done|]. simpl.
  by destruct (lookup_fails workbook s t).
Qed.

(** The five steps that both entry points share. *)
Lemma update_sheets_outcome ctx workbook R :
  first_missing workbook required_sheets = None →
  get (sheets R) ADRC = get workbook ADRC →
  get (sheets R) LFA1 = get workbook LFA1 →
  get (sheets R) LFB1 = get workbook LFB1 →
  (update_sheets ctx R).2
  = match first_failing workbook
            [(ADRC, "Source_ID"); (ADRC, "Name1"); (LFA1, "Source_ID");
             (LFB1, "Source_ID"); (LFB1, "BUKRS")] with
    | Some t => inl (KeyError_column t)
    | None => inr tt
    end.
Proof.
  intros Hfm Hadrc Hlfa1 Hlfb1.
  destruct (required_present workbook ADRC Hfm) as [adrc Gadrc]; [decide_now|].
  destruct (required_present workbook LFA1 Hfm) as [lfa1 Glfa1]; [decide_now|].
  destruct (required_present workbook LFB1 Hfm) as [lfb1 Glfb1]; [decide_now|].
  rewrite Gadrc in Hadrc. rewrite Glfa1 in Hlfa1. rewrite Glfb1 in Hlfb1.
  unfold update_sheets. cbn [first_failing]. unfold lookup_fails.
  rewrite Gadrc, Glfa1, Glfb1.
  (* ADRC *)
  rewrite bind_snd, (on_required_at ADRC _ R adrc Hadrc). cbn [fst snd].
  unfold adrc_address at 1 3.
  destruct (find_column (clean_headers adrc) "Source_ID") as [e|c1] eqn:F1.
  { cbn [snd]. by rewrite (find_column_inl _ _ _ F1). }
  destruct (find_column (clean_headers adrc) "Name1") as [e|c2] eqn:F2.
  { cbn [snd]. by rewrite (find_column_inl _ _ _ F2). }
  cbn [snd].
  (* LFA1 *)
  rewrite bind_snd, (on_required_at LFA1 _ _ lfa1).
  2:{ cbn [sheets]. rewrite get_set_ne by names_ne. exact Hlfa1. }
  cbn [fst snd]. unfold lfa1_supplier_general at 1 3.
  destruct (find_column (clean_headers lfa1) "Source_ID") as [e|c3] eqn:F3.
  { cbn [snd]. by rewrite (find_column_inl _ _ _ F3). }
  cbn [snd].
  (* LFB1 *)
  rewrite bind_snd, (on_required_at LFB1 _ _ lfb1).
  2:{ cbn [sheets]. rewrite !get_set_ne by names_ne. exact Hlfb1. }
  cbn [fst snd]. unfold lfb1_company_code at 1 3.
  destruct (find_column (clean_headers lfb1) "Source_ID") as [e|c4] eqn:F4.
  { cbn [snd]. by rewrite (find_column_inl _ _ _ F4). }
  destruct (find_column (clean_headers lfb1) "BUKRS") as [e|c5] eqn:F5.
  { cbn [snd]. by rewrite (find_column_inl _ _ _ F5). }
  cbn [snd].
  (* the optional sheets *)
  rewrite bind_snd, !on_optional_returns. done.
Qed.

End outcome_facts.

(** What a run raises or returns is decided by the sheet names and the
    labels of the workbook alone: the [ValueError] of the first required
    sheet that is missing; otherwise the [KeyError] of the first lookup, in
    the order of the calls, that finds no label in its sheet; otherwise the
    run reaches the assembly.  The pairs, the cells and the two optional
    sheets have no part in it, and the two entry points differ only in
    which of BUT100 and BUT000 is looked at first. *)
Theorem run_outcome (workbook : dict DataFrame) (pairs : list (string * string)) :
  (CommonSupplierPy.process_excel workbook pairs).2 = outcome CommonSupplier workbook ∧
  (MainPy.process_excel workbook).2 = outcome Main workbook.
Proof.
  unfold outcome.
  destruct (first_missing workbook required_sheets) as [s|] eqn:Hfm.
  { unfold CommonSupplierPy.process_excel, CommonSupplierPy.process_excel_steps,
      MainPy.process_excel, MainPy.process_excel_steps.
    rewrite !bind_snd, !check_required_first_missing.
    change (sheets (start workbook)) with workbook.
    rewrite Hfm. done. }
  destruct (required_present workbook BUT000 Hfm) as [but000 G0]; [decide_now|].
  destruct (required_present workbook BUT100 Hfm) as [but100 G1]; [decide_now|].
  unfold lookups. rewrite !first_failing_app. cbn [first_failing].
  split.
  - unfold lookup_fails at 1 2. rewrite G0, G1.
    unfold CommonSupplierPy.process_excel, CommonSupplierPy.process_excel_steps.
    rewrite bind_snd, check_required_first_missing.
    change (sheets (start workbook)) with workbook.
    rewrite Hfm. cbn [fst snd]. cbv zeta.
    rewrite bind_snd, (on_required_at BUT100 _ (start workbook) but100 G1). cbn [fst snd].
    unfold but100_role at 1 3.
    destruct (find_column (clean_headers but100) "Source_ID") as [e|c1] eqn:F1.
    { cbn [snd]. by rewrite (find_column_inl _ _ _ F1). }
    cbn [snd].
    rewrite bind_snd, (on_required_at BUT000 _ _ but000).
    2:{ cbn [sheets]. rewrite get_set_ne by names_ne. exact G0. }
    cbn [fst snd]. unfold but000_general at 1 3.
    destruct (find_column (clean_headers but000) "Source_ID") as [e|c0] eqn:F0.
    { cbn [snd]. by rewrite (find_column_inl _ _ _ F0). }
    cbn [snd].
    apply update_sheets_outcome; [done|..];
      cbn [sheets]; rewrite !get_set_ne by names_ne; reflexivity.
  - unfold lookup_fails at 1 2. rewrite G0, G1.
    unfold MainPy.process_excel, MainPy.process_excel_steps.
    rewrite bind_snd, check_required_first_missing.
    change (sheets (start workbook)) with workbook.
    rewrite Hfm. cbn [fst snd].
    rewrite bind_snd, (on_required_at BUT000 _ (start workbook) but000 G0). cbn [fst snd].
    unfold but000_identify at 1 3.
    destruct (find_column (clean_headers but000) "Source_ID") as [e|c0] eqn:F0.
    { cbn [snd]. by rewrite (find_column_inl _ _ _ F0). }
    cbn [snd].
    rewrite bind_snd, (on_required_at BUT100 _ _ but100).
    2:{ cbn [sheets]. rewrite get_set_ne by names_ne. exact G1. }
    cbn [fst snd]. unfold but100_role at 1 3.
    destruct (find_column (clean_headers but100) "Source_ID") as [e|c1] eqn:F1.
    { cbn [snd]. by rewrite (find_column_inl _ _ _ F1). }
    cbn [snd]. cbv zeta.
    rewrite bind_snd, (on_required_at BUT000 _ _ (clean_headers but000)).
    2:{ cbn [sheets]. rewrite get_set_ne by names_ne.
        unfold but000_identify. rewrite F0. apply get_set_eq. }
    cbn [fst snd]. unfold but000_update at 1 3. cbn [snd].
    apply update_sheets_outcome; [done|..];
      cbn [sheets]; rewrite !get_set_ne by names_ne; reflexivity.
Qed.

Example outcomes_of_the_samples :
  outcome CommonSupplier Samples.workbook = inr tt ∧
  outcome Main (set Samples.workbook LFM1 Samples.lfm1_no_ekorg) = inr tt ∧
  outcome CommonSupplier
          (set (set Samples.workbook ADRC (frame ["Source_ID"; "CITY1"] []))
               BUT100 (frame ["RLTYP"] []))
  = inl (KeyError_column "Source_ID") ∧
  outcome Main (set Samples.workbook ADRC (frame ["Source_ID"; "CITY1"] []))
  = inl (KeyError_column "Name1") ∧
  outcome Main [(BUT000, Samples.but000); (ADRC, Samples.adrc)]
  = inl (ValueError_missing_sheet BUT100).
Proof. vm_compute. split_and!; reflexivity. Qed.

(* ================================================================== *)
(** * What a run leaves of the workbook *)
(* ================================================================== *)

Section run_frame_facts.
Implicit Types (ctx : Ctx) (df : DataFrame) (mc : Ledger) (R : Run)
  (workbook : dict DataFrame).

Lemma for_rows_nrows s body df mc :
  (∀ i row, row_local s i (body i row)) →
  nrows (for_rows df body mc).1 = nrows df.
Proof. intros Hloc. apply (for_rows_frame s body df mc Hloc). Qed.

Lemma but000_general_nrows ctx df mc :
  nrows (but000_general ctx df mc).1.1 = nrows df.
Proof.
  unfold but000_general. destruct (find_column _ _); cbn [fst];
    [apply nrows_clean_headers|].
  unfold but000_loop. rewrite (for_rows_nrows BUT000) by apply but000_row_local.
  apply nrows_clean_headers.
Qed.

Lemma but000_update_nrows ctx source_col df mc :
  nrows (but000_update ctx source_col df mc).1.1 = nrows df.
Proof.
  unfold but000_update, but000_loop. cbn [fst].
  by rewrite (for_rows_nrows BUT000) by apply but000_row_local.
Qed.

Lemma adrc_address_nrows ctx df mc :
  nrows (adrc_address ctx df mc).1.1 = nrows df.
Proof.
  unfold adrc_address. destruct (find_column _ "Source_ID"); cbn [fst];
    [apply nrows_clean_headers|].
  destruct (find_column _ "Name1"); cbn [fst]; [apply nrows_clean_headers|].
  rewrite (for_rows_nrows ADRC) by apply adrc_row_local.
  apply nrows_clean_headers.
Qed.

Lemma lfa1_supplier_general_nrows ctx df mc :
  nrows (lfa1_supplier_general ctx df mc).1.1 = nrows df.
Proof.
  unfold lfa1_supplier_general. destruct (find_column _ _); cbn [fst];
    [apply nrows_clean_headers|].
  rewrite (for_rows_nrows LFA1) by apply lfa1_row_local.
  apply nrows_clean_headers.
Qed.

Lemma reconcile_loop_nrows ctx s src_col code_col df mc :
  nrows (reconcile_loop ctx s src_col code_col df mc).1 = nrows df.
Proof.
  unfold reconcile_loop.
  rewrite (for_rows_nrows s) by apply reconcile_row_local.
  apply nrows_ensure_column.
Qed.

Lemma wyt3_loop_nrows ctx src_col ekorg_col df mc :
  nrows (wyt3_loop ctx src_col ekorg_col df mc).1 = nrows df.
Proof.
  unfold wyt3_loop.
  rewrite (for_rows_nrows WYT3) by apply wyt3_row_local.
  by rewrite !nrows_ensure_column.
Qed.

Lemma lfb1_company_code_nrows ctx df mc :
  nrows (lfb1_company_code ctx df mc).1.1 = nrows df.
Proof.
  unfold lfb1_company_code. destruct (find_column _ "Source_ID"); cbn [fst];
    [apply nrows_clean_headers|].
  destruct (find_column _ "BUKRS"); cbn [fst]; [apply nrows_clean_headers|].
  rewrite reconcile_loop_nrows. apply nrows_clean_headers.
Qed.

Lemma lfm1_purchasing_org_nrows ctx df mc :
  nrows (lfm1_purchasing_org ctx df mc).1.1 = nrows df.
Proof.
  unfold lfm1_purchasing_org. destruct (try_find_columns _) as [e|[s1 s2]];
    cbn [fst]; [apply nrows_clean_headers|].
  destruct (both_truthy s1 s2); cbn [fst]; [|apply nrows_clean_headers].
  rewrite reconcile_loop_nrows. apply nrows_clean_headers.
Qed.

Lemma wyt3_partner_function_nrows ctx df mc :
  nrows (wyt3_partner_function ctx df mc).1.1 = nrows df.
Proof.
  unfold wyt3_partner_function. destruct (try_find_columns _) as [e|[s1 s2]];
    cbn [fst]; [apply nrows_clean_headers|].
  destruct (both_truthy s1 s2); cbn [fst]; [|apply nrows_clean_headers].
  rewrite wyt3_loop_nrows. apply nrows_clean_headers.
Qed.

Lemma sheet_step_of (e : entry_point) (name : string) df0 df mc
  (out : DataFrame * Ledger) :
  nrows out.1 = nrows df →
  tagged name mc out.2 →
  ledger_exact e name df0 mc out →
  sheet_step name df mc out.
Proof.
  intros Hn [_ Htag] Hex. split; [done|]. intros [[s i] c] He.
  destruct (Htag _ He) as [?|Hs]; [by left|]. simpl in Hs. subst s.
  destruct (proj1 (Hex i c) He) as [?|(Hi & Hc & _)]; [by left|].
  right. by exists i, c.
Qed.

Lemma clean_headers_twice df : clean_headers (clean_headers df) = clean_headers df.
Proof.
  unfold clean_headers. simpl. f_equal. rewrite <- list_fmap_compose.
  apply list_fmap_ext. intros i [c f] _. simpl. f_equal.
  apply clean_label_clean_label.
Qed.

Lemma run_inv_start workbook : run_inv workbook [] (start workbook).
Proof.
  split_and!; [done| |].
  - intros s df Hg. exists df. split_and!; [done..| by left].
  - intros s i c Hin. by apply elem_of_empty in Hin.
Qed.

Lemma run_inv_mono workbook (d1 d2 : list string) R :
  d1 ⊆ d2 → run_inv workbook d1 R → run_inv workbook d2 R.
Proof.
  intros Hsub (H1 & H2 & H3). split_and!; [done..|].
  intros s i c Hin. destruct (H3 s i c Hin) as [Hs Hout]. split; [|done].
  by apply Hsub.
Qed.

(** A step that stores [out] under [name] and leaves the ledger [mc']. *)
Lemma run_inv_store workbook (done : list string) R (name : string) df out mc'
  (w : list Exn) :
  name ∈ written_sheets → name ∉ done →
  get (sheets R) name = Some df →
  sheet_step name df (modified_cells R) (out, mc') →
  run_inv workbook done R →
  run_inv workbook (name :: done) (mkRun (set (sheets R) name out) mc' w).
Proof.
  intros Hw Hnd Hg [Hn Hent] (H1 & H2 & H3). cbn [fst snd] in Hn, Hent.
  split_and!; cbn [sheets modified_cells].
  - rewrite keys_set_in; [done|]. by eapply get_Some_keys.
  - intros s df0 Hs. destruct (H2 s df0 Hs) as (o & Ho & Hno & Hother & Hrole).
    destruct (decide (name = s)) as [<-|Hne].
    + exists out. rewrite get_set_eq. split_and!; [done|..].
      * rewrite Hg in Ho. injection Ho as <-. congruence.
      * intros Hout. exfalso. apply Hout. by right.
      * intros ->. exfalso. revert Hw. apply (bool_decide_unpack _). by vm_compute.
    + exists o. rewrite get_set_ne by done. done.
  - intros s i c Hin. destruct (Hent _ Hin) as [Hold|(i' & c' & Heq & Hi & Hc)].
    + destruct (H3 s i c Hold) as [Hs (o & Ho & Hio & Hco)].
      split; [by right|]. exists o. split; [|done].
      rewrite get_set_ne; [done|]. by intros ->.
    + injection Heq as -> -> ->. split; [by left|]. exists out.
      by rewrite get_set_eq.
Qed.

(** A step that only cleans the headers of the sheet [name]. *)
Lemma run_inv_clean workbook (done : list string) R (name : string) df
  (w : list Exn) :
  name ∈ BUT100 :: written_sheets → name ∉ done →
  get (sheets R) name = Some df →
  run_inv workbook done R →
  run_inv workbook done
          (mkRun (set (sheets R) name (clean_headers df)) (modified_cells R) w).
Proof.
  intros Hw Hnd Hg (H1 & H2 & H3). split_and!; cbn [sheets modified_cells].
  - rewrite keys_set_in; [done|]. by eapply get_Some_keys.
  - intros s df0 Hs. destruct (H2 s df0 Hs) as (o & Ho & Hno & Hother & Hrole).
    destruct (decide (name = s)) as [<-|Hne].
    + exists (clean_headers df). rewrite get_set_eq.
      rewrite Hg in Ho. injection Ho as <-.
      split_and!; [done|by rewrite nrows_clean_headers|done|].
      intros Hn. right. destruct (Hrole Hn) as [->| ->]; [done|].
      apply clean_headers_twice.
    + exists o. rewrite get_set_ne by done. done.
  - intros s i c Hin. destruct (H3 s i c Hin) as [Hs (o & Ho & Hio & Hco)].
    split; [done|]. exists o. split; [|done].
    rewrite get_set_ne; [done|]. by intros ->.
Qed.

End run_frame_facts.
